(** * The ingestion pipeline of the WhatsApp/TikTok restaurant mapper

    A shallow embedding of [downloader.py], [metadata_filter.py],
    [geocoder.py] and the parts of [analyzer.py] the orchestrator depends
    on, together with the properties the design document states of them.

    Conventions of the embedding:
    - Python [str] is [string] (a sequence of bytes); [str.lower] acts on
      the ASCII letters and leaves every other byte as it is.
    - a Python [dict] used as a map (the URL tracker) is a [gmap];
    - an exception is represented by its [str(e)] text; a call either
      returns or raises ([Outcome]);
    - the process state the handlers change (tracker file, remote backup,
      uploaded envelopes, calls made to the collaborators, printed lines)
      is the record [World], threaded by the monad [M];
    - what the collaborators answer (yt-dlp, Gemini, GCS, Nominatim,
      ffmpeg) is the record [Env], an oracle fixed for the duration of one
      request; yt-dlp always reports a title, and a file uploaded to
      Gemini leaves the PROCESSING state after finitely many polls;
    - operations on the local file system succeed;
    - printed lines keep their text but not the double quotes some of them
      put around a value, and the lines that print coordinates print their
      text; the pauses of the geocoder's rate limit ([time.sleep]) and the
      prompt sent to the model change nothing the properties speak of and
      are left out. *)

From Stdlib Require Import ZArith Ascii String List Bool Lia.
From stdpp Require Import base option list gmap strings fin_maps pretty sorting.

Local Open Scope string_scope.
Local Open Scope Z_scope.
Local Open Scope list_scope.

(** ** Strings as Python uses them *)

Module Str.

(** [s.split(sep)[0]]: the part of [s] before the first [sep]. *)
Fixpoint split_head (sep : ascii) (s : string) : string :=
  match s with
  | EmptyString => EmptyString
  | String c r => if Ascii.eqb c sep then EmptyString
                  else String c (split_head sep r)
  end.

(** [s.rstrip(ch)] for a one-character argument. *)
Fixpoint rstrip (ch : ascii) (s : string) : string :=
  match s with
  | EmptyString => EmptyString
  | String c r =>
      match rstrip ch r with
      | EmptyString => if Ascii.eqb c ch then EmptyString
                       else String c EmptyString
      | r' => String c r'
      end
  end.

(** [ch in s] for a character. *)
Fixpoint has_char (ch : ascii) (s : string) : bool :=
  match s with
  | EmptyString => false
  | String c r => Ascii.eqb c ch || has_char ch r
  end.

(** [ch * n] *)
Fixpoint replicate (n : nat) (ch : ascii) : string :=
  match n with
  | O => EmptyString
  | S k => String ch (replicate k ch)
  end.

(** [s.endswith(ch)] *)
Fixpoint ends_with (ch : ascii) (s : string) : bool :=
  match s with
  | EmptyString => false
  | String c EmptyString => Ascii.eqb c ch
  | String _ r => ends_with ch r
  end.

(** [s.startswith(p)] *)
Fixpoint starts_with (p s : string) : bool :=
  match p, s with
  | EmptyString, _ => true
  | String a p', String b s' => Ascii.eqb a b && starts_with p' s'
  | String _ _, EmptyString => false
  end.

(** [p in s] for strings: does [p] occur in [s] as a substring. *)
Fixpoint contains (s p : string) : bool :=
  starts_with p s ||
  match s with
  | EmptyString => false
  | String _ r => contains r p
  end.

Definition lower_ascii (c : ascii) : ascii :=
  let n := nat_of_ascii c in
  if (Nat.leb 65 n && Nat.leb n 90)%bool then ascii_of_nat (n + 32) else c.

(** [s.lower()] on the ASCII letters. *)
Fixpoint lower (s : string) : string :=
  match s with
  | EmptyString => EmptyString
  | String c r => String (lower_ascii c) (lower r)
  end.

(** [sep.join(parts)] *)
Fixpoint join (sep : string) (parts : list string) : string :=
  match parts with
  | [] => EmptyString
  | [p] => p
  | p :: rest => p +:+ sep +:+ join sep rest
  end.

(** A Python string is truthy when it is not empty. *)
Definition truthy (s : string) : bool :=
  match s with EmptyString => false | String _ _ => true end.

End Str.

(** ** [downloader.py]: URL normalisation *)

(** [normalize_url]: [url.split('?')[0].split('#')[0].rstrip('/')]. *)
Definition normalize_url (url : string) : string :=
  Str.rstrip "/" (Str.split_head "#" (Str.split_head "?" url)).

(** What may follow the kept prefix of a URL: nothing, a query string or
    a fragment. *)
Definition url_tail (s : string) : bool :=
  match s with
  | EmptyString => true
  | String c _ => Ascii.eqb c "?" || Ascii.eqb c "#"
  end.

(** ** [metadata_filter.py]: the keyword pre-filter *)

Inductive Verdict := likely | maybe | unlikely.

(** The metadata dict: each key may be missing or hold [None]. *)
Record Metadata := {
  md_title : option string;
  md_description : option string;
  md_uploader : option string;
  md_tags : option (list string);
}.

Definition HIGH_KEYWORDS : list string := [
  "restaurant"; "cafe"; "café"; "bistro"; "omakase"; "ramen"; "sushi";
  "pizzeria"; "diner"; "eatery"; "foodtok"; "foodie"; "mukbang";
  "michelin"; "foodcrawl"; "food crawl"; "food tour"; "food review";
  "food spot"; "food vlog"; "food blog"; "must eat"; "must try";
  "best eats"; "where to eat"; "eating tour"; "street food";
  "food guide"; "food find"; "food hack"; "food rec";
  "izakaya"; "trattoria"; "gastropub"; "hawker";
  "resto"; "warung"; "kuliner"; "kulineran"; "makan"; "makanan";
  "kopitiam"; "bakso"; "prasmanan"; "foodmap"; "jktfood"; "jktgo";
  "yakitori"; "yakibuta"; "tempura"; "udon"; "donburi"
].

Definition MEDIUM_KEYWORDS : list string := [
  "food"; "eat"; "eating"; "ate"; "brunch"; "lunch"; "dinner";
  "breakfast"; "cook"; "cooking"; "recipe"; "dish"; "menu"; "taste";
  "tasting"; "delicious"; "yummy"; "hungry"; "bao"; "pho"; "taco";
  "burger"; "steak"; "pasta"; "noodle"; "noodles"; "bbq"; "barbecue";
  "seafood"; "dessert"; "bakery"; "hidden gem"; "chef"; "kitchen";
  "appetizer"; "entree"; "cocktail"; "wine bar"; "bar food";
  "dim sum"; "dumpling"; "pizza"; "curry"; "thai"; "korean";
  "japanese"; "mexican"; "italian"; "chinese"; "vietnamese";
  "indian"; "mediterranean"; "greek"; "french cuisine";
  "spicy"; "crispy"; "grilled"; "fried"; "roasted";
  "nasi"; "mie"; "bakmi"; "bakmie"; "babi"; "ayam"; "bebek";
  "sambal"; "goreng"; "soto"; "enak"; "cobain"; "nyobain";
  "batagor"; "cuankie"; "misoa"; "hainam"; "tiramisu";
  "lauknya"; "pedes"; "viral"; "hits";
  "tonkotsu"; "matcha"; "gyoza"; "katsu"; "bento"; "onigiri"
].

Definition ANTI_KEYWORDS : list string := [
  "tutorial"; "gaming"; "makeup"; "dance challenge"; "fitness";
  "workout"; "news"; "politics"; "unboxing tech"; "coding";
  "programming"; "skincare"; "fashion haul"; "prank";
  "diy craft"; "home decor diy"
].

(** [(metadata.get(k) or '')] *)
Definition or_empty (v : option string) : string :=
  match v with Some s => s | None => EmptyString end.

(** [(metadata.get('tags') or [])] *)
Definition or_nil (v : option (list string)) : list string :=
  match v with Some l => l | None => [] end.

(** The four lower-cased fields of lines 66-69. *)
Definition field_title (md : Metadata) : string := Str.lower (or_empty (md_title md)).
Definition field_description (md : Metadata) : string :=
  Str.lower (or_empty (md_description md)).
Definition field_uploader (md : Metadata) : string :=
  Str.lower (or_empty (md_uploader md)).
Definition field_tags (md : Metadata) : string :=
  Str.lower (Str.join " " (or_nil (md_tags md))).

(** [text = f'{title} {description} {uploader} {tags}'] *)
Definition blob (md : Metadata) : string :=
  field_title md +:+ " " +:+ field_description md +:+ " " +:+
  field_uploader md +:+ " " +:+ field_tags md.

(** One of the three [for kw in ...: if kw.lower() in text: score += w]
    loops, started with the score accumulated so far. *)
Fixpoint score_loop (w : Z) (keywords : list string) (text : string)
    (score : Z) : Z :=
  match keywords with
  | [] => score
  | kw :: rest =>
      score_loop w rest text
        (if Str.contains text (Str.lower kw) then score + w else score)
  end.

(** The value of [score] at line 87. *)
Definition score (md : Metadata) : Z :=
  let text := blob md in
  let score := 0 in
  let score := score_loop 3 HIGH_KEYWORDS text score in
  let score := score_loop 1 MEDIUM_KEYWORDS text score in
  let score := score_loop (-2) ANTI_KEYWORDS text score in
  score.

Definition verdict_of_score (score : Z) : Verdict :=
  if 3 <=? score then likely
  else if -1 <=? score then maybe
  else unlikely.

Definition is_likely_restaurant (md : Metadata) : Verdict :=
  verdict_of_score (score md).

(** Number of keywords of a list that occur in a text. *)
Definition matches (keywords : list string) (text : string) : nat :=
  length (List.filter (fun kw => Str.contains text (Str.lower kw)) keywords).

(** The design document's reading of the score, in which every field a
    keyword occurs in counts: the number of fields (title, description,
    uploader, tags) that contain the keyword. *)
Definition field_occurrences (md : Metadata) (kw : string) : nat :=
  length (List.filter (fun f => Str.contains f (Str.lower kw))
            [field_title md; field_description md; field_uploader md;
             field_tags md]).

Definition per_field_sum (w : Z) (keywords : list string) (md : Metadata) : Z :=
  fold_right (fun kw acc => w * Z.of_nat (field_occurrences md kw) + acc) 0 keywords.

Definition per_field_score (md : Metadata) : Z :=
  per_field_sum 3 HIGH_KEYWORDS md + per_field_sum 1 MEDIUM_KEYWORDS md +
  per_field_sum (-2) ANTI_KEYWORDS md.

(** ** Data model of the pipeline *)

Inductive Category :=
  | skipped_not_restaurant
  | restaurant
  | not_restaurant
  | analysis_failed.

(** A tracker entry.  [te_restaurants_found] is [None] in the entry of a
    filtered-out URL, which has no such key; a missing key and a [None]
    value are not told apart for [te_analysis_file] and
    [te_analysis_error]. *)
Record TrackerEntry := {
  te_filename : option string;
  te_title : string;
  te_uploader : option string;
  te_sender : string;
  te_chat : string;
  te_downloaded_at : string;
  te_category : Category;
  te_filter_result : Verdict;
  te_restaurants_found : option nat;
  te_analysis_file : option string;
  te_analysis_error : option string;
}.

(** The tracker: a dict from the submitted (raw) URL to its entry. *)
Abbreviation Tracker := (gmap string TrackerEntry).

(** The [location] dict of a restaurant record. *)
Record Location := {
  specific_address : option string;
  neighborhood : option string;
  city : option string;
  state_or_region : option string;
  country : option string;
}.

(** Coordinates as [float(...)] read them, kept as their text. *)
Record Coords := { lat : string; lng : string }.

(** One element of the analysis result.  [r_coords] is [None] before
    geocoding and [Some c] after it, [c] being the coordinates or
    [None]. *)
Record Restaurant := {
  r_name : string;
  r_location : option Location;
  r_food_shot_timestamps : list string;
  r_food_images : list string;
  r_coords : option (option Coords);
}.

(** The envelope [analyze_video] uploads. *)
Record Envelope := {
  ev_tiktok_url : string;
  ev_video_file : string;
  ev_title : string;
  ev_uploader : string;
  ev_restaurants_found : nat;
  ev_restaurants : list Restaurant;
}.

(** What [extract_metadata] returns (yt-dlp always reports an id and a
    title; [duration] is never read). *)
Record YtMeta := {
  yt_id : string;
  yt_title : string;
  yt_description : option string;
  yt_uploader : option string;
  yt_tags : option (list string);
}.

(** What [download_video] returns. *)
Record DlResult := {
  dl_filename : string;
  dl_id : string;
  dl_title : string;
  dl_uploader : option string;
}.

(** The [.info.json] sidecar yt-dlp writes next to the video. *)
Record InfoJson := {
  ij_title : option string;
  ij_fulltitle : option string;
  ij_description : option string;
  ij_uploader : option string;
  ij_tags : option (list string);
}.

(** The JSON body of a [/process] request. *)
Record Request := {
  rq_url : option string;
  rq_chat_name : option string;
  rq_sender : option string;
}.

Inductive Status := st_error | st_skipped | st_success.

(** The response of [/process]: HTTP code and the fields of the body. *)
Record Response := {
  http_code : Z;
  rs_status : Status;
  rs_message : string;
  rs_category : option Category;
  rs_filter_result : option Verdict;
  rs_restaurants_found : option nat;
  rs_analysis : list Restaurant;
}.

(** ** Effects *)

(** A call returns a value or raises; the exception is its [str(e)]. *)
Inductive Outcome (A : Type) :=
  | Returned (a : A)
  | Raised (msg : string).
Arguments Returned {A} a.
Arguments Raised {A} msg.

(** Calls that leave the process, and writes of the tracker file. *)
Inductive Call :=
  | CallExtractMetadata (url : string)
  | CallDownloadVideo (url : string)
  | CallGeminiUpload (path : string)
  | CallGeminiGet
  | CallGeminiGenerate
  | CallExtractFrames
  | CallNominatim (query : string)
  | CallGcsDownloadJson (path : string)
  | CallGcsUploadJson (path : string)
  | CallCleanup (path : string)
  | CallRebuildWebData
  | WriteTrackerFile.

(** State of a file uploaded to Gemini once it has left PROCESSING. *)
Inductive FileState := ACTIVE | OtherState (name : string).

(** What [json.loads(response.text)] yields when the text is JSON: a list
    of records, a single truthy value that is not a list (one record), or
    a falsy value that is not a list ([null], [0], an empty object). *)
Inductive Json :=
  | JList (items : list Restaurant)
  | JRecord (item : Restaurant)
  | JFalsy.

(** An element of a Nominatim reply: one whose [lat] and [lon] read as
    floats, or one on which lines 68-69 raise. *)
Inductive Place :=
  | PlaceAt (lat lon : string)
  | PlaceMalformed.

Inductive NetReply :=
  | NetError (msg : string)
  | NetJson (data : list Place).

(** The process state. [calls] and [stdout] hold the most recent item
    first. *)
Record World := {
  tracker_file : option Tracker;                (* url_tracker.json *)
  gcs_tracker : option Tracker;                 (* state/url_tracker.json *)
  gcs_analysis : gmap string Envelope;          (* analysis_results/... *)
  calls : list Call;
  stdout : list string;
}.

(** The collaborators' answers during one request. *)
Record Env := {
  gcs_up : bool;                                 (* the bucket can be reached *)
  now : string;                                  (* datetime.now(...).isoformat() *)
  yt_extract : string -> Outcome YtMeta;         (* extract_info(download=False) *)
  yt_download : string -> Outcome DlResult;      (* extract_info(download=True) *)
  info_json : string -> option InfoJson;         (* the sidecar of a video id *)
  video_on_disk : string -> bool;                (* video_path.exists() *)
  gemini_client : Outcome unit;                  (* _get_client() *)
  gemini_upload : Outcome unit;                  (* client.files.upload *)
  gemini_processing : nat;                       (* replies still PROCESSING *)
  gemini_settled : FileState;                    (* the state reported after them *)
  gemini_generate : Outcome string;              (* response.text *)
  json_loads : string -> option Json;            (* None: JSONDecodeError *)
  frame_images : Restaurant -> list string;      (* frames ffmpeg produced *)
  nominatim : string -> NetReply;                (* urlopen + json.loads *)
  cleanup : Outcome unit;                        (* the unlink calls *)
  rebuild_web_data : Outcome unit;
}.

Definition M (A : Type) : Type := World -> Outcome A * World.

Definition ret {A} (a : A) : M A := fun w => (Returned a, w).

Definition bind {A B} (m : M A) (k : A -> M B) : M B :=
  fun w => match m w with
           | (Returned a, w') => k a w'
           | (Raised e, w') => (Raised e, w')
           end.

Definition raise {A} (msg : string) : M A := fun w => (Raised msg, w).

(** [try: m except Exception as e: h e] *)
Definition try_except {A} (m : M A) (h : string -> M A) : M A :=
  fun w => match m w with
           | (Returned a, w') => (Returned a, w')
           | (Raised e, w') => h e w'
           end.

Notation "x <- m ;; k" := (bind m (fun x => k))
  (at level 100, m at next level, right associativity).
Notation "m ;;; k" := (bind m (fun _ => k))
  (at level 100, right associativity).

(** The elementary changes of the process state. *)
Definition log_call (c : Call) (w : World) : World :=
  {| tracker_file := tracker_file w; gcs_tracker := gcs_tracker w;
     gcs_analysis := gcs_analysis w; calls := c :: calls w;
     stdout := stdout w |}.

Definition log_line (line : string) (w : World) : World :=
  {| tracker_file := tracker_file w; gcs_tracker := gcs_tracker w;
     gcs_analysis := gcs_analysis w; calls := calls w;
     stdout := line :: stdout w |}.

Definition set_tracker_file (t : Tracker) (w : World) : World :=
  {| tracker_file := Some t; gcs_tracker := gcs_tracker w;
     gcs_analysis := gcs_analysis w; calls := calls w; stdout := stdout w |}.

Definition set_gcs_tracker (t : Tracker) (w : World) : World :=
  {| tracker_file := tracker_file w; gcs_tracker := Some t;
     gcs_analysis := gcs_analysis w; calls := calls w; stdout := stdout w |}.

Definition put_gcs_analysis (path : string) (e : Envelope) (w : World) : World :=
  {| tracker_file := tracker_file w; gcs_tracker := gcs_tracker w;
     gcs_analysis := <[path := e]> (gcs_analysis w);
     calls := calls w; stdout := stdout w |}.

Definition call (c : Call) : M unit := fun w => (Returned tt, log_call c w).

Definition print (line : string) : M unit :=
  fun w => (Returned tt, log_line line w).

(** Lift an oracle answer into the monad. *)
Definition answer {A} (o : Outcome A) : M A := fun w => (o, w).

(** [with open(TRACKER_FILE, 'w') as f: json.dump(t, f, ...)] *)
Definition write_tracker_file (t : Tracker) : M unit :=
  fun w => (Returned tt, set_tracker_file t (log_call WriteTrackerFile w)).

(** ** [gcs_utils.py] on the two kinds of object the pipeline stores *)

Definition TRACKER_BLOB : string := "state/url_tracker.json".

(** [download_json('state/url_tracker.json')] *)
Definition download_tracker_json (env : Env) : M (option Tracker) :=
  call (CallGcsDownloadJson TRACKER_BLOB) ;;;
  if gcs_up env then (fun w => (Returned (gcs_tracker w), w))
  else raise "GCS unreachable".

(** [upload_json(tracker, 'state/url_tracker.json')] *)
Definition upload_tracker_json (env : Env) (t : Tracker) : M unit :=
  call (CallGcsUploadJson TRACKER_BLOB) ;;;
  if gcs_up env then (fun w => (Returned tt, set_gcs_tracker t w))
  else raise "GCS unreachable".

(** [upload_json(output, gcs_path)] for an analysis envelope. *)
Definition upload_envelope_json (env : Env) (e : Envelope) (path : string)
    : M unit :=
  call (CallGcsUploadJson path) ;;;
  if gcs_up env then (fun w => (Returned tt, put_gcs_analysis path e w))
  else raise "GCS unreachable".

(** ** [downloader.py]: the tracker *)

(** A dict is truthy when [len] of it is not zero. *)
Definition dict_truthy (t : Tracker) : bool := negb (Nat.eqb (size t) 0).

Definition load_tracker (env : Env) : M Tracker :=
  fun w =>
    match tracker_file w with
    | Some t => (Returned t, w)
    | None =>
        (restored <-
           try_except
             (data <- download_tracker_json env ;;
              match data with
              | Some d =>
                  if dict_truthy d then
                    print "[Tracker] Restored from GCS backup" ;;;
                    write_tracker_file d ;;;
                    ret (Some d)
                  else ret None
              | None => ret None
              end)
             (fun e => print ("[Tracker] GCS restore failed: " +:+ e) ;;;
                       ret None) ;;
         match restored with
         | Some d => ret d
         | None => ret ∅
         end) w
    end.

Definition save_tracker (env : Env) (t : Tracker) : M unit :=
  write_tracker_file t ;;;
  try_except (upload_tracker_json env t)
             (fun e => print ("[Tracker] GCS backup failed: " +:+ e)).

(** The keys of the dict the [for] loop visits; what the loop returns does
    not depend on their order. *)
Definition dict_keys (t : Tracker) : list string := (map_to_list t).*1.

(** The loop of lines 69-72, with its early return. *)
Fixpoint is_duplicate_loop (normalized : string) (keys : list string) : bool :=
  match keys with
  | [] => false
  | tracked_url :: rest =>
      if String.eqb (normalize_url tracked_url) normalized then true
      else is_duplicate_loop normalized rest
  end.

Definition is_duplicate (url : string) (t : Tracker) : bool :=
  let normalized := normalize_url url in
  is_duplicate_loop normalized (dict_keys t).

(** [extract_metadata(url)] *)
Definition extract_metadata (env : Env) (url : string) : M YtMeta :=
  call (CallExtractMetadata url) ;;; answer (yt_extract env url).

(** [download_video(url)] *)
Definition download_video (env : Env) (url : string) : M DlResult :=
  call (CallDownloadVideo url) ;;; answer (yt_download env url).

(** The dict [extract_metadata] returns, as the filter and the analyzer
    read it. *)
Definition metadata_of_yt (m : YtMeta) : Metadata :=
  {| md_title := Some (yt_title m); md_description := yt_description m;
     md_uploader := yt_uploader m; md_tags := yt_tags m |}.

(** [a or b] on optional strings. *)
Definition str_or (a b : option string) : option string :=
  match a with
  | Some s => if Str.truthy s then a else b
  | None => b
  end.

Definition load_rich_metadata (env : Env) (video_id : string)
    (fallback_meta : Metadata) : Metadata :=
  match info_json env video_id with
  | Some info =>
      {| md_title := str_or (Some (or_empty (ij_title info)))
                            (Some (or_empty (ij_fulltitle info)));
         md_description := Some (or_empty (ij_description info));
         md_uploader := Some (or_empty (ij_uploader info));
         md_tags := Some (or_nil (ij_tags info)) |}
  | None => fallback_meta
  end.

(** ** [geocoder.py] *)

(** [if location.get(k): parts.append(location[k])] *)
Definition present (v : option string) : list string :=
  match v with
  | Some s => if Str.truthy s then [s] else []
  | None => []
  end.

(** [parts] at line 43. *)
Definition query_parts (l : Location) : list string :=
  present (specific_address l) ++ present (neighborhood l) ++
  present (city l) ++ present (state_or_region l) ++ present (country l).

(** [fallback_parts] at line 80. *)
Definition fallback_parts (l : Location) : list string :=
  present (city l) ++ present (country l).

(** One request to Nominatim: [urlopen(req, timeout=10)] and
    [json.loads(resp.read().decode())]. *)
Definition urlopen (env : Env) (query : string) : M (list Place) :=
  call (CallNominatim query) ;;;
  match nominatim env query with
  | NetError e => raise e
  | NetJson data => ret data
  end.

(** [float(data[0]['lat'])] and [float(data[0]['lon'])] *)
Definition read_place (p : Place) : M Coords :=
  match p with
  | PlaceAt a b => ret {| lat := a; lng := b |}
  | PlaceMalformed => raise "'lat'"
  end.

Definition geocode_restaurant (env : Env) (location : option Location)
    : M (option Coords) :=
  match location with
  | None => ret None
  | Some l =>
      let parts := query_parts l in
      match parts with
      | [] => ret None
      | _ :: _ =>
          let query := Str.join ", " parts in
          try_except
            (data <- urlopen env query ;;
             match data with
             | p :: _ =>
                 c <- read_place p ;;
                 print ("[Geocoder] " +:+ query +:+ " → (" +:+ lat c +:+ ", "
                        +:+ lng c +:+ ")") ;;;
                 ret (Some c)
             | [] =>
                 let fb := fallback_parts l in
                 found <-
                   (if bool_decide (fb ≠ []) && bool_decide (fb ≠ parts) then
                      let fallback_query := Str.join ", " fb in
                      print ("[Geocoder] No result for " +:+ query +:+
                             ", trying " +:+ fallback_query +:+ "...") ;;;
                      data <- urlopen env fallback_query ;;
                      match data with
                      | p :: _ =>
                          c <- read_place p ;;
                          print ("[Geocoder] Fallback " +:+ fallback_query
                                 +:+ " → (" +:+ lat c +:+ ", " +:+ lng c
                                 +:+ ")") ;;;
                          ret (Some c)
                      | [] => ret None
                      end
                    else ret None) ;;
                 match found with
                 | Some c => ret (Some c)
                 | None =>
                     print ("[Geocoder] No results for " +:+ query) ;;;
                     ret None
                 end
             end)
            (fun e =>
               print ("[Geocoder] Error geocoding " +:+ query +:+ ": " +:+ e) ;;;
               ret None)
      end
  end.

(** The Nominatim queries among a list of calls, oldest first. *)
Definition nominatim_queries (cs : list Call) : list string :=
  rev (omap (fun c => match c with CallNominatim q => Some q | _ => None end) cs).

(** ** [analyzer.py] *)

(** [Path(p).name] *)
Fixpoint basename (p : string) : string :=
  match p with
  | EmptyString => EmptyString
  | String _ r => if Str.has_char "/" p then basename r else p
  end.

(** [s[:s.rfind('.')]] when the last dot has something after it. *)
Fixpoint cut_last_dot (s : string) : string :=
  match s with
  | EmptyString => EmptyString
  | String c r =>
      if Str.has_char "." r then String c (cut_last_dot r)
      else if Ascii.eqb c "." && Str.truthy r then EmptyString
      else s
  end.

(** [Path(p).stem] *)
Definition stem (p : string) : string :=
  match basename p with
  | EmptyString => EmptyString
  | String c r => String c (cut_last_dot r)
  end.

(** [extract_food_frames]: every record gets its [food_images]; the
    frames themselves come from ffmpeg. *)
Definition extract_food_frames (env : Env) (restaurants : list Restaurant)
    : M (list Restaurant) :=
  call CallExtractFrames ;;;
  ret (List.map (fun r =>
         {| r_name := r_name r; r_location := r_location r;
            r_food_shot_timestamps := r_food_shot_timestamps r;
            r_food_images := frame_images env r;
            r_coords := r_coords r |}) restaurants).

(** The loop of lines 173-176: one [files.get] for every reply that
    still says PROCESSING. *)
Fixpoint wait_while_processing (env : Env) (processing : nat) : M FileState :=
  match processing with
  | O => ret (gemini_settled env)
  | S k =>
      print "[Gemini] File still processing, waiting..." ;;;
      call CallGeminiGet ;;;
      wait_while_processing env k
  end.

(** The loop of lines 216-224. *)
Fixpoint geocode_all (env : Env) (restaurants : list Restaurant)
    : M (list Restaurant) :=
  match restaurants with
  | [] => ret []
  | r :: rest =>
      coords <- geocode_restaurant env (r_location r) ;;
      let r' := {| r_name := r_name r; r_location := r_location r;
                   r_food_shot_timestamps := r_food_shot_timestamps r;
                   r_food_images := r_food_images r;
                   r_coords := Some coords |} in
      rest' <- geocode_all env rest ;;
      ret (r' :: rest')
  end.

(** [if result:] on a list. *)
Definition list_truthy {A} (l : list A) : bool :=
  match l with [] => false | _ :: _ => true end.

Definition analyze_video (env : Env) (video_path url : string)
    (metadata : option Metadata) : M (list Restaurant) :=
  if negb (video_on_disk env video_path) then
    raise ("Video not found: " +:+ video_path)
  else
    let video_id := stem video_path in
    answer (gemini_client env) ;;;
    print ("[Gemini] Uploading " +:+ basename video_path +:+ "...") ;;;
    call (CallGeminiUpload video_path) ;;;
    answer (gemini_upload env) ;;;
    state <- wait_while_processing env (gemini_processing env) ;;
    match state with
    | OtherState name => raise ("File upload failed with state: " +:+ name)
    | ACTIVE =>
        print "[Gemini] Analyzing with gemini-2.5-flash..." ;;;
        call CallGeminiGenerate ;;;
        text <- answer (gemini_generate env) ;;
        parsed <-
          match json_loads env text with
          | Some j => ret j
          | None =>
              print ("[Gemini] WARNING: Could not parse JSON response: "
                     +:+ String.substring 0 200 text) ;;;
              ret (JList [])
          end ;;
        let result :=
          match parsed with
          | JList items => items
          | JRecord item => [item]
          | JFalsy => []
          end in
        result <-
          (if list_truthy result then extract_food_frames env result
           else ret result) ;;
        result <-
          (if list_truthy result then
             try_except (geocode_all env result)
               (fun e => print ("[Geocoder] Error: " +:+ e) ;;; ret result)
           else ret result) ;;
        let output :=
          {| ev_tiktok_url := url;
             ev_video_file := basename video_path;
             ev_title := or_empty (mbind md_title metadata);
             ev_uploader := or_empty (mbind md_uploader metadata);
             ev_restaurants_found := length result;
             ev_restaurants := result |} in
        (if Nat.ltb 0 (length result) then
           let gcs_path := "analysis_results/" +:+ video_id +:+ "_analysis.json" in
           upload_envelope_json env output gcs_path ;;;
           print ("[Gemini] Saved analysis → " +:+ gcs_path +:+ " (" +:+
                  pretty (length result) +:+ " restaurant(s) found)")
         else print "[Gemini] No restaurants found, skipping JSON save") ;;;
        ret result
    end.

(** ** [downloader.py]: the [/process] endpoint *)

Definition DOWNLOADS_DIR : string := "/tmp/tiktok_videos".

Definition pretty_verdict (v : Verdict) : string :=
  match v with likely => "likely" | maybe => "maybe" | unlikely => "unlikely" end.

Definition pretty_category (c : Category) : string :=
  match c with
  | skipped_not_restaurant => "skipped_not_restaurant"
  | restaurant => "restaurant"
  | not_restaurant => "not_restaurant"
  | analysis_failed => "analysis_failed"
  end.

(** A response that carries only a status and a message. *)
Definition plain_response (code : Z) (st : Status) (msg : string) : Response :=
  {| http_code := code; rs_status := st; rs_message := msg;
     rs_category := None; rs_filter_result := None;
     rs_restaurants_found := None; rs_analysis := [] |}.

(** [if analysis_error:] *)
Definition error_truthy (e : option string) : bool :=
  match e with Some s => Str.truthy s | None => false end.

(** Step 8: the final category. *)
Definition determine_category (analysis_error : option string)
    (analysis : list Restaurant) : Category :=
  if error_truthy analysis_error then analysis_failed
  else if Nat.ltb 0 (length analysis) then restaurant
  else not_restaurant.

(** The entry written at line 169. *)
Definition filtered_entry (env : Env) (meta : YtMeta) (sender chat_name : string)
    (filter_result : Verdict) : TrackerEntry :=
  {| te_filename := None;
     te_title := yt_title meta;
     te_uploader := yt_uploader meta;
     te_sender := sender;
     te_chat := chat_name;
     te_downloaded_at := now env;
     te_category := skipped_not_restaurant;
     te_filter_result := filter_result;
     te_restaurants_found := None;
     te_analysis_file := None;
     te_analysis_error := None |}.

(** The entry written at line 229. *)
Definition analysed_entry (env : Env) (dl_result : DlResult)
    (sender chat_name : string) (category : Category) (filter_result : Verdict)
    (analysis : list Restaurant) (analysis_error : option string) : TrackerEntry :=
  {| te_filename := Some (dl_filename dl_result);
     te_title := dl_title dl_result;
     te_uploader := dl_uploader dl_result;
     te_sender := sender;
     te_chat := chat_name;
     te_downloaded_at := now env;
     te_category := category;
     te_filter_result := filter_result;
     te_restaurants_found := Some (length analysis);
     te_analysis_file :=
       if list_truthy analysis then Some (dl_id dl_result +:+ "_analysis.json")
       else None;
     te_analysis_error := analysis_error |}.

(** Step 6: the analysis and its [except] clause; yields [analysis] and
    [analysis_error]. *)
Definition run_analysis (env : Env) (video_path url : string)
    (rich_meta : Metadata) : M (list Restaurant * option string) :=
  try_except
    (analysis <- analyze_video env video_path url (Some rich_meta) ;;
     ret (analysis, None))
    (fun e =>
       print ("[ERROR] Gemini analysis failed for " +:+ url +:+ ": " +:+ e) ;;;
       ret ([], Some e)).

(** Step 7: removal of the video and of its sidecar. *)
Definition clean_up (env : Env) (video_path filename : string) : M unit :=
  call (CallCleanup video_path) ;;;
  try_except
    (answer (cleanup env) ;;;
     print ("[CLEANUP] Deleted " +:+ filename +:+ " from /tmp"))
    (fun e => print ("[CLEANUP] Warning: " +:+ e)).

(** Steps 4 to 10, entered once the filter has let the URL through. *)
Definition download_and_analyse (env : Env) (url sender chat_name : string)
    (tracker : Tracker) (meta : YtMeta) (filter_result : Verdict) : M Response :=
  downloaded <-
    try_except
      (dl_result <- download_video env url ;; ret (inl dl_result))
      (fun e =>
         print ("[ERROR] Download failed for " +:+ url +:+ ": " +:+ e) ;;;
         ret (inr (plain_response 500 st_error ("Download failed: " +:+ e)))) ;;
  match downloaded with
  | inr response => ret response
  | inl dl_result =>
      let video_path := DOWNLOADS_DIR +:+ "/" +:+ dl_filename dl_result in
      let rich_meta :=
        load_rich_metadata env (dl_id dl_result) (metadata_of_yt meta) in
      outcome <- run_analysis env video_path url rich_meta ;;
      let analysis := fst outcome in
      let analysis_error := snd outcome in
      clean_up env video_path (dl_filename dl_result) ;;;
      let category := determine_category analysis_error analysis in
      let tracker :=
        <[url := analysed_entry env dl_result sender chat_name category
                   filter_result analysis analysis_error]> tracker in
      save_tracker env tracker ;;;
      match category with
      | restaurant =>
          try_except
            (call CallRebuildWebData ;;; answer (rebuild_web_data env))
            (fun e => print ("[WARN] Failed to rebuild web data: " +:+ e))
      | _ => ret tt
      end ;;;
      let restaurant_count := length analysis in
      print ("[OK] " +:+ url +:+ " → " +:+ pretty_category category +:+ " (" +:+
             pretty restaurant_count +:+ " restaurant(s))") ;;;
      ret {| http_code := 200; rs_status := st_success;
             rs_message := pretty_category category +:+ ": " +:+
                           pretty restaurant_count +:+ " restaurant(s) found";
             rs_category := Some category;
             rs_filter_result := Some filter_result;
             rs_restaurants_found := Some restaurant_count;
             rs_analysis := analysis |}
  end.

(** Steps 1 to 3 for a request that names a URL. *)
Definition process_url (env : Env) (url sender chat_name : string) : M Response :=
  tracker <- load_tracker env ;;
  if is_duplicate url tracker then
    ret (plain_response 200 st_skipped "Already processed")
  else
    extracted <-
      try_except
        (meta <- extract_metadata env url ;; ret (inl meta))
        (fun e =>
           print ("[ERROR] Metadata extraction failed for " +:+ url +:+ ": "
                  +:+ e) ;;;
           ret (inr (plain_response 500 st_error ("Metadata failed: " +:+ e)))) ;;
    match extracted with
    | inr response => ret response
    | inl meta =>
        let filter_result := is_likely_restaurant (metadata_of_yt meta) in
        print ("[FILTER] " +:+ url +:+ " → " +:+ pretty_verdict filter_result
               +:+ " (title: " +:+ String.substring 0 60 (yt_title meta) +:+ ")") ;;;
        match filter_result with
        | unlikely =>
            let tracker :=
              <[url := filtered_entry env meta sender chat_name filter_result]>
                tracker in
            save_tracker env tracker ;;;
            ret {| http_code := 200; rs_status := st_skipped;
                   rs_message := "Not restaurant-related (filter: " +:+
                                 pretty_verdict filter_result +:+ ")";
                   rs_category := None;
                   rs_filter_result := Some filter_result;
                   rs_restaurants_found := None; rs_analysis := [] |}
        | _ =>
            download_and_analyse env url sender chat_name tracker meta
              filter_result
        end
    end.

Definition handle_process (env : Env) (data : option Request) : M Response :=
  match data with
  | None => ret (plain_response 400 st_error "Missing url field")
  | Some rq =>
      match rq_url rq with
      | None => ret (plain_response 400 st_error "Missing url field")
      | Some url =>
          let chat_name := or_empty (rq_chat_name rq) in
          let sender := or_empty (rq_sender rq) in
          process_url env url sender chat_name
      end
  end.

(** ** Predicates the properties are stated with *)

(** No two keys of a tracker have the same normalised form. *)
Definition tracker_dedup (t : Tracker) : Prop :=
  forall k1 k2 : string,
    is_Some (t !! k1) -> is_Some (t !! k2) ->
    normalize_url k1 = normalize_url k2 -> k1 = k2.

(** The tracker a world holds, seen through its primary copy and its
    backup. *)
Definition world_dedup (w : World) : Prop :=
  (forall t, tracker_file w = Some t -> tracker_dedup t) /\
  (forall t, gcs_tracker w = Some t -> tracker_dedup t).

Definition is_tracker_write (c : Call) : bool :=
  match c with WriteTrackerFile => true | _ => false end.

(** Number of writes of the tracker file among some calls. *)
Definition tracker_writes (cs : list Call) : nat :=
  length (List.filter is_tracker_write cs).

Definition is_collaborator_call (c : Call) : bool :=
  match c with
  | CallExtractMetadata _ | CallDownloadVideo _ | CallGeminiUpload _
  | CallGeminiGet | CallGeminiGenerate | CallExtractFrames
  | CallNominatim _ | CallCleanup _ | CallRebuildWebData => true
  | CallGcsDownloadJson _ | CallGcsUploadJson _ | WriteTrackerFile => false
  end.

(** The share of one keyword in the score: its weight when it occurs in
    the blob, nothing otherwise. *)
Definition keyword_share (w : Z) (text kw : string) : Z :=
  if Str.contains text (Str.lower kw) then w else 0.

Definition keyword_sum (w : Z) (keywords : list string) (text : string) : Z :=
  fold_right (fun kw acc => keyword_share w text kw + acc) 0 keywords.

(** Metadata used to exercise the scorer. *)
Definition ramen_twice : Metadata :=
  {| md_title := Some "ramen"; md_description := Some "ramen";
     md_uploader := None; md_tags := None |}.

Definition only_title (t : string) : Metadata :=
  {| md_title := Some t; md_description := None; md_uploader := None;
     md_tags := None |}.

(** A computation is quiet when it leaves both copies of the tracker as
    they are and never writes the tracker file. *)
Definition quiet {A} (m : M A) : Prop :=
  forall w,
    tracker_file (m w).2 = tracker_file w /\
    gcs_tracker (m w).2 = gcs_tracker w /\
    exists cs, calls (m w).2 = cs ++ calls w /\ tracker_writes cs = 0%nat.

(** The design document's fallback rule, as it words it: after an empty
    first reply, no second request when city or country is missing. *)
Definition fallback_rule_as_specified : Prop :=
  forall (env : Env) (l : Location) (w : World),
    query_parts l <> [] ->
    nominatim env (Str.join ", " (query_parts l)) = NetJson [] ->
    present (city l) = [] \/ present (country l) = [] ->
    calls (geocode_restaurant env (Some l) w).2 =
      CallNominatim (Str.join ", " (query_parts l)) :: calls w.

(** A world with no tracker and nothing logged, and collaborators that
    all answer; used to exercise the definitions. *)
Definition cold_world : World :=
  {| tracker_file := None; gcs_tracker := None; gcs_analysis := ∅;
     calls := []; stdout := [] |}.

Definition ramen_meta : YtMeta :=
  {| yt_id := "123"; yt_title := "best ramen spot in Austin";
     yt_description := None; yt_uploader := Some "chef"; yt_tags := None |}.

Definition ramen_download : DlResult :=
  {| dl_filename := "123.mp4"; dl_id := "123";
     dl_title := "best ramen spot in Austin"; dl_uploader := Some "chef" |}.

Definition sample_env (generate : Outcome string) (net : string -> NetReply)
    : Env :=
  {| gcs_up := true; now := "2026-01-01T00:00:00+00:00";
     yt_extract := fun _ => Returned ramen_meta;
     yt_download := fun _ => Returned ramen_download;
     info_json := fun _ => None;
     video_on_disk := fun _ => true;
     gemini_client := Returned tt;
     gemini_upload := Returned tt;
     gemini_processing := 1;
     gemini_settled := ACTIVE;
     gemini_generate := generate;
     json_loads := fun _ => None;
     frame_images := fun _ => [];
     nominatim := net;
     cleanup := Returned tt;
     rebuild_web_data := Returned tt |}.

Definition address_and_city : Location :=
  {| specific_address := Some "1 Main St"; neighborhood := None;
     city := Some "Austin"; state_or_region := None; country := None |}.

Definition austin_usa : Location :=
  {| specific_address := Some "1 Main St"; neighborhood := None;
     city := Some "Austin"; state_or_region := None; country := Some "USA" |}.

Definition no_results : string -> NetReply := fun _ => NetJson [].

Definition timed_out : string -> NetReply := fun _ => NetError "timed out".

(** The design document's restore rule, as it words it: with no primary
    file, a backup that can be read is written to the primary location
    and returned. *)
Definition restore_as_specified : Prop :=
  forall (env : Env) (w : World) (d : Tracker),
    tracker_file w = None -> gcs_up env = true -> gcs_tracker w = Some d ->
    exists w', load_tracker env w = (Returned d, w') /\
               tracker_file w' = Some d.

(** A cold start whose backup holds an empty tracker. *)
Definition empty_backup_world : World :=
  {| tracker_file := None; gcs_tracker := Some ∅; gcs_analysis := ∅;
     calls := []; stdout := [] |}.

(** What [save_tracker] leaves behind. *)
Definition saved (env : Env) (t : Tracker) (w : World) : World :=
  let w1 := log_call (CallGcsUploadJson TRACKER_BLOB)
              (set_tracker_file t (log_call WriteTrackerFile w)) in
  if gcs_up env then set_gcs_tracker t w1
  else log_line "[Tracker] GCS backup failed: GCS unreachable" w1.

(** What [clean_up] leaves behind. *)
Definition cleaned_up (env : Env) (video_path filename : string) (w : World)
    : World :=
  match cleanup env with
  | Returned _ =>
      log_line ("[CLEANUP] Deleted " +:+ filename +:+ " from /tmp")
        (log_call (CallCleanup video_path) w)
  | Raised e =>
      log_line ("[CLEANUP] Warning: " +:+ e)
        (log_call (CallCleanup video_path) w)
  end.

(** What step 10 leaves behind. *)
Definition rebuilt (env : Env) (category : Category) (w : World) : World :=
  match category with
  | restaurant =>
      match rebuild_web_data env with
      | Returned _ => log_call CallRebuildWebData w
      | Raised e =>
          log_line ("[WARN] Failed to rebuild web data: " +:+ e)
            (log_call CallRebuildWebData w)
      end
  | _ => w
  end.

(** The path of the downloaded video. *)
Definition video_path_of (dl_result : DlResult) : string :=
  DOWNLOADS_DIR +:+ "/" +:+ dl_filename dl_result.

(** The body of the success response. *)
Definition success_response (category : Category) (filter_result : Verdict)
    (analysis : list Restaurant) : Response :=
  {| http_code := 200; rs_status := st_success;
     rs_message := pretty_category category +:+ ": " +:+
                   pretty (length analysis) +:+ " restaurant(s) found";
     rs_category := Some category;
     rs_filter_result := Some filter_result;
     rs_restaurants_found := Some (length analysis);
     rs_analysis := analysis |}.

(** The body of the response to a filtered-out URL. *)
Definition filtered_response (filter_result : Verdict) : Response :=
  {| http_code := 200; rs_status := st_skipped;
     rs_message := "Not restaurant-related (filter: " +:+
                   pretty_verdict filter_result +:+ ")";
     rs_category := None;
     rs_filter_result := Some filter_result;
     rs_restaurants_found := None; rs_analysis := [] |}.

(** The world once the metadata of a URL has been asked for and the
    filter line printed. *)
Definition filtered_world (url : string) (meta : YtMeta) (w : World) : World :=
  log_line ("[FILTER] " +:+ url +:+ " → " +:+
            pretty_verdict (is_likely_restaurant (metadata_of_yt meta))
            +:+ " (title: " +:+ String.substring 0 60 (yt_title meta) +:+ ")")
    (log_call (CallExtractMetadata url) w).

(** The world at the end of steps 7 to 10. *)
Definition finished (env : Env) (url : string) (dl_result : DlResult)
    (category : Category) (analysis : list Restaurant) (t : Tracker)
    (w : World) : World :=
  log_line ("[OK] " +:+ url +:+ " → " +:+ pretty_category category +:+ " (" +:+
            pretty (length analysis) +:+ " restaurant(s))")
    (rebuilt env category
       (saved env t
          (cleaned_up env (video_path_of dl_result) (dl_filename dl_result) w))).

(** A server that handles requests one after the other, each with the
    answers its collaborators give at that time. *)
Fixpoint serve (requests : list (Env * option Request)) (w : World) : World :=
  match requests with
  | [] => w
  | (env, data) :: rest => serve rest (handle_process env data w).2
  end.

(** The world after the polling loop of [analyze_video]. *)
Fixpoint waited (processing : nat) (w : World) : World :=
  match processing with
  | O => w
  | S k =>
      waited k (log_call CallGeminiGet
                  (log_line "[Gemini] File still processing, waiting..." w))
  end.

(** The world [analyze_video] leaves when the model's text is not JSON. *)
Definition analysed_invalid_json (env : Env) (video_path text : string)
    (w : World) : World :=
  log_line "[Gemini] No restaurants found, skipping JSON save"
    (log_line ("[Gemini] WARNING: Could not parse JSON response: "
               +:+ String.substring 0 200 text)
       (log_call CallGeminiGenerate
          (log_line "[Gemini] Analyzing with gemini-2.5-flash..."
             (waited (gemini_processing env)
                (log_call (CallGeminiUpload video_path)
                   (log_line ("[Gemini] Uploading " +:+ basename video_path
                              +:+ "...") w)))))).

Definition is_gcs_upload (c : Call) : bool :=
  match c with CallGcsUploadJson _ => true | _ => false end.

(** The world in which the analysis starts. *)
Definition analysis_start (url : string) (meta : YtMeta) (w1 : World) : World :=
  log_call (CallDownloadVideo url) (filtered_world url meta w1).

(** The exception text of a timeout that carries no message. *)
Definition silent_timeout : Outcome string := Raised "".

(** A tracker that already holds one analysed URL, and a world whose
    tracker file is that tracker. *)
Definition handled_tracker : Tracker :=
  {[ "https://tiktok.com/@chef/video/123?x=1" :=
       {| te_filename := Some "123.mp4";
          te_title := "best ramen spot in Austin";
          te_uploader := Some "chef"; te_sender := "me"; te_chat := "";
          te_downloaded_at := "2026-01-01T00:00:00+00:00";
          te_category := not_restaurant; te_filter_result := likely;
          te_restaurants_found := Some 0%nat; te_analysis_file := None;
          te_analysis_error := None |} ]}.

Definition handled_world : World :=
  {| tracker_file := Some handled_tracker; gcs_tracker := Some handled_tracker;
     gcs_analysis := ∅; calls := []; stdout := [] |}.

(** The URL a request body names, if any ([data['url']]). *)
Definition request_url (data : option Request) : option string :=
  match data with
  | Some rq => rq_url rq
  | None => None
  end.

(** A cold start: the process comes up on a machine without the tracker
    file; the bucket is as it was. *)
Definition lose_tracker_file (w : World) : World :=
  {| tracker_file := None; gcs_tracker := gcs_tracker w;
     gcs_analysis := gcs_analysis w; calls := calls w; stdout := stdout w |}.

(** ** [downloader.py]: the [/health] endpoint *)

(** [cat == c] on category names. *)
Definition category_eqb (a b : Category) : bool :=
  match a, b with
  | skipped_not_restaurant, skipped_not_restaurant => true
  | restaurant, restaurant => true
  | not_restaurant, not_restaurant => true
  | analysis_failed, analysis_failed => true
  | _, _ => false
  end.

(** The [categories] dict, kept as the list of its items in insertion
    order.  [categories.get(cat, 0)]: *)
Fixpoint categories_get (cat : Category) (d : list (Category * nat)) : nat :=
  match d with
  | [] => O
  | (c, n) :: rest => if category_eqb c cat then n else categories_get cat rest
  end.

(** [categories[cat] = categories.get(cat, 0) + 1] *)
Fixpoint categories_bump (cat : Category) (d : list (Category * nat))
    : list (Category * nat) :=
  match d with
  | [] => [(cat, 1%nat)]
  | (c, n) :: rest =>
      if category_eqb c cat then (c, S n) :: rest
      else (c, n) :: categories_bump cat rest
  end.

(** The loop of lines 270-272 over [tracker.values()]; every entry the
    handler writes has a category, so the default ['unknown'] is never
    used. *)
Fixpoint count_categories (entries : list TrackerEntry)
    (categories : list (Category * nat)) : list (Category * nat) :=
  match entries with
  | [] => categories
  | entry :: rest =>
      count_categories rest (categories_bump (te_category entry) categories)
  end.

Record HealthBody := {
  hb_status : string;
  hb_total_entries : nat;
  hb_categories : list (Category * nat);
}.

Definition health (env : Env) : M HealthBody :=
  tracker <- load_tracker env ;;
  let categories := count_categories (map_to_list tracker).*2 [] in
  ret {| hb_status := "ok"; hb_total_entries := size tracker;
         hb_categories := categories |}.

(** Number of entries of a tracker with a given category. *)
Definition entries_in (cat : Category) (t : Tracker) : nat :=
  length (List.filter (fun e => category_eqb (te_category e) cat)
            (map_to_list t).*2).

(** Sum of the counts of a [categories] dict. *)
Definition categories_total (d : list (Category * nat)) : nat :=
  fold_right (fun p acc => (p.2 + acc)%nat) O d.

(** The coordinates a Nominatim reply yields: those of its first element,
    when there is one and it reads as two floats. *)
Definition first_place (reply : NetReply) : option Coords :=
  match reply with
  | NetJson (PlaceAt a b :: _) => Some {| lat := a; lng := b |}
  | _ => None
  end.

Definition only_country (c : string) : Location :=
  {| specific_address := None; neighborhood := None; city := None;
     state_or_region := None; country := Some c |}.

(** Length of the parts of a query, each counted with a separator. *)
Definition parts_weight (l : list string) : nat :=
  fold_right (fun p acc => (String.length p + 2 + acc)%nat) O l.

Definition malformed_then_fine : string -> NetReply :=
  fun _ => NetJson [PlaceMalformed; PlaceAt "30.27" "-97.74"].

(** A computation keeps a relation between the world it starts in and
    the world it leaves. *)
Definition keeps (R : World -> World -> Prop) {A} (m : M A) : Prop :=
  forall w, R w (m w).2.

(** The uploaded envelopes are as they were. *)
Definition same_envelopes (w w' : World) : Prop :=
  gcs_analysis w' = gcs_analysis w.

(** Only calls outside a given class were added. *)
Definition only_called (excluded : Call -> bool) (w w' : World) : Prop :=
  exists cs, calls w' = cs ++ calls w /\
             Forall (fun c => excluded c = false) cs.

Definition is_rebuild (c : Call) : bool :=
  match c with CallRebuildWebData => true | _ => false end.

Definition is_generate (c : Call) : bool :=
  match c with CallGeminiGenerate => true | _ => false end.

(** [is_restaurant_video(video_path)] *)
Definition is_restaurant_video (env : Env) (video_path : string) : M bool :=
  result <- analyze_video env video_path "" None ;;
  ret (Nat.ltb 0 (length result)).

(** The object name under which [analyze_video] stores its envelope. *)
Definition envelope_path (video_path : string) : string :=
  "analysis_results/" +:+ stem video_path +:+ "_analysis.json".

(** The envelope [analyze_video] builds around its result. *)
Definition envelope_of (video_path url : string) (metadata : option Metadata)
    (result : list Restaurant) : Envelope :=
  {| ev_tiktok_url := url;
     ev_video_file := basename video_path;
     ev_title := or_empty (mbind md_title metadata);
     ev_uploader := or_empty (mbind md_uploader metadata);
     ev_restaurants_found := length result;
     ev_restaurants := result |}.

(** Number of records the model's reply holds once it is made a list. *)
Definition reply_records (parsed : option Json) : nat :=
  match parsed with
  | Some (JList items) => length items
  | Some (JRecord _) => 1%nat
  | Some JFalsy => O
  | None => O
  end.

(** A record after geocoding is the record before it, with coordinates
    set (to a position or to [None]). *)
Definition geocoded (r r' : Restaurant) : Prop :=
  r_name r' = r_name r /\ r_location r' = r_location r /\
  r_food_shot_timestamps r' = r_food_shot_timestamps r /\
  r_food_images r' = r_food_images r /\ is_Some (r_coords r').

(** Collaborators that fail in one place. *)
Definition never_active (name : string) : Env :=
  {| gcs_up := true; now := "2026-01-01T00:00:00+00:00";
     yt_extract := fun _ => Returned ramen_meta;
     yt_download := fun _ => Returned ramen_download;
     info_json := fun _ => None;
     video_on_disk := fun _ => true;
     gemini_client := Returned tt;
     gemini_upload := Returned tt;
     gemini_processing := 2;
     gemini_settled := OtherState name;
     gemini_generate := Returned "[]";
     json_loads := fun _ => None;
     frame_images := fun _ => [];
     nominatim := no_results;
     cleanup := Returned tt;
     rebuild_web_data := Returned tt |}.

Definition bucket_down : Env :=
  {| gcs_up := false; now := "2026-01-01T00:00:00+00:00";
     yt_extract := fun _ => Returned ramen_meta;
     yt_download := fun _ => Returned ramen_download;
     info_json := fun _ => None;
     video_on_disk := fun _ => true;
     gemini_client := Returned tt;
     gemini_upload := Returned tt;
     gemini_processing := 0;
     gemini_settled := ACTIVE;
     gemini_generate := Returned "[{}]";
     json_loads := fun _ =>
       Some (JRecord {| r_name := "Ramen Tatsu-ya"; r_location := Some austin_usa;
                        r_food_shot_timestamps := []; r_food_images := [];
                        r_coords := None |});
     frame_images := fun _ => [];
     nominatim := no_results;
     cleanup := Returned tt;
     rebuild_web_data := Returned tt |}.

(** The calls step 10 adds. *)
Definition rebuild_calls (category : Category) : list Call :=
  match category with
  | restaurant => [CallRebuildWebData]
  | _ => []
  end.

(** ** [build_web_data.py] *)

(** [s.endswith(suffix)] *)
Fixpoint ends_with_str (suffix s : string) : bool :=
  String.eqb s suffix ||
  match s with
  | EmptyString => false
  | String _ r => ends_with_str suffix r
  end.

(** The names [list_blobs('analysis_results/')] yields that line 17
    keeps. *)
Definition is_analysis_blob (name : string) : bool :=
  Str.starts_with "analysis_results/" name &&
  ends_with_str "_analysis.json" name.

(** One element of [restaurants.json], with the fields of a record the
    model carries. *)
Record WebRow := {
  wr_name : string;
  wr_location : option Location;
  wr_lat : string;
  wr_lng : string;
  wr_food_images : list string;
  wr_tiktok_url : string;
  wr_video_title : string;
  wr_uploader : string;
}.

Definition web_row (e : Envelope) (r : Restaurant) (c : Coords) : WebRow :=
  {| wr_name := r_name r; wr_location := r_location r;
     wr_lat := lat c; wr_lng := lng c;
     wr_food_images := r_food_images r;
     wr_tiktok_url := ev_tiktok_url e;
     wr_video_title := ev_title e;
     wr_uploader := ev_uploader e |}.

(** The inner loop of lines 34-55: the records with coordinates. *)
Fixpoint envelope_rows (e : Envelope) (restaurants : list Restaurant)
    : list WebRow :=
  match restaurants with
  | [] => []
  | r :: rest =>
      match r_coords r with
      | Some (Some c) => web_row e r c :: envelope_rows e rest
      | _ => envelope_rows e rest
      end
  end.

(** The outer loop of lines 20-55, over the sorted names; [readable]
    tells for which objects [download_json] does not raise. *)
Fixpoint build_loop (readable : string -> bool) (store : gmap string Envelope)
    (names : list string) (all_restaurants : list WebRow) : list WebRow :=
  match names with
  | [] => all_restaurants
  | blob_name :: rest =>
      if readable blob_name then
        match store !! blob_name with
        | Some data =>
            build_loop readable store rest
              (all_restaurants ++ envelope_rows data (ev_restaurants data))
        | None => build_loop readable store rest all_restaurants
        end
      else build_loop readable store rest all_restaurants
  end.

(** [sorted(analysis_blobs)] *)
Definition analysis_blobs (store : gmap string Envelope) : list string :=
  merge_sort String.le (List.filter is_analysis_blob (map_to_list store).*1).

(** The list [build] uploads as [restaurants.json]. *)
Definition build (readable : string -> bool) (store : gmap string Envelope)
    : list WebRow :=
  build_loop readable store (analysis_blobs store) [].

Definition all_readable : string -> bool := fun _ => true.

(** Collaborators for a video that shows one restaurant in Austin, which
    Nominatim finds. *)
Definition tatsuya : Restaurant :=
  {| r_name := "Ramen Tatsu-ya"; r_location := Some austin_usa;
     r_food_shot_timestamps := ["00:05"]; r_food_images := [];
     r_coords := None |}.

Definition austin_found : Env :=
  {| gcs_up := true; now := "2026-01-01T00:00:00+00:00";
     yt_extract := fun _ => Returned ramen_meta;
     yt_download := fun _ => Returned ramen_download;
     info_json := fun _ => None;
     video_on_disk := fun _ => true;
     gemini_client := Returned tt;
     gemini_upload := Returned tt;
     gemini_processing := 1;
     gemini_settled := ACTIVE;
     gemini_generate := Returned "[...]";
     json_loads := fun _ => Some (JList [tatsuya]);
     frame_images := fun _ => ["123_1_1.jpg"];
     nominatim := fun _ => NetJson [PlaceAt "30.27" "-97.74"];
     cleanup := Returned tt;
     rebuild_web_data := Returned tt |}.

(** ** Lemmas on the string functions *)

Section StrLemmas.

Lemma split_head_free sep s :
  Str.has_char sep (Str.split_head sep s) = false.
Proof.
  induction s as [|c r IH]; simpl; [reflexivity|].
  destruct (Ascii.eqb c sep) eqn:E; simpl; [reflexivity|].
  now rewrite E, IH.
Qed.

Lemma split_head_app_free sep b s :
  Str.has_char sep b = false ->
  Str.split_head sep (b +:+ s) = b +:+ Str.split_head sep s.
Proof.
  induction b as [|c r IH]; simpl; [reflexivity|].
  intros H. apply orb_false_iff in H as [Hc Hr].
  now rewrite Hc, IH.
Qed.

Lemma split_head_id sep b :
  Str.has_char sep b = false -> Str.split_head sep b = b.
Proof.
  induction b as [|c r IH]; simpl; [reflexivity|].
  intros H. apply orb_false_iff in H as [Hc Hr].
  now rewrite Hc, IH.
Qed.

Lemma split_head_sep sep s : Str.split_head sep (String sep s) = "".
Proof. simpl. now rewrite Ascii.eqb_refl. Qed.

Lemma has_char_app ch a b :
  Str.has_char ch (a +:+ b) = Str.has_char ch a || Str.has_char ch b.
Proof.
  induction a as [|c r IH]; simpl; [reflexivity|].
  now rewrite IH, orb_assoc.
Qed.

Lemma has_char_replicate ch c n :
  Ascii.eqb c ch = false -> Str.has_char ch (Str.replicate n c) = false.
Proof. intros H. induction n as [|n IH]; simpl; [reflexivity|]. now rewrite H, IH. Qed.

Lemma rstrip_replicate ch n : Str.rstrip ch (Str.replicate n ch) = "".
Proof.
  induction n as [|n IH]; simpl; [reflexivity|].
  now rewrite IH, Ascii.eqb_refl.
Qed.

Lemma rstrip_app_replicate ch b n :
  Str.rstrip ch (b +:+ Str.replicate n ch) = Str.rstrip ch b.
Proof.
  induction b as [|c r IH]; simpl.
  - apply rstrip_replicate.
  - now rewrite IH.
Qed.

Lemma rstrip_not_ends_with ch s : Str.ends_with ch (Str.rstrip ch s) = false.
Proof.
  induction s as [|c r IH]; simpl; [reflexivity|].
  destruct (Str.rstrip ch r) as [|c' r'] eqn:E.
  - destruct (Ascii.eqb c ch) eqn:Ec; simpl; [reflexivity | exact Ec].
  - exact IH.
Qed.

Lemma rstrip_decompose ch s :
  exists k, s = Str.rstrip ch s +:+ Str.replicate k ch.
Proof.
  induction s as [|c r [k IH]]; simpl.
  - now exists O.
  - destruct (Str.rstrip ch r) as [|c' r'] eqn:E.
    + destruct (Ascii.eqb c ch) eqn:Ec.
      * apply Ascii.eqb_eq in Ec. subst c. exists (S k). simpl in *. now rewrite IH at 1.
      * exists k. simpl in *. now rewrite IH at 1.
    + exists k. simpl in *. now rewrite IH at 1.
Qed.

Lemma rstrip_free ch c s :
  Str.has_char c s = false -> Str.has_char c (Str.rstrip ch s) = false.
Proof.
  induction s as [|a r IH]; simpl; [reflexivity|].
  intros H. apply orb_false_iff in H as [Ha Hr].
  destruct (Str.rstrip ch r) as [|c' r'] eqn:E.
  - destruct (Ascii.eqb a ch); simpl; [reflexivity | now rewrite Ha].
  - simpl. rewrite Ha. now apply IH.
Qed.

Lemma split_head_decompose sep s :
  exists t, s = Str.split_head sep s +:+ t /\
            (t = "" \/ exists r, t = String sep r).
Proof.
  induction s as [|c r [t [IH Ht]]]; simpl.
  - exists "". split; [reflexivity | now left].
  - destruct (Ascii.eqb c sep) eqn:E.
    + apply Ascii.eqb_eq in E. subst c. exists (String sep r).
      split; [reflexivity | right; now exists r].
    + exists t. split; [simpl; now rewrite IH at 1 | exact Ht].
Qed.

Lemma string_app_cons (x : ascii) (a b : string) :
  String x a +:+ b = String x (a +:+ b).
Proof. reflexivity. Qed.

Lemma string_app_assoc (a b c : string) : (a +:+ b) +:+ c = a +:+ (b +:+ c).
Proof.
  induction a as [|x a' IH]; [reflexivity|].
  rewrite !string_app_cons. now f_equal.
Qed.

Lemma string_app_nil_r (a : string) : a +:+ "" = a.
Proof.
  induction a as [|x a' IH]; [reflexivity|].
  rewrite string_app_cons. now f_equal.
Qed.

End StrLemmas.

(** [normalize_url] keeps exactly the part of the URL before the first
    [?] or [#], without its trailing slashes. *)
Lemma normalize_url_base b n t :
  Str.has_char "?" b = false -> Str.has_char "#" b = false ->
  url_tail t = true ->
  normalize_url (b +:+ Str.replicate n "/" +:+ t) = Str.rstrip "/" b.
Proof.
  intros Hq Hh Ht. unfold normalize_url.
  rewrite <- string_app_assoc.
  assert (Hq' : Str.has_char "?" (b +:+ Str.replicate n "/") = false).
  { rewrite has_char_app, Hq. simpl. now apply has_char_replicate. }
  assert (Hh' : Str.has_char "#" (b +:+ Str.replicate n "/") = false).
  { rewrite has_char_app, Hh. simpl. now apply has_char_replicate. }
  rewrite (split_head_app_free _ _ _ Hq').
  rewrite (split_head_app_free _ _ _ Hh').
  assert (Hend : Str.split_head "#" (Str.split_head "?" t) = "").
  { destruct t as [|c r]; [reflexivity|]. simpl in Ht. simpl.
    destruct (Ascii.eqb c "?") eqn:E1; [reflexivity|].
    simpl in Ht. simpl. now rewrite Ht. }
  rewrite Hend, string_app_nil_r. apply rstrip_app_replicate.
Qed.


Lemma split_head_keeps_free c sep s :
  Str.has_char c s = false -> Str.has_char c (Str.split_head sep s) = false.
Proof.
  induction s as [|a r IH]; simpl; [reflexivity|].
  intros H. apply orb_false_iff in H as [Ha Hr].
  destruct (Ascii.eqb a sep); simpl; [reflexivity|].
  rewrite Ha. now apply IH.
Qed.

(** Every URL is its normal form, then slashes, then a tail that is empty
    or starts at the first [?] or [#]. *)
Lemma normalize_url_decompose u :
  exists k t,
    u = normalize_url u +:+ Str.replicate k "/" +:+ t /\ url_tail t = true.
Proof.
  unfold normalize_url.
  destruct (split_head_decompose "?" u) as [t1 [H1 T1]].
  destruct (split_head_decompose "#" (Str.split_head "?" u)) as [t2 [H2 T2]].
  destruct (rstrip_decompose "/" (Str.split_head "#" (Str.split_head "?" u)))
    as [k Hk].
  exists k, (t2 +:+ t1). split.
  - rewrite <- !string_app_assoc. rewrite <- Hk, <- H2. exact H1.
  - destruct T2 as [-> | [r ->]].
    + destruct T1 as [-> | [r ->]]; reflexivity.
    + reflexivity.
Qed.

Lemma normalize_url_clean u :
  Str.has_char "?" (normalize_url u) = false /\
  Str.has_char "#" (normalize_url u) = false /\
  Str.ends_with "/" (normalize_url u) = false.
Proof.
  unfold normalize_url. repeat split.
  - apply rstrip_free, split_head_keeps_free, split_head_free.
  - apply rstrip_free, split_head_free.
  - apply rstrip_not_ends_with.
Qed.

(** ** URL normalisation *)

(** C7. [normalize_url] is a function of its argument alone, defined on
    every string: it keeps the part before the first [?] and the first
    [#] and removes all trailing [/].  Two URLs built from the same base
    (free of [?] and [#]) by adding any number of trailing slashes and any
    query string or fragment have the same normal form, namely the base
    without its trailing slashes.  Moreover every URL decomposes as its
    normal form, slashes, and an empty, query or fragment tail, and the
    normal form contains no [?], no [#] and does not end in [/]. *)
Theorem normalize_url_equivalence (b : string) (n1 n2 : nat) (t1 t2 : string)
    (Hq : Str.has_char "?" b = false) (Hh : Str.has_char "#" b = false)
    (H1 : url_tail t1 = true) (H2 : url_tail t2 = true) :
  normalize_url (b +:+ Str.replicate n1 "/" +:+ t1) =
    normalize_url (b +:+ Str.replicate n2 "/" +:+ t2) /\
  normalize_url (b +:+ Str.replicate n1 "/" +:+ t1) = Str.rstrip "/" b /\
  (forall u : string,
     normalize_url u =
       Str.rstrip "/" (Str.split_head "#" (Str.split_head "?" u)) /\
     (exists k t, u = normalize_url u +:+ Str.replicate k "/" +:+ t /\
                  url_tail t = true) /\
     Str.has_char "?" (normalize_url u) = false /\
     Str.has_char "#" (normalize_url u) = false /\
     Str.ends_with "/" (normalize_url u) = false).
Proof.
  split; [|split].
  - now rewrite !normalize_url_base.
  - now apply normalize_url_base.
  - intros u. split; [reflexivity|]. split; [apply normalize_url_decompose|].
    apply normalize_url_clean.
Qed.

Lemma normalize_url_equivalence_witness :
  normalize_url "https://tiktok.com/@chef/video/123/?x=1" =
    normalize_url "https://tiktok.com/@chef/video/123//#top" /\
  normalize_url "https://tiktok.com/@chef/video/123/?x=1" =
    "https://tiktok.com/@chef/video/123".
Proof.
  pose proof (normalize_url_equivalence "https://tiktok.com/@chef/video/123"
                1 2 "?x=1" "#top" eq_refl eq_refl eq_refl eq_refl) as [H [H' _]].
  split; [exact H | exact H'].
Defined.

(** ** The keyword pre-filter *)

Section Scorer.

Local Open Scope Z_scope.

(** Each of the three loops adds its weight once for every keyword of the
    list that occurs in the text. *)
Lemma score_loop_matches w keywords text s :
  score_loop w keywords text s = s + w * Z.of_nat (matches keywords text).
Proof.
  revert s. unfold matches.
  induction keywords as [|kw rest IH]; intros s; simpl.
  - lia.
  - rewrite IH. destruct (Str.contains text (Str.lower kw)); simpl length; lia.
Qed.

Lemma matches_le keywords text : (matches keywords text <= length keywords)%nat.
Proof. unfold matches. apply List.filter_length_le. Qed.

Lemma score_matches md :
  score md = 3 * Z.of_nat (matches HIGH_KEYWORDS (blob md))
             + Z.of_nat (matches MEDIUM_KEYWORDS (blob md))
             - 2 * Z.of_nat (matches ANTI_KEYWORDS (blob md)).
Proof. unfold score. rewrite !score_loop_matches. lia. Qed.

Lemma starts_with_app p s t :
  Str.starts_with p s = true -> Str.starts_with p (s +:+ t) = true.
Proof.
  revert s. induction p as [|a p IH]; intros s H; [reflexivity|].
  destruct s as [|b s]; [discriminate|].
  rewrite string_app_cons. simpl in *.
  apply andb_true_iff in H as [Hab Hp]. rewrite Hab. simpl. now apply IH.
Qed.

Lemma contains_app_l s t p :
  Str.contains s p = true -> Str.contains (s +:+ t) p = true.
Proof.
  induction s as [|c s IH]; intros H.
  - simpl in H. rewrite orb_false_r in H.
    destruct p; [|discriminate]. destruct t; reflexivity.
  - rewrite string_app_cons. simpl in *.
    apply orb_true_iff in H as [H|H].
    + apply orb_true_iff. left.
      destruct p as [|a p]; [reflexivity|]. simpl in *.
      apply andb_true_iff in H as [Hab Hp]. rewrite Hab. simpl.
      now apply starts_with_app.
    + apply orb_true_iff. right. now apply IH.
Qed.

Lemma contains_app_r s t p :
  Str.contains t p = true -> Str.contains (s +:+ t) p = true.
Proof.
  intros H. induction s as [|c s IH]; [exact H|].
  rewrite string_app_cons. simpl. rewrite IH. apply orb_true_r.
Qed.

(** A keyword that occurs in a field occurs in the blob. *)
Lemma field_in_blob md kw :
  (0 < field_occurrences md kw)%nat ->
  Str.contains (blob md) (Str.lower kw) = true.
Proof.
  unfold field_occurrences, blob. simpl.
  destruct (Str.contains (field_title md) (Str.lower kw)) eqn:E1.
  { intros _. now apply contains_app_l. }
  destruct (Str.contains (field_description md) (Str.lower kw)) eqn:E2.
  { intros _. apply contains_app_r, contains_app_r. now apply contains_app_l. }
  destruct (Str.contains (field_uploader md) (Str.lower kw)) eqn:E3.
  { intros _. do 4 apply contains_app_r. now apply contains_app_l. }
  destruct (Str.contains (field_tags md) (Str.lower kw)) eqn:E4.
  { intros _. now do 6 apply contains_app_r. }
  simpl. lia.
Qed.

End Scorer.

Lemma score_loop_sum w keywords text s :
  score_loop w keywords text s = s + keyword_sum w keywords text.
Proof.
  revert s. induction keywords as [|kw rest IH]; intros s; simpl; [lia|].
  rewrite IH. unfold keyword_share.
  destruct (Str.contains text (Str.lower kw)); lia.
Qed.

(** C4 (as the code has it).  The score is the sum, over the keywords of
    the three lists, of the keyword's weight (+3, +1, -2) when the keyword
    occurs anywhere in the concatenated lower-cased blob and of nothing
    otherwise: a keyword counts once, however many of the fields title,
    description, uploader and tags contain it. *)
Theorem score_counts_each_keyword_once (md : Metadata) :
  score md = keyword_sum 3 HIGH_KEYWORDS (blob md)
             + keyword_sum 1 MEDIUM_KEYWORDS (blob md)
             + keyword_sum (-2) ANTI_KEYWORDS (blob md) /\
  (forall w kw, keyword_share w (blob md) kw = w \/
                keyword_share w (blob md) kw = 0) /\
  (forall w kw, (0 < field_occurrences md kw)%nat ->
                keyword_share w (blob md) kw = w).
Proof.
  split; [|split].
  - unfold score. rewrite !score_loop_sum. lia.
  - intros w kw. unfold keyword_share.
    destruct (Str.contains (blob md) (Str.lower kw)); [now left | now right].
  - intros w kw H. unfold keyword_share. now rewrite (field_in_blob md kw H).
Qed.

Lemma score_counts_each_keyword_once_witness :
  (0 < field_occurrences ramen_twice "ramen")%nat /\
  keyword_share 3 (blob ramen_twice) "ramen" = 3.
Proof.
  assert (H : (0 < field_occurrences ramen_twice "ramen")%nat)
    by (vm_compute; lia).
  split; [exact H|].
  exact (proj2 (proj2 (score_counts_each_keyword_once ramen_twice)) 3 "ramen" H).
Defined.

(** C4 as the design document words it fails: with "ramen" as title and
    as description the keyword is in two fields, yet the score is 3 and
    not 6. *)
Lemma score_per_field_counterexample :
  ~ (forall md : Metadata, score md = per_field_score md).
Proof.
  intros H. specialize (H ramen_twice). vm_compute in H. discriminate H.
Qed.

(** C6. With +3 for a high-confidence match, +1 for a medium one and -2
    for an anti-signal, the verdict is [likely] exactly when the score is
    at least 3, [maybe] exactly when it is at least -1 and below 3, and
    [unlikely] exactly when it is below -1.  One high match alone scores 3
    ([likely]); one medium and one anti match score -1 ([maybe]); two anti
    matches alone score -4 ([unlikely]). *)
Theorem verdict_mapping (md : Metadata) :
  let h := Z.of_nat (matches HIGH_KEYWORDS (blob md)) in
  let m := Z.of_nat (matches MEDIUM_KEYWORDS (blob md)) in
  let a := Z.of_nat (matches ANTI_KEYWORDS (blob md)) in
  score md = 3 * h + 1 * m + (-2) * a /\
  (is_likely_restaurant md = likely <-> 3 <= score md) /\
  (is_likely_restaurant md = maybe <-> -1 <= score md < 3) /\
  (is_likely_restaurant md = unlikely <-> score md < -1) /\
  (h = 1 -> m = 0 -> a = 0 ->
     score md = 3 /\ is_likely_restaurant md = likely) /\
  (h = 0 -> m = 1 -> a = 1 ->
     score md = -1 /\ is_likely_restaurant md = maybe) /\
  (h = 0 -> m = 0 -> a = 2 ->
     score md = -4 /\ is_likely_restaurant md = unlikely).
Proof.
  intros h m a.
  assert (Hs : score md = 3 * h + 1 * m + (-2) * a).
  { rewrite score_matches. subst h m a. lia. }
  unfold is_likely_restaurant, verdict_of_score.
  clearbody h m a. revert Hs. generalize (score md) as s. intros s Hs.
  split; [exact Hs|].
  destruct (3 <=? s) eqn:E3; [apply Z.leb_le in E3 | apply Z.leb_gt in E3];
    (destruct (-1 <=? s) eqn:E1;
       [apply Z.leb_le in E1 | apply Z.leb_gt in E1]);
    repeat split; try discriminate; try lia; intros; try lia.
Qed.

Lemma verdict_mapping_witness :
  (score (only_title "restaurant") = 3 /\
   is_likely_restaurant (only_title "restaurant") = likely) /\
  (score (only_title "lunch prank") = -1 /\
   is_likely_restaurant (only_title "lunch prank") = maybe) /\
  (score (only_title "gaming prank") = -4 /\
   is_likely_restaurant (only_title "gaming prank") = unlikely).
Proof.
  split; [|split].
  - destruct (verdict_mapping (only_title "restaurant")) as (_ & _ & _ & _ & H & _).
    apply H; vm_compute; reflexivity.
  - destruct (verdict_mapping (only_title "lunch prank")) as (_ & _ & _ & _ & _ & H & _).
    apply H; vm_compute; reflexivity.
  - destruct (verdict_mapping (only_title "gaming prank")) as (_ & _ & _ & _ & _ & _ & H).
    apply H; vm_compute; reflexivity.
Defined.

(** ** Quiet computations *)

Section Quiet.

Lemma tracker_writes_app cs1 cs2 :
  tracker_writes (cs1 ++ cs2) = (tracker_writes cs1 + tracker_writes cs2)%nat.
Proof. unfold tracker_writes. now rewrite List.filter_app, length_app. Qed.

Lemma quiet_ret {A} (a : A) : quiet (ret a).
Proof. intros w. repeat split. now exists []. Qed.

Lemma quiet_raise {A} e : quiet (@raise A e).
Proof. intros w. repeat split. now exists []. Qed.

Lemma quiet_answer {A} (o : Outcome A) : quiet (answer o).
Proof. intros w. repeat split. now exists []. Qed.

Lemma quiet_print line : quiet (print line).
Proof. intros w. repeat split. now exists []. Qed.

Lemma quiet_call c : is_tracker_write c = false -> quiet (call c).
Proof.
  intros H w. repeat split. exists [c]. split; [reflexivity|].
  unfold tracker_writes. simpl. now rewrite H.
Qed.

Lemma quiet_bind {A B} (m : M A) (k : A -> M B) :
  quiet m -> (forall a, quiet (k a)) -> quiet (bind m k).
Proof.
  intros Hm Hk w. unfold bind.
  destruct (Hm w) as (Hf & Hg & cs & Hc & Hn).
  destruct (m w) as [[a|e] w1]; simpl in *.
  - destruct (Hk a w1) as (Hf' & Hg' & cs' & Hc' & Hn').
    split; [congruence|]. split; [congruence|].
    exists (cs' ++ cs). split.
    + rewrite Hc', Hc. now rewrite app_assoc.
    + rewrite tracker_writes_app. lia.
  - repeat split; try assumption. now exists cs.
Qed.

Lemma quiet_try {A} (m : M A) (h : string -> M A) :
  quiet m -> (forall e, quiet (h e)) -> quiet (try_except m h).
Proof.
  intros Hm Hh w. unfold try_except.
  destruct (Hm w) as (Hf & Hg & cs & Hc & Hn).
  destruct (m w) as [[a|e] w1]; simpl in *.
  - repeat split; try assumption. now exists cs.
  - destruct (Hh e w1) as (Hf' & Hg' & cs' & Hc' & Hn').
    split; [congruence|]. split; [congruence|].
    exists (cs' ++ cs). split.
    + rewrite Hc', Hc. now rewrite app_assoc.
    + rewrite tracker_writes_app. lia.
Qed.

Lemma quiet_upload_envelope env e path : quiet (upload_envelope_json env e path).
Proof.
  unfold upload_envelope_json. apply quiet_bind; [now apply quiet_call|].
  intros _. destruct (gcs_up env); [|apply quiet_raise].
  intros w. repeat split. now exists [].
Qed.

End Quiet.

Create HintDb quiet.

#[local] Hint Resolve quiet_ret quiet_raise quiet_answer quiet_print
  quiet_upload_envelope : quiet.

(** Decompose a quiet goal along the structure of the program. *)
Ltac quiet_step :=
  match goal with
  | |- quiet (bind _ _) => apply quiet_bind; [|intros ?]
  | |- quiet (try_except _ _) => apply quiet_try; [|intros ?]
  | |- quiet (call _) => apply quiet_call; reflexivity
  | |- quiet (match ?x with _ => _ end) => destruct x
  | |- quiet (if ?x then _ else _) => destruct x
  | |- quiet _ => solve [auto with quiet]
  end.

Lemma quiet_urlopen env q : quiet (urlopen env q).
Proof. unfold urlopen. repeat quiet_step. Qed.

Lemma quiet_read_place p : quiet (read_place p).
Proof. unfold read_place. repeat quiet_step. Qed.

#[local] Hint Resolve quiet_urlopen quiet_read_place : quiet.

Lemma quiet_geocode_restaurant env loc : quiet (geocode_restaurant env loc).
Proof. unfold geocode_restaurant. repeat quiet_step. Qed.

#[local] Hint Resolve quiet_geocode_restaurant : quiet.

Lemma quiet_geocode_all env rs : quiet (geocode_all env rs).
Proof.
  induction rs as [|r rest IH]; simpl; [auto with quiet|].
  repeat quiet_step.
Qed.

Lemma quiet_wait_while_processing env n : quiet (wait_while_processing env n).
Proof.
  induction n as [|n IH]; simpl; [auto with quiet|].
  repeat quiet_step.
Qed.

Lemma quiet_extract_food_frames env rs : quiet (extract_food_frames env rs).
Proof. unfold extract_food_frames. repeat quiet_step. Qed.

#[local] Hint Resolve quiet_geocode_all quiet_wait_while_processing
  quiet_extract_food_frames : quiet.

Lemma quiet_analyze_video env path url md : quiet (analyze_video env path url md).
Proof. unfold analyze_video. repeat quiet_step. Qed.

#[local] Hint Resolve quiet_analyze_video : quiet.

Lemma quiet_run_analysis env path url md : quiet (run_analysis env path url md).
Proof. unfold run_analysis. repeat quiet_step. Qed.

Lemma quiet_clean_up env path f : quiet (clean_up env path f).
Proof. unfold clean_up. repeat quiet_step. Qed.

(** ** The geocoder *)

(** Unfold the monad's operations. *)
Ltac run :=
  unfold bind, try_except, call, print, ret, raise, answer in *; simpl in *.

Section Geocoder.

Variable env : Env.

Lemma geocode_no_location w :
  geocode_restaurant env None w = (Returned None, w).
Proof. reflexivity. Qed.

Lemma geocode_no_parts l w :
  query_parts l = [] -> geocode_restaurant env (Some l) w = (Returned None, w).
Proof. intros H. unfold geocode_restaurant. now rewrite H. Qed.

(** The first request fails: nothing else is asked. *)
Lemma geocode_first_error l w e :
  query_parts l <> [] ->
  nominatim env (Str.join ", " (query_parts l)) = NetError e ->
  exists w',
    geocode_restaurant env (Some l) w = (Returned None, w') /\
    calls w' = CallNominatim (Str.join ", " (query_parts l)) :: calls w.
Proof.
  intros Hp He. unfold geocode_restaurant, urlopen.
  destruct (query_parts l) as [|p ps] eqn:E; [congruence|].
  run. rewrite He. simpl. eauto.
Qed.

(** The first reply is empty and there is nothing to fall back on. *)
Lemma geocode_empty_no_fallback l w :
  query_parts l <> [] ->
  nominatim env (Str.join ", " (query_parts l)) = NetJson [] ->
  fallback_parts l = [] \/ fallback_parts l = query_parts l ->
  exists w',
    geocode_restaurant env (Some l) w = (Returned None, w') /\
    calls w' = CallNominatim (Str.join ", " (query_parts l)) :: calls w.
Proof.
  intros Hp He Hfb. unfold geocode_restaurant, urlopen.
  destruct (query_parts l) as [|p ps] eqn:E; [congruence|].
  run. rewrite He. simpl.
  assert (Hc : bool_decide (fallback_parts l <> []) &&
               bool_decide (fallback_parts l <> p :: ps) = false).
  { destruct Hfb as [H|H].
    - rewrite (bool_decide_eq_false_2 (fallback_parts l <> [])); [reflexivity|].
      intros Hn. now apply Hn.
    - rewrite (bool_decide_eq_false_2 (fallback_parts l <> p :: ps));
        [apply andb_false_r|]. intros Hn. now apply Hn. }
  rewrite Hc. simpl. eauto.
Qed.

(** The first reply is empty and the fallback differs: one more request,
    whatever it answers. *)
Lemma geocode_empty_fallback l w :
  query_parts l <> [] ->
  nominatim env (Str.join ", " (query_parts l)) = NetJson [] ->
  fallback_parts l <> [] -> fallback_parts l <> query_parts l ->
  exists r w',
    geocode_restaurant env (Some l) w = (Returned r, w') /\
    calls w' = CallNominatim (Str.join ", " (fallback_parts l))
               :: CallNominatim (Str.join ", " (query_parts l)) :: calls w /\
    (forall e, nominatim env (Str.join ", " (fallback_parts l)) = NetError e ->
               r = None) /\
    (nominatim env (Str.join ", " (fallback_parts l)) = NetJson [] -> r = None) /\
    (forall a b rest,
       nominatim env (Str.join ", " (fallback_parts l))
         = NetJson (PlaceAt a b :: rest) ->
       r = Some {| lat := a; lng := b |}).
Proof.
  intros Hp He Hne Hd. unfold geocode_restaurant, urlopen.
  destruct (query_parts l) as [|p ps] eqn:E; [congruence|].
  run. rewrite He. simpl.
  rewrite (bool_decide_eq_true_2 _ Hne), (bool_decide_eq_true_2 _ Hd). simpl.
  destruct (nominatim env (Str.join ", " (fallback_parts l)))
    as [e|[|[a b|] rest]] eqn:Ef; simpl;
    (do 2 eexists; split; [reflexivity|]; split; [reflexivity|]);
    repeat split; intros; congruence.
Qed.

(** A first reply with a place ends the call. *)
Lemma geocode_first_found l w pl rest :
  query_parts l <> [] ->
  nominatim env (Str.join ", " (query_parts l)) = NetJson (pl :: rest) ->
  exists r w',
    geocode_restaurant env (Some l) w = (Returned r, w') /\
    calls w' = CallNominatim (Str.join ", " (query_parts l)) :: calls w.
Proof.
  intros Hp He. unfold geocode_restaurant, urlopen.
  destruct (query_parts l) as [|p ps] eqn:E; [congruence|].
  run. rewrite He. simpl. destruct pl; simpl; eauto.
Qed.

(** [geocode_restaurant] returns, and asks Nominatim at most twice. *)
Lemma geocode_returns loc w :
  exists r w' cs,
    geocode_restaurant env loc w = (Returned r, w') /\
    calls w' = cs ++ calls w /\ (length cs <= 2)%nat.
Proof.
  destruct loc as [l|]; [|exists None, w, []; repeat split; simpl; lia].
  destruct (query_parts l) as [|p ps] eqn:E.
  { exists None, w, []. rewrite (geocode_no_parts l w E). repeat split. simpl. lia. }
  assert (Hp : query_parts l <> []) by (rewrite E; discriminate).
  destruct (nominatim env (Str.join ", " (query_parts l))) as [e|[|pl rest]] eqn:He.
  - destruct (geocode_first_error l w e Hp He) as (w' & H1 & H2).
    exists None, w', [CallNominatim (Str.join ", " (query_parts l))].
    repeat split; [exact H1 | exact H2 | simpl; lia].
  - destruct (decide (fallback_parts l = [])) as [Hn|Hn].
    { destruct (geocode_empty_no_fallback l w Hp He (or_introl Hn)) as (w' & H1 & H2).
      exists None, w', [CallNominatim (Str.join ", " (query_parts l))].
      repeat split; [exact H1 | exact H2 | simpl; lia]. }
    destruct (decide (fallback_parts l = query_parts l)) as [Hd|Hd].
    { destruct (geocode_empty_no_fallback l w Hp He (or_intror Hd)) as (w' & H1 & H2).
      exists None, w', [CallNominatim (Str.join ", " (query_parts l))].
      repeat split; [exact H1 | exact H2 | simpl; lia]. }
    destruct (geocode_empty_fallback l w Hp He Hn Hd) as (r & w' & H1 & H2 & _).
    exists r, w', [CallNominatim (Str.join ", " (fallback_parts l));
                   CallNominatim (Str.join ", " (query_parts l))].
    repeat split; [exact H1 | exact H2 | simpl; lia].
  - destruct (geocode_first_found l w pl rest Hp He) as (r & w' & H1 & H2).
    exists r, w', [CallNominatim (Str.join ", " (query_parts l))].
    repeat split; [exact H1 | exact H2 | simpl; lia].
Qed.

End Geocoder.

(** C5 (as the code has it).  When the first query of a location comes
    back empty, exactly one fallback request is issued, built from
    whichever of city and country are present, provided at least one of
    them is present and they are not already the whole original query;
    this covers the case where both are present and the city+country query
    differs from the original.  No fallback is issued when both are
    absent, or when the original query consisted of exactly those fields.
    A call never issues more than two requests. *)
Theorem geocoder_fallback_rule (env : Env) (l : Location) (w : World)
    (Hparts : query_parts l <> [])
    (Hempty : nominatim env (Str.join ", " (query_parts l)) = NetJson []) :
  let q := Str.join ", " (query_parts l) in
  let fq := Str.join ", " (fallback_parts l) in
  let w' := (geocode_restaurant env (Some l) w).2 in
  (fallback_parts l <> [] -> fallback_parts l <> query_parts l ->
     calls w' = CallNominatim fq :: CallNominatim q :: calls w) /\
  (present (city l) <> [] -> present (country l) <> [] -> fq <> q ->
     fallback_parts l = present (city l) ++ present (country l) /\
     calls w' = CallNominatim fq :: CallNominatim q :: calls w) /\
  (fallback_parts l = [] \/ fallback_parts l = query_parts l ->
     calls w' = CallNominatim q :: calls w) /\
  (present (city l) = [] -> present (country l) = [] ->
     calls w' = CallNominatim q :: calls w) /\
  (forall loc w0, exists cs,
     calls (geocode_restaurant env loc w0).2 = cs ++ calls w0 /\
     (length cs <= 2)%nat).
Proof.
  intros q fq w'. subst q fq w'.
  assert (Hfb : fallback_parts l <> [] -> fallback_parts l <> query_parts l ->
    calls (geocode_restaurant env (Some l) w).2 =
      CallNominatim (Str.join ", " (fallback_parts l))
      :: CallNominatim (Str.join ", " (query_parts l)) :: calls w).
  { intros Hn Hd.
    destruct (geocode_empty_fallback env l w Hparts Hempty Hn Hd)
      as (r & w' & H1 & H2 & _). now rewrite H1. }
  assert (Hno : fallback_parts l = [] \/ fallback_parts l = query_parts l ->
    calls (geocode_restaurant env (Some l) w).2 =
      CallNominatim (Str.join ", " (query_parts l)) :: calls w).
  { intros H. destruct (geocode_empty_no_fallback env l w Hparts Hempty H)
      as (w' & H1 & H2). now rewrite H1. }
  split; [exact Hfb|]. split; [|split; [exact Hno|split]].
  - intros Hc Hk Hq. split; [reflexivity|]. apply Hfb.
    + unfold fallback_parts. destruct (present (city l)); [congruence|discriminate].
    + intros Heq. apply Hq. now rewrite Heq.
  - intros Hc Hk. apply Hno. left. unfold fallback_parts. now rewrite Hc, Hk.
  - intros loc w0. destruct (geocode_returns env loc w0) as (r & w' & cs & H1 & H2 & H3).
    exists cs. now rewrite H1.
Qed.

Lemma geocoder_fallback_rule_witness :
  calls (geocode_restaurant (sample_env (Returned "[]") no_results)
           (Some austin_usa) cold_world).2 =
    [CallNominatim "Austin, USA"; CallNominatim "1 Main St, Austin, USA"].
Proof.
  assert (Hp : query_parts austin_usa <> []) by (vm_compute; discriminate).
  assert (He : nominatim (sample_env (Returned "[]") no_results)
                 (Str.join ", " (query_parts austin_usa)) = NetJson [])
    by reflexivity.
  destruct (geocoder_fallback_rule (sample_env (Returned "[]") no_results)
              austin_usa cold_world Hp He) as (H & _).
  apply H; vm_compute; discriminate.
Defined.

(** C5 as the design document words it fails: with an address and a city
    but no country, an empty first reply is followed by a second request
    for the city alone. *)
Lemma geocoder_fallback_counterexample : ~ fallback_rule_as_specified.
Proof.
  intros H.
  specialize (H (sample_env (Returned "[]") no_results) address_and_city cold_world).
  assert (Hp : query_parts address_and_city <> []) by (vm_compute; discriminate).
  specialize (H Hp eq_refl (or_intror eq_refl)).
  vm_compute in H. discriminate H.
Qed.

(** C9. [geocode_restaurant] always returns and never raises.  A network
    error or timeout on the first request, or on the fallback request,
    makes it return [None]; a missing location, or one with no query
    field present, returns [None] without any request. *)
Theorem geocoder_never_raises (env : Env) (loc : option Location) (w : World) :
  exists r w',
    geocode_restaurant env loc w = (Returned r, w') /\
    (loc = None -> r = None /\ w' = w) /\
    (forall l, loc = Some l -> query_parts l = [] -> r = None /\ w' = w) /\
    (forall l e, loc = Some l -> query_parts l <> [] ->
       nominatim env (Str.join ", " (query_parts l)) = NetError e ->
       r = None) /\
    (forall l e, loc = Some l -> query_parts l <> [] ->
       nominatim env (Str.join ", " (query_parts l)) = NetJson [] ->
       nominatim env (Str.join ", " (fallback_parts l)) = NetError e ->
       r = None).
Proof.
  destruct (geocode_returns env loc w) as (r & w' & cs & H1 & _).
  exists r, w'. split; [exact H1|]. split; [|split; [|split]].
  - intros ->. rewrite geocode_no_location in H1. split; congruence.
  - intros l -> Hp. rewrite (geocode_no_parts env l w Hp) in H1. split; congruence.
  - intros l e -> Hp He.
    destruct (geocode_first_error env l w e Hp He) as (w1 & H2 & _). congruence.
  - intros l e -> Hp He Hf.
    destruct (decide (fallback_parts l = [])) as [Hn|Hn].
    { destruct (geocode_empty_no_fallback env l w Hp He (or_introl Hn))
        as (w1 & H2 & _). congruence. }
    destruct (decide (fallback_parts l = query_parts l)) as [Hd|Hd].
    { destruct (geocode_empty_no_fallback env l w Hp He (or_intror Hd))
        as (w1 & H2 & _). congruence. }
    destruct (geocode_empty_fallback env l w Hp He Hn Hd)
      as (r1 & w1 & H2 & _ & H3 & _).
    rewrite H2 in H1. inversion H1; subst. now apply (H3 e).
Qed.

Lemma geocoder_never_raises_witness :
  (geocode_restaurant (sample_env (Returned "[]") timed_out)
     (Some austin_usa) cold_world).1 = Returned None.
Proof.
  destruct (geocoder_never_raises (sample_env (Returned "[]") timed_out)
              (Some austin_usa) cold_world) as (r & w' & H1 & _ & _ & H2 & _).
  rewrite H1. simpl. f_equal.
  apply (H2 austin_usa "timed out"); [reflexivity | vm_compute; discriminate | reflexivity].
Defined.

(** ** The tracker and its backup *)

Section TrackerStore.

Variable env : Env.

Lemma dict_truthy_nonempty (d : Tracker) : dict_truthy d = true <-> d <> ∅.
Proof.
  unfold dict_truthy. rewrite negb_true_iff, Nat.eqb_neq.
  now rewrite map_size_empty_iff.
Qed.

Lemma dict_truthy_empty (d : Tracker) : dict_truthy d = false <-> d = ∅.
Proof.
  unfold dict_truthy. rewrite negb_false_iff, Nat.eqb_eq.
  apply map_size_empty_iff.
Qed.

Lemma load_tracker_primary w t :
  tracker_file w = Some t -> load_tracker env w = (Returned t, w).
Proof. intros H. unfold load_tracker. now rewrite H. Qed.

Lemma load_tracker_restore w d :
  tracker_file w = None -> gcs_up env = true -> gcs_tracker w = Some d ->
  d <> ∅ ->
  load_tracker env w =
    (Returned d,
     set_tracker_file d
       (log_call WriteTrackerFile
          (log_line "[Tracker] Restored from GCS backup"
             (log_call (CallGcsDownloadJson TRACKER_BLOB) w)))).
Proof.
  intros Hf Hup Hg Hd. apply dict_truthy_nonempty in Hd.
  unfold load_tracker, download_tracker_json, write_tracker_file.
  rewrite Hf, Hup. run. rewrite Hg, Hd. reflexivity.
Qed.

Lemma load_tracker_nothing w :
  tracker_file w = None ->
  gcs_up env = false \/ gcs_tracker w = None \/ gcs_tracker w = Some ∅ ->
  exists w',
    load_tracker env w = (Returned ∅, w') /\
    tracker_file w' = None /\ gcs_tracker w' = gcs_tracker w /\
    calls w' = CallGcsDownloadJson TRACKER_BLOB :: calls w.
Proof.
  intros Hf H. unfold load_tracker, download_tracker_json, write_tracker_file.
  rewrite Hf. destruct (gcs_up env) eqn:Hup; run.
  - destruct H as [H|[H|H]]; [discriminate| |]; rewrite H; simpl; eauto 10.
  - eauto 10.
Qed.

(** [load_tracker] always returns; what it returns is the primary copy,
    a restored backup, or the empty tracker. *)
Lemma load_tracker_cases w :
  exists t w',
    load_tracker env w = (Returned t, w') /\
    (tracker_file w' = tracker_file w \/
     (tracker_file w = None /\ tracker_file w' = gcs_tracker w)) /\
    gcs_tracker w' = gcs_tracker w /\
    (tracker_file w' = Some t \/ (t = ∅ /\ tracker_file w' = None)) /\
    (exists cs, calls w' = cs ++ calls w /\
                Forall (fun c => is_collaborator_call c = false) cs).
Proof.
  destruct (tracker_file w) as [t|] eqn:Hf.
  { exists t, w. rewrite (load_tracker_primary w t Hf).
    repeat split; auto. exists []. now split. }
  destruct (gcs_up env) eqn:Hup.
  - destruct (gcs_tracker w) as [d|] eqn:Hg.
    + destruct (decide (d = ∅)) as [->|Hd].
      * destruct (load_tracker_nothing w Hf (or_intror (or_intror Hg)))
          as (w' & H1 & H2 & H3 & H4).
        exists ∅, w'. rewrite H2, H3, Hg. repeat split; auto.
        exists [CallGcsDownloadJson TRACKER_BLOB]. split; [exact H4|].
        now repeat constructor.
      * rewrite (load_tracker_restore w d Hf Hup Hg Hd).
        do 2 eexists. split; [reflexivity|]. simpl. repeat split; auto.
        exists [WriteTrackerFile; CallGcsDownloadJson TRACKER_BLOB].
        split; [reflexivity|]. now repeat constructor.
    + destruct (load_tracker_nothing w Hf (or_intror (or_introl Hg)))
        as (w' & H1 & H2 & H3 & H4).
      exists ∅, w'. rewrite H2, H3, Hg. repeat split; auto.
      exists [CallGcsDownloadJson TRACKER_BLOB]. split; [exact H4|].
      now repeat constructor.
  - destruct (load_tracker_nothing w Hf (or_introl Hup))
      as (w' & H1 & H2 & H3 & H4).
    exists ∅, w'. rewrite H2, H3. repeat split; auto.
    exists [CallGcsDownloadJson TRACKER_BLOB]. split; [exact H4|].
    now repeat constructor.
Qed.

Lemma save_tracker_saved t w :
  save_tracker env t w = (Returned tt, saved env t w).
Proof.
  unfold save_tracker, upload_tracker_json, write_tracker_file, saved.
  run. destruct (gcs_up env); reflexivity.
Qed.

End TrackerStore.




(** ** The duplicate check *)

Section Duplicates.

Lemma is_duplicate_loop_spec n keys :
  is_duplicate_loop n keys = true <->
  exists k, k ∈ keys /\ normalize_url k = n.
Proof.
  induction keys as [|k rest IH]; simpl.
  - split; [discriminate|]. intros (k & Hk & _). now apply elem_of_nil in Hk.
  - destruct (String.eqb (normalize_url k) n) eqn:E.
    + apply String.eqb_eq in E. split; [|reflexivity].
      intros _. exists k. split; [apply elem_of_cons; now left | exact E].
    + apply String.eqb_neq in E. rewrite IH. split.
      * intros (k' & Hk & Hn). exists k'. split; [apply elem_of_cons; now right|exact Hn].
      * intros (k' & Hk & Hn). apply elem_of_cons in Hk as [->|Hk]; [contradiction|].
        now exists k'.
Qed.

Lemma dict_keys_spec (t : Tracker) k : k ∈ dict_keys t <-> is_Some (t !! k).
Proof.
  unfold dict_keys. rewrite list_elem_of_fmap. split.
  - intros ([k' e] & -> & H). apply elem_of_map_to_list in H. now exists e.
  - intros [e H]. exists (k, e). split; [reflexivity|].
    now apply elem_of_map_to_list.
Qed.

Lemma is_duplicate_spec url (t : Tracker) :
  is_duplicate url t = true <->
  exists k, is_Some (t !! k) /\ normalize_url k = normalize_url url.
Proof.
  unfold is_duplicate. rewrite is_duplicate_loop_spec. split.
  - intros (k & Hk & Hn). exists k. split; [now apply dict_keys_spec | exact Hn].
  - intros (k & Hk & Hn). exists k. split; [now apply dict_keys_spec | exact Hn].
Qed.

Lemma not_duplicate_fresh url (t : Tracker) :
  is_duplicate url t = false -> t !! url = None.
Proof.
  intros H. destruct (t !! url) as [e|] eqn:E; [|reflexivity].
  assert (Hd : is_duplicate url t = true).
  { apply is_duplicate_spec. exists url. split; [now exists e | reflexivity]. }
  congruence.
Qed.

Lemma tracker_dedup_empty : tracker_dedup ∅.
Proof. intros k1 k2 [e H]. now rewrite lookup_empty in H. Qed.

Lemma tracker_dedup_insert url e (t : Tracker) :
  tracker_dedup t -> is_duplicate url t = false ->
  tracker_dedup (<[url := e]> t).
Proof.
  intros Ht Hd k1 k2 H1 H2 Hn.
  assert (Hfresh : forall k, is_Some (t !! k) ->
                             normalize_url k <> normalize_url url).
  { intros k Hk Heq.
    assert (is_duplicate url t = true)
      by (apply is_duplicate_spec; now exists k).
    congruence. }
  destruct (decide (url = k1)) as [<-|N1]; destruct (decide (url = k2)) as [<-|N2].
  - reflexivity.
  - rewrite lookup_insert_ne in H2 by assumption.
    exfalso. now apply (Hfresh k2 H2).
  - rewrite lookup_insert_ne in H1 by assumption.
    exfalso. now apply (Hfresh k1 H1).
  - rewrite lookup_insert_ne in H1, H2 by assumption. now apply Ht.
Qed.

End Duplicates.

(** ** The paths through [/process] *)

Section Paths.

Variable env : Env.
Variables url sender chat_name : string.

Lemma bind_returned {A B} (m : M A) (k : A -> M B) w a w' :
  m w = (Returned a, w') -> bind m k w = k a w'.
Proof. intros H. unfold bind. now rewrite H. Qed.

Lemma bind_raised {A B} (m : M A) (k : A -> M B) w e w' :
  m w = (Raised e, w') -> bind m k w = (Raised e, w').
Proof. intros H. unfold bind. now rewrite H. Qed.

Lemma clean_up_cleaned_up path filename w :
  clean_up env path filename w = (Returned tt, cleaned_up env path filename w).
Proof.
  unfold clean_up, cleaned_up. run. destruct (cleanup env); reflexivity.
Qed.

(** The analysis step never raises: an exception of [analyze_video]
    becomes the error text, with an empty analysis. *)
Lemma run_analysis_cases path md w :
  (exists a w', analyze_video env path url (Some md) w = (Returned a, w') /\
                run_analysis env path url md w = (Returned (a, None), w')) \/
  (exists e w', analyze_video env path url (Some md) w = (Raised e, w') /\
                run_analysis env path url md w =
                  (Returned ([], Some e),
                   log_line ("[ERROR] Gemini analysis failed for " +:+ url +:+
                             ": " +:+ e) w')).
Proof.
  unfold run_analysis, try_except, bind.
  destruct (analyze_video env path url (Some md) w) as [[a|e] w'].
  - left. now exists a, w'.
  - right. now exists e, w'.
Qed.

Lemma process_url_duplicate w t w1 :
  load_tracker env w = (Returned t, w1) -> is_duplicate url t = true ->
  process_url env url sender chat_name w =
    (Returned (plain_response 200 st_skipped "Already processed"), w1).
Proof.
  intros Hl Hd. unfold process_url.
  rewrite (bind_returned _ _ _ _ _ Hl). now rewrite Hd.
Qed.

Lemma process_url_metadata_failed w t w1 e :
  load_tracker env w = (Returned t, w1) -> is_duplicate url t = false ->
  yt_extract env url = Raised e ->
  process_url env url sender chat_name w =
    (Returned (plain_response 500 st_error ("Metadata failed: " +:+ e)),
     log_line ("[ERROR] Metadata extraction failed for " +:+ url +:+ ": " +:+ e)
       (log_call (CallExtractMetadata url) w1)).
Proof.
  intros Hl Hd He. unfold process_url.
  rewrite (bind_returned _ _ _ _ _ Hl). rewrite Hd.
  unfold extract_metadata. run. now rewrite He.
Qed.

Lemma process_url_filtered w t w1 meta :
  load_tracker env w = (Returned t, w1) -> is_duplicate url t = false ->
  yt_extract env url = Returned meta ->
  is_likely_restaurant (metadata_of_yt meta) = unlikely ->
  process_url env url sender chat_name w =
    (Returned (filtered_response unlikely),
     saved env (<[url := filtered_entry env meta sender chat_name unlikely]> t)
       (filtered_world url meta w1)).
Proof.
  intros Hl Hd He Hv. unfold process_url.
  rewrite (bind_returned _ _ _ _ _ Hl). rewrite Hd.
  unfold extract_metadata, filtered_world. run. rewrite He. simpl.
  rewrite Hv. unfold bind. rewrite save_tracker_saved. reflexivity.
Qed.

Lemma process_url_passed w t w1 meta :
  load_tracker env w = (Returned t, w1) -> is_duplicate url t = false ->
  yt_extract env url = Returned meta ->
  is_likely_restaurant (metadata_of_yt meta) <> unlikely ->
  process_url env url sender chat_name w =
    download_and_analyse env url sender chat_name t meta
      (is_likely_restaurant (metadata_of_yt meta)) (filtered_world url meta w1).
Proof.
  intros Hl Hd He Hv. unfold process_url.
  rewrite (bind_returned _ _ _ _ _ Hl). rewrite Hd.
  unfold extract_metadata, filtered_world. run. rewrite He. simpl.
  destruct (is_likely_restaurant (metadata_of_yt meta)); congruence.
Qed.

Lemma download_failed t meta v w e :
  yt_download env url = Raised e ->
  download_and_analyse env url sender chat_name t meta v w =
    (Returned (plain_response 500 st_error ("Download failed: " +:+ e)),
     log_line ("[ERROR] Download failed for " +:+ url +:+ ": " +:+ e)
       (log_call (CallDownloadVideo url) w)).
Proof.
  intros He. unfold download_and_analyse, download_video. run. now rewrite He.
Qed.

Lemma download_succeeded t meta v w dl a err w3 :
  yt_download env url = Returned dl ->
  run_analysis env (video_path_of dl) url
    (load_rich_metadata env (dl_id dl) (metadata_of_yt meta))
    (log_call (CallDownloadVideo url) w) = (Returned (a, err), w3) ->
  download_and_analyse env url sender chat_name t meta v w =
    (Returned (success_response (determine_category err a) v a),
     finished env url dl (determine_category err a) a
       (<[url := analysed_entry env dl sender chat_name
                   (determine_category err a) v a err]> t) w3).
Proof.
  intros Hd Hr. unfold download_and_analyse, download_video.
  unfold bind at 1. unfold try_except, bind at 1. unfold call, answer, bind at 1.
  rewrite Hd. unfold ret at 1.
  fold (video_path_of dl).
  rewrite (bind_returned _ _ _ _ _ Hr). simpl fst. simpl snd.
  rewrite (bind_returned _ _ _ _ _ (clean_up_cleaned_up _ _ _)).
  rewrite (bind_returned _ _ _ _ _ (save_tracker_saved _ _ _)).
  unfold finished, rebuilt, success_response.
  destruct (determine_category err a); run;
    try destruct (rebuild_web_data env); reflexivity.
Qed.

End Paths.

(** ** What the paths leave in the stores *)

Section Stores.

Variable env : Env.

Lemma saved_stores (t : Tracker) w :
  tracker_file (saved env t w) = Some t /\
  (gcs_tracker (saved env t w) = Some t \/
   gcs_tracker (saved env t w) = gcs_tracker w) /\
  gcs_analysis (saved env t w) = gcs_analysis w /\
  calls (saved env t w) =
    [CallGcsUploadJson TRACKER_BLOB; WriteTrackerFile] ++ calls w.
Proof. unfold saved. destruct (gcs_up env); simpl; auto. Qed.

Lemma cleaned_up_stores path f w :
  tracker_file (cleaned_up env path f w) = tracker_file w /\
  gcs_tracker (cleaned_up env path f w) = gcs_tracker w /\
  gcs_analysis (cleaned_up env path f w) = gcs_analysis w /\
  calls (cleaned_up env path f w) = CallCleanup path :: calls w.
Proof. unfold cleaned_up. destruct (cleanup env); simpl; auto. Qed.

Lemma rebuilt_stores c w :
  tracker_file (rebuilt env c w) = tracker_file w /\
  gcs_tracker (rebuilt env c w) = gcs_tracker w /\
  gcs_analysis (rebuilt env c w) = gcs_analysis w /\
  exists cs, calls (rebuilt env c w) = cs ++ calls w /\
             tracker_writes cs = 0%nat.
Proof.
  unfold rebuilt. destruct c; simpl; try (repeat split; now exists []).
  destruct (rebuild_web_data env); simpl; repeat split;
    now exists [CallRebuildWebData].
Qed.

Lemma finished_stores url dl c a (t : Tracker) w :
  tracker_file (finished env url dl c a t w) = Some t /\
  (gcs_tracker (finished env url dl c a t w) = Some t \/
   gcs_tracker (finished env url dl c a t w) = gcs_tracker w) /\
  gcs_analysis (finished env url dl c a t w) = gcs_analysis w /\
  exists cs, calls (finished env url dl c a t w) = cs ++ calls w /\
             tracker_writes cs = 1%nat.
Proof.
  unfold finished. simpl.
  destruct (rebuilt_stores c
              (saved env t (cleaned_up env (video_path_of dl) (dl_filename dl) w)))
    as (R1 & R2 & R3 & cs & R4 & R5).
  destruct (saved_stores t (cleaned_up env (video_path_of dl) (dl_filename dl) w))
    as (S1 & S2 & S3 & S4).
  destruct (cleaned_up_stores (video_path_of dl) (dl_filename dl) w)
    as (C1 & C2 & C3 & C4).
  rewrite R1, R2, R3, R4, S1, S3, S4, C3, C4.
  split; [reflexivity|]. split; [destruct S2 as [->| ->]; auto|].
  split; [reflexivity|].
  exists (cs ++ [CallGcsUploadJson TRACKER_BLOB; WriteTrackerFile;
                 CallCleanup (video_path_of dl)]).
  split; [now rewrite <- app_assoc|].
  rewrite tracker_writes_app, R5. reflexivity.
Qed.

Lemma waited_stores n w :
  tracker_file (waited n w) = tracker_file w /\
  gcs_tracker (waited n w) = gcs_tracker w /\
  gcs_analysis (waited n w) = gcs_analysis w /\
  exists cs, calls (waited n w) = cs ++ calls w /\
             Forall (fun c => is_gcs_upload c = false) cs.
Proof.
  revert w. induction n as [|n IH]; intros w; simpl.
  - repeat split. now exists [].
  - destruct (IH (log_call CallGeminiGet
                    (log_line "[Gemini] File still processing, waiting..." w)))
      as (H1 & H2 & H3 & cs & H4 & H5).
    rewrite H1, H2, H3, H4. simpl. repeat split.
    exists (cs ++ [CallGeminiGet]). split; [now rewrite <- app_assoc|].
    apply Forall_app. split; [exact H5 | now repeat constructor].
Qed.

Lemma wait_while_processing_waited n w :
  wait_while_processing env n w = (Returned (gemini_settled env), waited n w).
Proof.
  revert w. induction n as [|n IH]; intros w; simpl; [reflexivity|].
  unfold bind, print, call. now rewrite IH.
Qed.

(** The model answers with text that is not JSON: the analysis returns
    the empty list. *)
Lemma analyze_video_invalid_json path url md text w :
  video_on_disk env path = true ->
  gemini_client env = Returned tt -> gemini_upload env = Returned tt ->
  gemini_settled env = ACTIVE ->
  gemini_generate env = Returned text -> json_loads env text = None ->
  analyze_video env path url md w =
    (Returned [], analysed_invalid_json env path text w).
Proof.
  intros Hv Hc Hu Hs Hg Hj. unfold analyze_video, analysed_invalid_json.
  rewrite Hv. unfold bind, answer, print, call, ret. simpl.
  rewrite Hc, Hu, wait_while_processing_waited, Hs, Hg, Hj. reflexivity.
Qed.

End Stores.

(** ** Every run of [/process] for a URL *)

Section Outcomes.

Variable env : Env.
Variables url sender chat_name : string.

Lemma load_tracker_gcs_analysis w :
  gcs_analysis (load_tracker env w).2 = gcs_analysis w.
Proof.
  unfold load_tracker, download_tracker_json, write_tracker_file.
  destruct (tracker_file w); [reflexivity|]. run.
  destruct (gcs_up env); simpl; [|reflexivity].
  destruct (gcs_tracker w) as [d|]; simpl; [destruct (dict_truthy d)|];
    reflexivity.
Qed.

(** The five ways a request for a URL ends, with what each leaves in the
    tracker. *)
Lemma process_url_outcome w t w1 :
  load_tracker env w = (Returned t, w1) ->
  exists resp w' cs,
    process_url env url sender chat_name w = (Returned resp, w') /\
    calls w' = cs ++ calls w1 /\
    ((is_duplicate url t = true /\
      resp = plain_response 200 st_skipped "Already processed" /\ w' = w1)
     \/
     (is_duplicate url t = false /\
      (exists e, yt_extract env url = Raised e /\
         resp = plain_response 500 st_error ("Metadata failed: " +:+ e)) /\
      tracker_file w' = tracker_file w1 /\ gcs_tracker w' = gcs_tracker w1 /\
      tracker_writes cs = 0%nat)
     \/
     (is_duplicate url t = false /\
      (exists meta, yt_extract env url = Returned meta /\
         is_likely_restaurant (metadata_of_yt meta) = unlikely /\
         resp = filtered_response unlikely /\
         tracker_file w' =
           Some (<[url := filtered_entry env meta sender chat_name unlikely]> t)) /\
      (gcs_tracker w' = tracker_file w' \/ gcs_tracker w' = gcs_tracker w1) /\
      tracker_writes cs = 1%nat)
     \/
     (is_duplicate url t = false /\
      (exists meta e, yt_extract env url = Returned meta /\
         is_likely_restaurant (metadata_of_yt meta) <> unlikely /\
         yt_download env url = Raised e /\
         resp = plain_response 500 st_error ("Download failed: " +:+ e)) /\
      tracker_file w' = tracker_file w1 /\ gcs_tracker w' = gcs_tracker w1 /\
      tracker_writes cs = 0%nat)
     \/
     (is_duplicate url t = false /\
      (exists meta dl a err,
         yt_extract env url = Returned meta /\
         is_likely_restaurant (metadata_of_yt meta) <> unlikely /\
         yt_download env url = Returned dl /\
         ((exists w3,
             analyze_video env (video_path_of dl) url
               (Some (load_rich_metadata env (dl_id dl) (metadata_of_yt meta)))
               (analysis_start url meta w1) = (Returned a, w3) /\ err = None) \/
          (exists e w3,
             analyze_video env (video_path_of dl) url
               (Some (load_rich_metadata env (dl_id dl) (metadata_of_yt meta)))
               (analysis_start url meta w1) = (Raised e, w3) /\
             a = [] /\ err = Some e)) /\
         resp = success_response (determine_category err a)
                  (is_likely_restaurant (metadata_of_yt meta)) a /\
         tracker_file w' =
           Some (<[url := analysed_entry env dl sender chat_name
                            (determine_category err a)
                            (is_likely_restaurant (metadata_of_yt meta))
                            a err]> t)) /\
      (gcs_tracker w' = tracker_file w' \/ gcs_tracker w' = gcs_tracker w1) /\
      tracker_writes cs = 1%nat)).
Proof.
  intros Hl.
  destruct (is_duplicate url t) eqn:Hd.
  { exists (plain_response 200 st_skipped "Already processed"), w1, [].
    split; [exact (process_url_duplicate env url sender chat_name w t w1 Hl Hd)|].
    split; [reflexivity|]. now left. }
  destruct (yt_extract env url) as [meta|e] eqn:He.
  2:{ do 2 eexists. exists [CallExtractMetadata url].
      split; [exact (process_url_metadata_failed env url sender chat_name
                       w t w1 e Hl Hd He)|]. split; [reflexivity|].
      right; left. split; [reflexivity|]. split; [now exists e|]. now repeat split. }
  assert (Hv : is_likely_restaurant (metadata_of_yt meta) = unlikely \/
               is_likely_restaurant (metadata_of_yt meta) <> unlikely)
    by (destruct (is_likely_restaurant (metadata_of_yt meta));
        [right | right | left]; congruence).
  destruct Hv as [Hv|Hv].
  { pose proof (process_url_filtered env url sender chat_name w t w1 meta
                  Hl Hd He Hv) as Hp.
    destruct (saved_stores env
                (<[url := filtered_entry env meta sender chat_name unlikely]> t)
                (filtered_world url meta w1)) as (S1 & S2 & _ & S4).
    do 2 eexists.
    exists [CallGcsUploadJson TRACKER_BLOB; WriteTrackerFile;
            CallExtractMetadata url].
    split; [exact Hp|]. split; [rewrite S4; reflexivity|].
    right; right; left. split; [reflexivity|].
    split; [exists meta; now repeat split|].
    split; [|reflexivity]. rewrite S1. destruct S2 as [->| ->]; auto. }
  rewrite (process_url_passed env url sender chat_name w t w1 meta Hl Hd He Hv).
  destruct (yt_download env url) as [dl|e] eqn:Hdl.
  2:{ do 2 eexists. exists [CallDownloadVideo url; CallExtractMetadata url].
      split; [exact (download_failed env url sender chat_name t meta _ _ e Hdl)|].
      split; [reflexivity|].
      right; right; right; left. split; [reflexivity|].
      split; [exists meta, e; now repeat split|]. now repeat split. }
  pose proof (quiet_run_analysis env (video_path_of dl) url
                (load_rich_metadata env (dl_id dl) (metadata_of_yt meta))
                (analysis_start url meta w1)) as (Q1 & Q2 & csa & Q3 & Q4).
  assert (Hrun : exists a err w3,
    run_analysis env (video_path_of dl) url
      (load_rich_metadata env (dl_id dl) (metadata_of_yt meta))
      (analysis_start url meta w1) = (Returned (a, err), w3) /\
    ((exists w3',
        analyze_video env (video_path_of dl) url
          (Some (load_rich_metadata env (dl_id dl) (metadata_of_yt meta)))
          (analysis_start url meta w1) = (Returned a, w3') /\ err = None) \/
     (exists e w3',
        analyze_video env (video_path_of dl) url
          (Some (load_rich_metadata env (dl_id dl) (metadata_of_yt meta)))
          (analysis_start url meta w1) = (Raised e, w3') /\
        a = [] /\ err = Some e))).
  { destruct (run_analysis_cases env url (video_path_of dl)
                (load_rich_metadata env (dl_id dl) (metadata_of_yt meta))
                (analysis_start url meta w1))
      as [(a & w3 & H1 & H2)|(e & w3 & H1 & H2)].
    - exists a, None, w3. split; [exact H2|]. left. now exists w3.
    - do 3 eexists. split; [exact H2|]. right. now exists e, w3. }
  destruct Hrun as (a & err & w3 & Hr & Han).
  rewrite Hr in Q1, Q2, Q3. simpl in Q1, Q2, Q3.
  pose proof (download_succeeded env url sender chat_name t meta
                (is_likely_restaurant (metadata_of_yt meta))
                (filtered_world url meta w1) dl a err w3 Hdl Hr) as Hp.
  destruct (finished_stores env url dl (determine_category err a) a
              (<[url := analysed_entry env dl sender chat_name
                          (determine_category err a)
                          (is_likely_restaurant (metadata_of_yt meta)) a err]> t)
              w3) as (F1 & F2 & _ & csf & F4 & F5).
  do 2 eexists.
  exists (csf ++ csa ++ [CallDownloadVideo url; CallExtractMetadata url]).
  split; [exact Hp|]. split.
  { rewrite F4, Q3. unfold analysis_start, filtered_world. simpl.
    now rewrite <- !app_assoc. }
  right; right; right; right. split; [reflexivity|].
  split; [exists meta, dl, a, err; now repeat split|].
  split.
  - rewrite F1. destruct F2 as [-> | ->]; [now left|].
    right. rewrite Q2. reflexivity.
  - rewrite !tracker_writes_app, F5, Q4. reflexivity.
Qed.

End Outcomes.

(** ** At-most-once processing *)

Section AtMostOnce.

Lemma world_dedup_cold : world_dedup cold_world.
Proof. split; intros t H; discriminate H. Qed.

Lemma load_tracker_dedup env w t w1 :
  load_tracker env w = (Returned t, w1) -> world_dedup w ->
  world_dedup w1 /\ tracker_dedup t.
Proof.
  intros Hl [Hf Hg].
  destruct (load_tracker_cases env w) as (t0 & w0 & H1 & H2 & H3 & H4 & _).
  rewrite Hl in H1. inversion H1; subst t0 w0. clear H1.
  assert (Hw : world_dedup w1).
  { split.
    - intros t' Ht'. destruct H2 as [H2|[_ H2]]; rewrite H2 in Ht'; auto.
    - intros t' Ht'. rewrite H3 in Ht'. auto. }
  split; [exact Hw|].
  destruct H4 as [H4|[-> _]]; [now apply (proj1 Hw) | apply tracker_dedup_empty].
Qed.

Lemma process_url_dedup env url sender chat_name w :
  world_dedup w -> world_dedup (process_url env url sender chat_name w).2.
Proof.
  intros Hw.
  destruct (load_tracker_cases env w) as (t & w1 & Hl & _).
  destruct (load_tracker_dedup env w t w1 Hl Hw) as [[Hf Hg] Ht].
  destruct (process_url_outcome env url sender chat_name w t w1 Hl)
    as (resp & w' & cs & Hp & _ & Hcases).
  rewrite Hp. simpl.
  destruct Hcases as [(_ & _ & ->)|[(_ & _ & H1 & H2 & _)|[(Hd & (meta & _ & _ & _ & H1) & H2 & _)
    |[(_ & _ & H1 & H2 & _)|(Hd & (meta & dl & a & err & _ & _ & _ & _ & _ & H1) & H2 & _)]]]].
  - now split.
  - split; intros t'; rewrite ?H1, ?H2; auto.
  - assert (Hi := tracker_dedup_insert url
                    (filtered_entry env meta sender chat_name unlikely) t Ht Hd).
    split; intros t' Ht'.
    + rewrite H1 in Ht'. now inversion Ht'; subst.
    + destruct H2 as [H2|H2]; rewrite H2 in Ht'; [|now auto].
      rewrite H1 in Ht'. now inversion Ht'; subst.
  - split; intros t'; rewrite ?H1, ?H2; auto.
  - assert (Hi := tracker_dedup_insert url
                    (analysed_entry env dl sender chat_name
                       (determine_category err a)
                       (is_likely_restaurant (metadata_of_yt meta)) a err)
                    t Ht Hd).
    split; intros t' Ht'.
    + rewrite H1 in Ht'. now inversion Ht'; subst.
    + destruct H2 as [H2|H2]; rewrite H2 in Ht'; [|now auto].
      rewrite H1 in Ht'. now inversion Ht'; subst.
Qed.

Lemma handle_process_dedup env data w :
  world_dedup w -> world_dedup (handle_process env data w).2.
Proof.
  intros Hw. unfold handle_process.
  destruct data as [rq|]; [|exact Hw].
  destruct (rq_url rq) as [url|]; [|exact Hw].
  now apply process_url_dedup.
Qed.

Lemma serve_dedup requests w : world_dedup w -> world_dedup (serve requests w).
Proof.
  revert w. induction requests as [|[env data] rest IH]; intros w Hw; simpl.
  - exact Hw.
  - apply IH. now apply handle_process_dedup.
Qed.

End AtMostOnce.

(** C1. [is_duplicate url tracker] is true exactly when some key of the
    tracker has the normal form of [url].  When it is true for the tracker
    the handler loaded, [/process] answers 200 with status "skipped" and
    message "Already processed", calls none of metadata extraction,
    download, analysis or any other collaborator, and leaves the tracker
    as it loaded it.  Hence no two entries of the tracker ever have the
    same normalised URL: every request keeps that property of the primary
    copy and of the backup, and a server started without a tracker has it
    after any sequence of requests. *)
Theorem at_most_once_processing (env : Env) (url sender chat_name : string)
    (w : World) :
  (forall t : Tracker,
     is_duplicate url t = true <->
     exists k, is_Some (t !! k) /\ normalize_url k = normalize_url url) /\
  (forall t w1,
     load_tracker env w = (Returned t, w1) -> is_duplicate url t = true ->
     process_url env url sender chat_name w =
       (Returned (plain_response 200 st_skipped "Already processed"), w1) /\
     handle_process env
       (Some {| rq_url := Some url; rq_chat_name := Some chat_name;
                rq_sender := Some sender |}) w =
       (Returned (plain_response 200 st_skipped "Already processed"), w1) /\
     tracker_file w1 = Some t /\
     load_tracker env w1 = (Returned t, w1) /\
     gcs_tracker w1 = gcs_tracker w /\
     exists cs, calls w1 = cs ++ calls w /\
                Forall (fun c => is_collaborator_call c = false) cs) /\
  (forall data, world_dedup w -> world_dedup (handle_process env data w).2) /\
  (forall requests, world_dedup (serve requests cold_world)).
Proof.
  split; [intros t; apply is_duplicate_spec|].
  split; [|split].
  - intros t w1 Hl Hd.
    pose proof (process_url_duplicate env url sender chat_name w t w1 Hl Hd) as Hp.
    split; [exact Hp|]. split; [exact Hp|].
    destruct (load_tracker_cases env w) as (t0 & w0 & H1 & _ & H3 & H4 & H5).
    rewrite Hl in H1. inversion H1; subst t0 w0. clear H1.
    assert (Hf : tracker_file w1 = Some t).
    { destruct H4 as [H4|[-> _]]; [exact H4|].
      apply is_duplicate_spec in Hd as (k & [e Hk] & _).
      now rewrite lookup_empty in Hk. }
    split; [exact Hf|]. split; [now apply load_tracker_primary|].
    split; [exact H3 | exact H5].
  - intros data. apply handle_process_dedup.
  - intros requests. apply serve_dedup, world_dedup_cold.
Qed.

Lemma at_most_once_processing_witness :
  handle_process (sample_env (Returned "[]") no_results)
    (Some {| rq_url := Some "https://tiktok.com/@chef/video/123/#top";
             rq_chat_name := Some ""; rq_sender := Some "me" |})
    handled_world =
  (Returned (plain_response 200 st_skipped "Already processed"), handled_world).
Proof.
  destruct (at_most_once_processing (sample_env (Returned "[]") no_results)
              "https://tiktok.com/@chef/video/123/#top" "me" "" handled_world)
    as (_ & H & _).
  destruct (H handled_tracker handled_world) as (_ & H' & _).
  - reflexivity.
  - vm_compute. reflexivity.
  - exact H'.
Defined.

(** ** The tracker-write paths *)

(** C2. For a URL that is not a duplicate, a failure of metadata
    extraction, or of the download once the filter has let the URL
    through, makes [/process] answer 500 without writing the tracker: both
    copies are as the handler loaded them and no entry exists for the URL.
    Every other run answers 200 after writing the tracker file exactly
    once, with one new entry for the submitted URL whose category is
    [skipped_not_restaurant] for a filtered-out URL and otherwise the
    [restaurant], [not_restaurant] or [analysis_failed] of the response.
    These are the only ways such a request ends. *)
Theorem tracker_write_paths (env : Env) (url sender chat_name : string)
    (w : World) (t : Tracker) (w1 : World)
    (Hload : load_tracker env w = (Returned t, w1))
    (Hfresh : is_duplicate url t = false) :
  exists resp w' cs,
    process_url env url sender chat_name w = (Returned resp, w') /\
    calls w' = cs ++ calls w1 /\
    t !! url = None /\
    ((http_code resp = 500 /\ rs_status resp = st_error /\
      ((exists e, yt_extract env url = Raised e) \/
       (exists meta e, yt_extract env url = Returned meta /\
          is_likely_restaurant (metadata_of_yt meta) <> unlikely /\
          yt_download env url = Raised e)) /\
      tracker_file w' = tracker_file w1 /\ gcs_tracker w' = gcs_tracker w1 /\
      tracker_writes cs = 0%nat)
     \/
     (http_code resp = 200 /\
      (exists meta, yt_extract env url = Returned meta /\
         (is_likely_restaurant (metadata_of_yt meta) = unlikely \/
          exists dl, yt_download env url = Returned dl)) /\
      tracker_writes cs = 1%nat /\
      exists entry,
        tracker_file w' = Some (<[url := entry]> t) /\
        size (<[url := entry]> t) = S (size t) /\
        ((rs_status resp = st_skipped /\
          te_category entry = skipped_not_restaurant) \/
         (rs_status resp = st_success /\
          rs_category resp = Some (te_category entry) /\
          (te_category entry = restaurant \/
           te_category entry = not_restaurant \/
           te_category entry = analysis_failed))))).
Proof.
  pose proof (not_duplicate_fresh url t Hfresh) as Hnone.
  destruct (process_url_outcome env url sender chat_name w t w1 Hload)
    as (resp & w' & cs & Hp & Hc & Hcases).
  exists resp, w', cs. split; [exact Hp|]. split; [exact Hc|].
  split; [exact Hnone|].
  destruct Hcases as [(Hd & _)|[(_ & (e & He & ->) & H1 & H2 & H3)
    |[(_ & (meta & He & Hv & -> & H1) & _ & H3)
    |[(_ & (meta & e & He & Hv & Hdl & ->) & H1 & H2 & H3)
    |(_ & (meta & dl & a & err & He & Hv & Hdl & _ & -> & H1) & _ & H3)]]]].
  - congruence.
  - left. repeat split; auto. left. now exists e.
  - right. split; [reflexivity|]. split; [exists meta; auto|].
    split; [exact H3|]. eexists. split; [exact H1|].
    split; [now apply map_size_insert_None|]. left. now split.
  - left. repeat split; auto. right. now exists meta, e.
  - right. split; [reflexivity|]. split; [exists meta; split; [exact He|]; right; now exists dl|].
    split; [exact H3|]. eexists. split; [exact H1|].
    split; [now apply map_size_insert_None|]. right.
    split; [reflexivity|]. split; [reflexivity|]. simpl.
    unfold determine_category. destruct (error_truthy err); [auto|].
    destruct (Nat.ltb 0 (length a)); auto.
Qed.

Lemma tracker_write_paths_witness :
  exists resp w' cs,
    process_url (sample_env (Returned "I am not JSON") no_results)
      "https://tiktok.com/@chef/video/123?x=1" "me" "" cold_world
      = (Returned resp, w') /\
    calls w' = cs ++ [CallGcsDownloadJson TRACKER_BLOB] /\
    tracker_writes cs = 1%nat /\ http_code resp = 200.
Proof.
  destruct (tracker_write_paths (sample_env (Returned "I am not JSON") no_results)
              "https://tiktok.com/@chef/video/123?x=1" "me" "" cold_world ∅
              (log_call (CallGcsDownloadJson TRACKER_BLOB) cold_world)
              eq_refl eq_refl)
    as (resp & w' & cs & Hp & Hc & _ & [(_ & _ & [(e & He)|(m & e & _ & _ & He)] & _)
                                       |(Hcode & _ & Hw & _)]).
  - discriminate He.
  - discriminate He.
  - exists resp, w', cs. repeat split; assumption.
Defined.

(** ** The final category *)

(** Step 8 on its inputs: [analysis_failed] needs an error text that is
    not empty. *)
Lemma determine_category_spec (err : option string) (a : list Restaurant) :
  (determine_category err a = analysis_failed <->
   exists e, err = Some e /\ e <> "") /\
  (determine_category err a = restaurant <->
   (err = None \/ err = Some "") /\ a <> []) /\
  (determine_category err a = not_restaurant <->
   (err = None \/ err = Some "") /\ a = []).
Proof.
  unfold determine_category, error_truthy.
  destruct err as [[|c e]|]; destruct a as [|r a]; simpl;
    repeat split; intros; try discriminate; try congruence; auto;
    try (eexists; split; [reflexivity | discriminate]);
    repeat match goal with
           | H : exists _, _ |- _ => destruct H
           | H : _ /\ _ |- _ => destruct H
           | H : _ \/ _ |- _ => destruct H
           end; try discriminate; try congruence.
Qed.

(** C3 at the input on which the code departs from it.  The analysis call
    raises an exception whose text is empty (a timeout without message);
    it is caught, the video is cleaned up and the entry is written, but
    with category [not_restaurant] and not [analysis_failed], because line
    221 tests the truth of the error text. *)
Theorem analysis_exception_without_text :
  let env := sample_env silent_timeout no_results in
  let url := "https://tiktok.com/@chef/video/123?x=1" in
  (analyze_video env (video_path_of ramen_download) url
     (Some (load_rich_metadata env "123" (metadata_of_yt ramen_meta)))
     (analysis_start url ramen_meta
        (log_call (CallGcsDownloadJson TRACKER_BLOB) cold_world))).1
    = Raised "" /\
  (process_url env url "me" "" cold_world).1
    = Returned (success_response not_restaurant likely []) /\
  (tracker_file (process_url env url "me" "" cold_world).2 ≫= (.!! url))
    = Some (analysed_entry env ramen_download "me" "" not_restaurant likely []
              (Some "")) /\
  In (CallCleanup (video_path_of ramen_download))
     (calls (process_url env url "me" "" cold_world).2).
Proof.
  cbv zeta. split; [vm_compute; reflexivity|].
  split; [vm_compute; reflexivity|].
  split; [vm_compute; reflexivity|].
  vm_compute. right. right. now left.
Qed.

(** ** A model reply that is not JSON *)

(** C10. When the text the model returns is not valid JSON,
    [analyze_video] returns the empty list and raises nothing, and it
    uploads no analysis envelope.  The handler then records the category
    [not_restaurant] (not [analysis_failed]) with zero restaurants, no
    analysis file and no error, and from then on every submission of a URL
    with the same normal form is answered "Already processed" without any
    call: the URL is never retried. *)
Theorem invalid_json_marks_handled (env : Env) (url sender chat_name : string)
    (w : World) (t : Tracker) (w1 : World) (meta : YtMeta) (dl : DlResult)
    (text : string)
    (Hload : load_tracker env w = (Returned t, w1))
    (Hfresh : is_duplicate url t = false)
    (Hmeta : yt_extract env url = Returned meta)
    (Hpass : is_likely_restaurant (metadata_of_yt meta) <> unlikely)
    (Hdl : yt_download env url = Returned dl)
    (Hdisk : video_on_disk env (video_path_of dl) = true)
    (Hclient : gemini_client env = Returned tt)
    (Hupload : gemini_upload env = Returned tt)
    (Hactive : gemini_settled env = ACTIVE)
    (Htext : gemini_generate env = Returned text)
    (Hjson : json_loads env text = None) :
  (forall md w0,
     exists w0' cs,
       analyze_video env (video_path_of dl) url md w0 = (Returned [], w0') /\
       gcs_analysis w0' = gcs_analysis w0 /\
       calls w0' = cs ++ calls w0 /\
       Forall (fun c => is_gcs_upload c = false) cs) /\
  (exists w',
     process_url env url sender chat_name w =
       (Returned (success_response not_restaurant
                    (is_likely_restaurant (metadata_of_yt meta)) []), w') /\
     (exists entry,
        tracker_file w' = Some (<[url := entry]> t) /\
        te_category entry = not_restaurant /\
        te_restaurants_found entry = Some 0%nat /\
        te_analysis_file entry = None /\
        te_analysis_error entry = None) /\
     gcs_analysis w' = gcs_analysis w /\
     (forall env' url' sender' chat_name',
        normalize_url url' = normalize_url url ->
        process_url env' url' sender' chat_name' w' =
          (Returned (plain_response 200 st_skipped "Already processed"), w'))).
Proof.
  assert (Han : forall md w0,
    analyze_video env (video_path_of dl) url md w0 =
      (Returned [], analysed_invalid_json env (video_path_of dl) text w0)).
  { intros md w0. now apply analyze_video_invalid_json. }
  assert (Hst : forall w0,
    gcs_analysis (analysed_invalid_json env (video_path_of dl) text w0)
      = gcs_analysis w0 /\
    exists cs,
      calls (analysed_invalid_json env (video_path_of dl) text w0)
        = cs ++ calls w0 /\
      Forall (fun c => is_gcs_upload c = false) cs).
  { intros w0. unfold analysed_invalid_json.
    cbn [log_line log_call gcs_analysis calls].
    match goal with
    | |- context [waited ?n ?x] =>
        destruct (waited_stores n x) as (_ & _ & H3 & cs & H4 & H5)
    end.
    rewrite H3, H4. cbn [gcs_analysis calls]. split; [reflexivity|].
    exists (CallGeminiGenerate :: cs ++ [CallGeminiUpload (video_path_of dl)]).
    split; [simpl; rewrite <- app_assoc; reflexivity|].
    constructor; [reflexivity|]. apply Forall_app. split; [exact H5|].
    now repeat constructor. }
  split.
  { intros md w0. destruct (Hst w0) as (H1 & cs & H2 & H3).
    eexists. exists cs. split; [apply Han|]. split; [exact H1|].
    split; [exact H2 | exact H3]. }
  assert (Hrun :
    run_analysis env (video_path_of dl) url
      (load_rich_metadata env (dl_id dl) (metadata_of_yt meta))
      (log_call (CallDownloadVideo url) (filtered_world url meta w1))
    = (Returned ([], None),
       analysed_invalid_json env (video_path_of dl) text
         (log_call (CallDownloadVideo url) (filtered_world url meta w1)))).
  { unfold run_analysis, try_except, bind. now rewrite Han. }
  pose proof (download_succeeded env url sender chat_name t meta
                (is_likely_restaurant (metadata_of_yt meta))
                (filtered_world url meta w1) dl [] None _ Hdl Hrun) as Hp.
  rewrite <- (process_url_passed env url sender chat_name w t w1 meta
                Hload Hfresh Hmeta Hpass) in Hp.
  change (determine_category None []) with not_restaurant in Hp.
  eexists. split; [exact Hp|].
  match goal with
  | |- context [finished ?e ?u ?d ?c ?a ?tr ?w3] =>
      destruct (finished_stores e u d c a tr w3) as (F1 & _ & F3 & _)
  end.
  split; [|split].
  - eexists. split; [exact F1|]. now repeat split.
  - rewrite F3. rewrite (proj1 (Hst _)). simpl.
    pose proof (load_tracker_gcs_analysis env w) as Hg.
    now rewrite Hload in Hg.
  - intros env' url' sender' chat_name' Hn.
    apply (process_url_duplicate env' url' sender' chat_name' _ _ _
             (load_tracker_primary env' _ _ F1)).
    apply is_duplicate_spec. exists url. split; [|now symmetry].
    rewrite lookup_insert_eq. now eexists.
Qed.

Lemma invalid_json_marks_handled_witness :
  exists w',
    process_url (sample_env (Returned "I am not JSON") no_results)
      "https://tiktok.com/@chef/video/123?x=1" "me" "" cold_world
      = (Returned (success_response not_restaurant likely []), w') /\
    gcs_analysis w' = ∅ /\
    process_url (sample_env (Returned "[]") no_results)
      "https://tiktok.com/@chef/video/123/" "me" "" w'
      = (Returned (plain_response 200 st_skipped "Already processed"), w').
Proof.
  assert (Hpass : is_likely_restaurant (metadata_of_yt ramen_meta) <> unlikely)
    by (vm_compute; discriminate).
  destruct (invalid_json_marks_handled
              (sample_env (Returned "I am not JSON") no_results)
              "https://tiktok.com/@chef/video/123?x=1" "me" "" cold_world ∅
              (log_call (CallGcsDownloadJson TRACKER_BLOB) cold_world)
              ramen_meta ramen_download "I am not JSON"
              eq_refl eq_refl eq_refl Hpass eq_refl eq_refl eq_refl eq_refl
              eq_refl eq_refl eq_refl)
    as (_ & w' & Hp & _ & Hg & Hretry).
  exists w'. split.
  - rewrite Hp. reflexivity.
  - split; [exact Hg|]. apply Hretry. vm_compute. reflexivity.
Defined.

(** * Further properties of the code *)

(** ** [normalize_url] and [is_duplicate] *)

Lemma rstrip_fixed ch s : Str.ends_with ch s = false -> Str.rstrip ch s = s.
Proof.
  induction s as [|c r IH]; [reflexivity|]. simpl.
  destruct r as [|c' r'].
  - intros H. simpl. now rewrite H.
  - intros H. rewrite (IH H). reflexivity.
Qed.

(** A URL is its own normal form exactly when it contains no [?], no [#]
    and does not end in [/]; so normalising twice is normalising once. *)
Theorem normalize_url_fixed_points (u : string) :
  (normalize_url u = u <->
   Str.has_char "?" u = false /\ Str.has_char "#" u = false /\
   Str.ends_with "/" u = false) /\
  normalize_url (normalize_url u) = normalize_url u.
Proof.
  assert (Hfix : forall v,
    Str.has_char "?" v = false /\ Str.has_char "#" v = false /\
    Str.ends_with "/" v = false -> normalize_url v = v).
  { intros v (Hq & Hh & He). unfold normalize_url.
    rewrite (split_head_id _ _ Hq), (split_head_id _ _ Hh).
    now apply rstrip_fixed. }
  split.
  - split; [|apply Hfix]. intros H. rewrite <- H. apply normalize_url_clean.
  - apply Hfix, normalize_url_clean.
Qed.

Lemma normalize_url_fixed_points_witness :
  normalize_url "https://vm.tiktok.com/ZM123" = "https://vm.tiktok.com/ZM123".
Proof.
  apply (proj1 (normalize_url_fixed_points "https://vm.tiktok.com/ZM123")).
  repeat split; reflexivity.
Defined.

(** Recording a URL makes exactly the URLs with its normal form
    duplicates, on top of those that already were; nothing is a duplicate
    in an empty tracker. *)
Theorem is_duplicate_insert (url k : string) (e : TrackerEntry) (t : Tracker) :
  (is_duplicate url (<[k := e]> t) = true <->
   normalize_url k = normalize_url url \/ is_duplicate url t = true) /\
  is_duplicate url ∅ = false.
Proof.
  split.
  - rewrite !is_duplicate_spec. split.
    + intros (k' & Hk & Hn). destruct (decide (k = k')) as [->|Hne].
      * now left.
      * right. exists k'. rewrite lookup_insert_ne in Hk by assumption. now split.
    + intros [Hn|(k' & Hk & Hn)].
      * exists k. split; [|exact Hn]. rewrite lookup_insert_eq. now eexists.
      * destruct (decide (k = k')) as [->|Hne].
        -- exists k'. split; [|exact Hn]. rewrite lookup_insert_eq. now eexists.
        -- exists k'. split; [|exact Hn]. now rewrite lookup_insert_ne.
  - destruct (is_duplicate url ∅) eqn:E; [|reflexivity].
    apply is_duplicate_spec in E as (k' & [e' Hk] & _).
    now rewrite lookup_empty in Hk.
Qed.

Lemma is_duplicate_insert_witness :
  is_duplicate "https://tiktok.com/@chef/video/123/#top" handled_tracker = true.
Proof.
  apply (proj1 (is_duplicate_insert "https://tiktok.com/@chef/video/123/#top"
                  "https://tiktok.com/@chef/video/123?x=1" _ ∅)).
  left. vm_compute. reflexivity.
Defined.

(** ** The [/process] endpoint as a whole *)



(** [/process] never changes or removes an entry the tracker file already
    holds, and adds at most one. *)
Theorem handle_process_keeps_entries (env : Env) (data : option Request)
    (w : World) (t : Tracker) (Hfile : tracker_file w = Some t) :
  exists t',
    tracker_file (handle_process env data w).2 = Some t' /\
    t ⊆ t' /\ (size t' <= S (size t))%nat /\
    (forall k e, t !! k = Some e -> t' !! k = Some e).
Proof.
  assert (Hgoal : exists t',
    tracker_file (handle_process env data w).2 = Some t' /\
    t ⊆ t' /\ (size t' <= S (size t))%nat).
  { destruct data as [[[url|] chat sender]|]; simpl;
      try (exists t; repeat split; [exact Hfile | reflexivity | lia]).
    unfold handle_process. simpl.
    pose proof (load_tracker_primary env w t Hfile) as Hl.
    destruct (process_url_outcome env url (or_empty sender) (or_empty chat)
                w t w Hl) as (resp & w' & cs & Hp & _ & Hcases).
    rewrite Hp. simpl.
    destruct Hcases as [(_ & _ & ->)|[(_ & _ & H1 & _)
      |[(Hd & (m & _ & _ & _ & H1) & _)|[(_ & _ & H1 & _)
      |(Hd & (m & dl & a & err & _ & _ & _ & _ & _ & H1) & _)]]]].
    - exists t. repeat split; [exact Hfile | reflexivity | lia].
    - exists t. repeat split; [congruence | reflexivity | lia].
    - eexists. split; [exact H1|]. pose proof (not_duplicate_fresh url t Hd).
      split; [now apply insert_subseteq|].
      rewrite map_size_insert_None by assumption. lia.
    - exists t. repeat split; [congruence | reflexivity | lia].
    - eexists. split; [exact H1|]. pose proof (not_duplicate_fresh url t Hd).
      split; [now apply insert_subseteq|].
      rewrite map_size_insert_None by assumption. lia. }
  destruct Hgoal as (t' & H1 & H2 & H3). exists t'.
  repeat split; try assumption.
  intros k e Hk. eapply lookup_weaken; eassumption.
Qed.

Lemma handle_process_keeps_entries_witness :
  exists t',
    tracker_file
      (handle_process (sample_env (Returned "[]") no_results)
         (Some {| rq_url := Some "https://vm.tiktok.com/ZM123";
                  rq_chat_name := None; rq_sender := None |})
         handled_world).2 = Some t' /\
    handled_tracker ⊆ t'.
Proof.
  destruct (handle_process_keeps_entries (sample_env (Returned "[]") no_results)
              (Some {| rq_url := Some "https://vm.tiktok.com/ZM123";
                       rq_chat_name := None; rq_sender := None |})
              handled_world handled_tracker eq_refl) as (t' & H1 & H2 & _).
  exists t'. now split.
Defined.

(** ** Persistence of the tracker *)

(** What [save_tracker] wrote is what [load_tracker] reads back, whether
    or not the bucket can be reached at either time.  After a cold start
    that loses the file, a tracker that is not empty and was mirrored is
    restored from the bucket and written back to the file. *)
Theorem save_load_round_trip (env env' : Env) (t : Tracker) (w : World) :
  load_tracker env' (save_tracker env t w).2
    = (Returned t, (save_tracker env t w).2) /\
  (gcs_up env = true -> gcs_up env' = true -> t <> ∅ ->
   exists w',
     load_tracker env' (lose_tracker_file (save_tracker env t w).2)
       = (Returned t, w') /\
     tracker_file w' = Some t /\ gcs_tracker w' = Some t) /\
  (gcs_up env' = false ->
   exists w',
     load_tracker env' (lose_tracker_file (save_tracker env t w).2)
       = (Returned ∅, w') /\
     tracker_file w' = None).
Proof.
  rewrite save_tracker_saved. simpl.
  destruct (saved_stores env t w) as (S1 & _).
  split; [now apply load_tracker_primary|]. split.
  - intros Hup Hup' Hne.
    assert (Hg : gcs_tracker (lose_tracker_file (saved env t w)) = Some t).
    { unfold saved. rewrite Hup. reflexivity. }
    rewrite (load_tracker_restore env' (lose_tracker_file (saved env t w)) t
               eq_refl Hup' Hg Hne).
    eexists. split; [reflexivity|]. split; [reflexivity | exact Hg].
  - intros Hdown.
    destruct (load_tracker_nothing env' (lose_tracker_file (saved env t w))
                eq_refl (or_introl Hdown)) as (w' & H1 & H2 & _).
    exists w'. now split.
Qed.

Lemma save_load_round_trip_witness :
  exists w',
    load_tracker (sample_env (Returned "[]") no_results)
      (lose_tracker_file
         (save_tracker (sample_env (Returned "[]") no_results)
            handled_tracker cold_world).2)
      = (Returned handled_tracker, w') /\
    tracker_file w' = Some handled_tracker.
Proof.
  assert (Hne : handled_tracker <> ∅).
  { intros H. apply (f_equal size) in H. vm_compute in H. discriminate H. }
  destruct (save_load_round_trip (sample_env (Returned "[]") no_results)
              (sample_env (Returned "[]") no_results) handled_tracker cold_world)
    as (_ & H & _).
  destruct (H eq_refl eq_refl Hne) as (w' & H1 & H2 & _).
  exists w'. now split.
Defined.

(** ** The [/health] endpoint *)

Section Health.

Lemma category_eqb_eq a b : category_eqb a b = true <-> a = b.
Proof. destruct a, b; simpl; split; intros H; congruence. Qed.

Lemma category_eqb_refl a : category_eqb a a = true.
Proof. now destruct a. Qed.

Lemma categories_total_bump c d :
  categories_total (categories_bump c d) = S (categories_total d).
Proof.
  induction d as [|[c' n] rest IH]; simpl; [reflexivity|].
  destruct (category_eqb c' c); simpl; [lia | rewrite IH; lia].
Qed.

Lemma categories_get_bump c c' d :
  categories_get c' (categories_bump c d) =
    if category_eqb c c' then S (categories_get c' d) else categories_get c' d.
Proof.
  induction d as [|[k n] rest IH]; simpl.
  - destruct (category_eqb c c'); reflexivity.
  - destruct (category_eqb k c) eqn:Ekc; simpl.
    + apply category_eqb_eq in Ekc as ->.
      destruct (category_eqb c c'); reflexivity.
    + destruct (category_eqb k c') eqn:Ekc'; [|exact IH].
      apply category_eqb_eq in Ekc' as <-.
      assert (Hck : category_eqb c k = false).
      { destruct (category_eqb c k) eqn:E; [|reflexivity].
        apply category_eqb_eq in E as ->. now rewrite category_eqb_refl in Ekc. }
      now rewrite Hck.
Qed.

Lemma categories_bump_keys c d :
  NoDup d.*1 -> NoDup (categories_bump c d).*1 /\
  (forall k, k ∈ (categories_bump c d).*1 <-> k = c \/ k ∈ d.*1).
Proof.
  induction d as [|[k n] rest IH]; simpl.
  - intros _. split; [apply NoDup_singleton|].
    intros k. rewrite list_elem_of_singleton, elem_of_nil. tauto.
  - intros Hnd. apply NoDup_cons in Hnd as [Hk Hrest].
    destruct (category_eqb k c) eqn:Ekc; simpl.
    + apply category_eqb_eq in Ekc as ->. split.
      * now apply NoDup_cons.
      * intros k'. rewrite elem_of_cons. tauto.
    + destruct (IH Hrest) as [IH1 IH2]. split.
      * apply NoDup_cons. split; [|exact IH1].
        rewrite IH2. intros [->|H]; [|contradiction].
        now rewrite category_eqb_refl in Ekc.
      * intros k'. rewrite !elem_of_cons, IH2. tauto.
Qed.

Lemma categories_bump_positive c d :
  Forall (fun p => (1 <= p.2)%nat) d ->
  Forall (fun p => (1 <= p.2)%nat) (categories_bump c d).
Proof.
  induction d as [|[k n] rest IH]; simpl; intros H.
  - repeat constructor.
  - apply Forall_cons in H as [H1 H2].
    destruct (category_eqb k c); constructor; simpl in *; auto; lia.
Qed.

Lemma count_categories_spec entries d :
  NoDup d.*1 -> Forall (fun p => (1 <= p.2)%nat) d ->
  categories_total (count_categories entries d)
    = (length entries + categories_total d)%nat /\
  (forall c, categories_get c (count_categories entries d) =
     (length (List.filter (fun e => category_eqb (te_category e) c) entries)
      + categories_get c d)%nat) /\
  NoDup (count_categories entries d).*1 /\
  Forall (fun p => (1 <= p.2)%nat) (count_categories entries d).
Proof.
  revert d. induction entries as [|e rest IH]; intros d Hnd Hpos; simpl.
  - repeat split; auto.
  - destruct (IH (categories_bump (te_category e) d)
                (proj1 (categories_bump_keys _ _ Hnd))
                (categories_bump_positive _ _ Hpos)) as (I1 & I2 & I3 & I4).
    split; [rewrite I1, categories_total_bump; lia|].
    split; [|now split].
    intros c. rewrite I2, categories_get_bump.
    destruct (category_eqb (te_category e) c); simpl; lia.
Qed.

End Health.

(** [/health] always answers "ok".  [total_entries] is the number of
    entries of the tracker it loaded; [categories] lists each category
    that occurs once, with the number of entries that have it (never
    zero), and these numbers add up to [total_entries]. *)
Theorem health_counts (env : Env) (w : World) :
  exists body w' t,
    health env w = (Returned body, w') /\
    load_tracker env w = (Returned t, w') /\
    hb_status body = "ok" /\
    hb_total_entries body = size t /\
    categories_total (hb_categories body) = hb_total_entries body /\
    (forall c, categories_get c (hb_categories body) = entries_in c t) /\
    NoDup (hb_categories body).*1 /\
    Forall (fun p => (1 <= p.2)%nat) (hb_categories body) /\
    (forall c, c ∈ (hb_categories body).*1 <-> (0 < entries_in c t)%nat).
Proof.
  destruct (load_tracker_cases env w) as (t & w' & Hl & _).
  destruct (count_categories_spec (map_to_list t).*2 []
              (NoDup_nil_2) (Forall_nil_2 _)) as (H1 & H2 & H3 & H4).
  eexists _, w', t. split.
  { unfold health. rewrite (bind_returned _ _ _ _ _ Hl). reflexivity. }
  split; [exact Hl|]. simpl.
  split; [reflexivity|]. split; [reflexivity|].
  split; [rewrite H1, length_fmap, length_map_to_list; simpl; lia|].
  assert (Hget : forall c,
    categories_get c (count_categories (map_to_list t).*2 []) = entries_in c t).
  { intros c. rewrite H2. unfold entries_in. simpl. lia. }
  split; [exact Hget|]. split; [exact H3|]. split; [exact H4|].
  intros c. rewrite <- Hget.
  generalize dependent (count_categories (map_to_list t).*2 []).
  intros d _ _ Hnd Hpos _. clear -Hpos.
  induction d as [|[k n] rest IH]; simpl.
  - rewrite elem_of_nil. split; [tauto | lia].
  - apply Forall_cons in Hpos as [Hn Hrest]. simpl in Hn.
    rewrite elem_of_cons. destruct (category_eqb k c) eqn:E.
    + apply category_eqb_eq in E as ->. split; [lia | now left].
    + rewrite (IH Hrest). split; [|tauto].
      intros [->|H]; [|exact H]. now rewrite category_eqb_refl in E.
Qed.

(** ** The pre-filter is permissive *)

Lemma matches_positive keywords text kw :
  In kw keywords -> Str.contains text (Str.lower kw) = true ->
  (0 < matches keywords text)%nat.
Proof.
  intros Hin Hc. unfold matches.
  assert (H : In kw (List.filter (fun k => Str.contains text (Str.lower k))
                       keywords))
    by (apply List.filter_In; now split).
  destruct (List.filter _ keywords); [contradiction | simpl; lia].
Qed.



(** ** What the geocoder asks and returns *)

Section GeocoderResults.

Variable env : Env.

Lemma string_length_app (a b : string) :
  String.length (a +:+ b) = (String.length a + String.length b)%nat.
Proof.
  induction a as [|c a IH]; [reflexivity|].
  rewrite string_app_cons. simpl. now rewrite IH.
Qed.

Lemma join_length l :
  l <> [] -> (String.length (Str.join ", " l) + 2)%nat = parts_weight l.
Proof.
  induction l as [|p [|q r] IH]; intros H; [congruence| |].
  - simpl. lia.
  - change (Str.join ", " (p :: q :: r))
      with (p +:+ ", " +:+ Str.join ", " (q :: r)).
    rewrite !string_length_app.
    change (parts_weight (p :: q :: r))
      with (String.length p + 2 + parts_weight (q :: r))%nat.
    rewrite <- IH by discriminate. simpl. lia.
Qed.

Lemma parts_weight_app a b :
  parts_weight (a ++ b) = (parts_weight a + parts_weight b)%nat.
Proof. induction a as [|p a IH]; simpl; [reflexivity | rewrite IH; lia]. Qed.

Lemma parts_weight_zero l : parts_weight l = 0%nat -> l = [].
Proof. destruct l; simpl; [reflexivity | lia]. Qed.

(** The fallback query is never the original query again. *)
Lemma fallback_query_differs l :
  fallback_parts l <> [] -> fallback_parts l <> query_parts l ->
  Str.join ", " (fallback_parts l) <> Str.join ", " (query_parts l).
Proof.
  intros Hne Hd Heq.
  assert (Hp : query_parts l <> []).
  { unfold query_parts, fallback_parts in *.
    destruct (present (city l)), (present (country l)),
      (present (specific_address l)), (present (neighborhood l)),
      (present (state_or_region l)); simpl in *; congruence. }
  pose proof (join_length _ Hne) as H1.
  pose proof (join_length _ Hp) as H2.
  rewrite Heq in H1. rewrite H2 in H1.
  unfold query_parts, fallback_parts in H1.
  rewrite !parts_weight_app in H1.
  apply Hd. unfold query_parts, fallback_parts.
  rewrite (parts_weight_zero (present (specific_address l))) by lia.
  rewrite (parts_weight_zero (present (neighborhood l))) by lia.
  rewrite (parts_weight_zero (present (state_or_region l))) by lia.
  reflexivity.
Qed.

Lemma geocode_first_reply l w pl rest :
  query_parts l <> [] ->
  nominatim env (Str.join ", " (query_parts l)) = NetJson (pl :: rest) ->
  exists w',
    geocode_restaurant env (Some l) w
      = (Returned (first_place (NetJson (pl :: rest))), w') /\
    calls w' = CallNominatim (Str.join ", " (query_parts l)) :: calls w.
Proof.
  intros Hp He. unfold geocode_restaurant, urlopen.
  destruct (query_parts l) as [|p ps] eqn:E; [congruence|].
  run. rewrite He. simpl. destruct pl; simpl; eauto.
Qed.

Lemma geocode_fallback_reply l w :
  query_parts l <> [] ->
  nominatim env (Str.join ", " (query_parts l)) = NetJson [] ->
  fallback_parts l <> [] -> fallback_parts l <> query_parts l ->
  (geocode_restaurant env (Some l) w).1
    = Returned (first_place (nominatim env (Str.join ", " (fallback_parts l)))).
Proof.
  intros Hp He Hne Hd. unfold geocode_restaurant, urlopen.
  destruct (query_parts l) as [|p ps] eqn:E; [congruence|].
  run. rewrite He. simpl.
  rewrite (bool_decide_eq_true_2 _ Hne), (bool_decide_eq_true_2 _ Hd). simpl.
  destruct (nominatim env (Str.join ", " (fallback_parts l)))
    as [e|[|[a b|] rest]]; reflexivity.
Qed.

End GeocoderResults.

(** The geocoder returns coordinates exactly in two cases: the first
    reply starts with a place that reads as two floats, or the first
    reply is empty, a fallback is issued, and its reply starts with such a
    place.  Only the first element of a reply is ever read, and a fallback
    query is never the original query again. *)
Theorem geocoder_result (env : Env) (l : Location) (w : World)
    (Hparts : query_parts l <> []) :
  let q := Str.join ", " (query_parts l) in
  let fq := Str.join ", " (fallback_parts l) in
  (forall c,
     (geocode_restaurant env (Some l) w).1 = Returned (Some c) <->
     first_place (nominatim env q) = Some c \/
     (nominatim env q = NetJson [] /\
      fallback_parts l <> [] /\ fallback_parts l <> query_parts l /\
      first_place (nominatim env fq) = Some c)) /\
  (forall rest,
     nominatim env q = NetJson (PlaceMalformed :: rest) ->
     geocode_restaurant env (Some l) w =
       (Returned None,
        log_line ("[Geocoder] Error geocoding " +:+ q +:+ ": 'lat'")
          (log_call (CallNominatim q) w))) /\
  (fallback_parts l <> [] -> fallback_parts l <> query_parts l -> fq <> q).
Proof.
  intros q fq. subst q fq. split; [|split].
  - intros c.
    destruct (nominatim env (Str.join ", " (query_parts l)))
      as [e|[|pl rest]] eqn:He.
    + destruct (geocode_first_error env l w e Hparts He) as (w' & H1 & _).
      rewrite H1. simpl. split; [discriminate|].
      intros [H|(H & _)]; discriminate.
    + destruct (decide (fallback_parts l = [])) as [Hn|Hn].
      { destruct (geocode_empty_no_fallback env l w Hparts He (or_introl Hn))
          as (w' & H1 & _).
        rewrite H1. simpl. split; [discriminate|].
        intros [H|(_ & H & _)]; [discriminate | contradiction]. }
      destruct (decide (fallback_parts l = query_parts l)) as [Hd|Hd].
      { destruct (geocode_empty_no_fallback env l w Hparts He (or_intror Hd))
          as (w' & H1 & _).
        rewrite H1. simpl. split; [discriminate|].
        intros [H|(_ & _ & H & _)]; [discriminate | contradiction]. }
      rewrite (geocode_fallback_reply env l w Hparts He Hn Hd). split.
      * intros H. right. repeat split; auto. congruence.
      * intros [H|(_ & _ & _ & H)]; [discriminate | congruence].
    + destruct (geocode_first_reply env l w pl rest Hparts He) as (w' & H1 & _).
      rewrite H1. cbn [fst]. split.
      * intros H. left. now inversion H.
      * intros [H|(H & _)]; [now rewrite H | discriminate].
  - intros rest He. unfold geocode_restaurant, urlopen.
    destruct (query_parts l) as [|p ps] eqn:E; [congruence|].
    run. rewrite He. reflexivity.
  - apply fallback_query_differs.
Qed.

Lemma geocoder_result_witness :
  (geocode_restaurant (sample_env (Returned "[]") malformed_then_fine)
     (Some austin_usa) cold_world).1 = Returned None.
Proof.
  assert (Hp : query_parts austin_usa <> []) by (vm_compute; discriminate).
  destruct (geocoder_result (sample_env (Returned "[]") malformed_then_fine)
              austin_usa cold_world Hp) as (_ & H & _).
  rewrite (H [PlaceAt "30.27" "-97.74"] eq_refl). reflexivity.
Defined.

(** A location of which only the country is known is looked up with the
    country as the whole query, in one request, whatever the reply. *)
Theorem geocoder_only_country (env : Env) (c : string) (w : World)
    (Hc : c <> "") :
  exists r w',
    geocode_restaurant env (Some (only_country c)) w = (Returned r, w') /\
    calls w' = CallNominatim c :: calls w /\
    r = first_place (nominatim env c).
Proof.
  assert (Hq : query_parts (only_country c) = [c]).
  { unfold query_parts, only_country, present. simpl.
    destruct c; [congruence | reflexivity]. }
  assert (Hf : fallback_parts (only_country c) = [c]).
  { unfold fallback_parts, only_country, present. simpl.
    destruct c; [congruence | reflexivity]. }
  assert (Hp : query_parts (only_country c) <> []) by (rewrite Hq; discriminate).
  assert (Hj : Str.join ", " (query_parts (only_country c)) = c)
    by (now rewrite Hq).
  destruct (nominatim env c) as [e|[|pl rest]] eqn:He.
  - destruct (geocode_first_error env (only_country c) w e Hp) as (w' & H1 & H2);
      [now rewrite Hj|].
    rewrite Hj in H2. now exists None, w'.
  - destruct (geocode_empty_no_fallback env (only_country c) w Hp) as (w' & H1 & H2);
      [now rewrite Hj | right; congruence |].
    rewrite Hj in H2. now exists None, w'.
  - destruct (geocode_first_reply env (only_country c) w pl rest Hp)
      as (w' & H1 & H2); [now rewrite Hj|].
    rewrite Hj in H2. eexists _, w'. split; [exact H1|]. now split.
Qed.

Lemma geocoder_only_country_witness :
  calls (geocode_restaurant (sample_env (Returned "[]") no_results)
           (Some (only_country "Japan")) cold_world).2
    = [CallNominatim "Japan"].
Proof.
  assert (Hc : "Japan" <> "") by discriminate.
  destruct (geocoder_only_country (sample_env (Returned "[]") no_results)
              "Japan" cold_world Hc) as (r & w' & H1 & H2 & _).
  rewrite H1. exact H2.
Defined.

(** ** Relations computations keep *)

Section Keeps.

Variable R : World -> World -> Prop.
Hypothesis R_refl : forall w, R w w.
Hypothesis R_trans : forall a b c, R a b -> R b c -> R a c.
Hypothesis R_line : forall line w, R w (log_line line w).

Lemma keeps_ret {A} (a : A) : keeps R (ret a).
Proof. intros w. apply R_refl. Qed.

Lemma keeps_raise {A} e : keeps R (@raise A e).
Proof. intros w. apply R_refl. Qed.

Lemma keeps_answer {A} (o : Outcome A) : keeps R (answer o).
Proof. intros w. apply R_refl. Qed.

Lemma keeps_print line : keeps R (print line).
Proof. intros w. apply R_line. Qed.

Lemma keeps_bind {A B} (m : M A) (k : A -> M B) :
  keeps R m -> (forall a, keeps R (k a)) -> keeps R (bind m k).
Proof.
  intros Hm Hk w. unfold bind. specialize (Hm w).
  destruct (m w) as [[a|e] w1]; simpl in *; [|exact Hm].
  eapply R_trans; [exact Hm | apply Hk].
Qed.

Lemma keeps_try {A} (m : M A) (h : string -> M A) :
  keeps R m -> (forall e, keeps R (h e)) -> keeps R (try_except m h).
Proof.
  intros Hm Hh w. unfold try_except. specialize (Hm w).
  destruct (m w) as [[a|e] w1]; simpl in *; [exact Hm|].
  eapply R_trans; [exact Hm | apply Hh].
Qed.

End Keeps.

Section KeepsInstances.

Lemma same_envelopes_refl w : same_envelopes w w.
Proof. reflexivity. Qed.

Lemma same_envelopes_trans a b c :
  same_envelopes a b -> same_envelopes b c -> same_envelopes a c.
Proof. unfold same_envelopes. congruence. Qed.

Lemma same_envelopes_line line w : same_envelopes w (log_line line w).
Proof. reflexivity. Qed.

Lemma same_envelopes_call c : keeps same_envelopes (call c).
Proof. intros w. reflexivity. Qed.

Variable excluded : Call -> bool.

Lemma only_called_refl w : only_called excluded w w.
Proof. now exists []. Qed.

Lemma only_called_trans a b c :
  only_called excluded a b -> only_called excluded b c ->
  only_called excluded a c.
Proof.
  intros (cs1 & H1 & F1) (cs2 & H2 & F2). exists (cs2 ++ cs1). split.
  - rewrite H2, H1. now rewrite app_assoc.
  - apply Forall_app. now split.
Qed.

Lemma only_called_line line w : only_called excluded w (log_line line w).
Proof. now exists []. Qed.

Lemma only_called_call c :
  excluded c = false -> keeps (only_called excluded) (call c).
Proof. intros H w. exists [c]. split; [reflexivity | now repeat constructor]. Qed.

End KeepsInstances.

(** Decompose a [keeps] goal along the program; [refl], [trans] and
    [line] are the three facts about the relation, [oncall] proves the
    goal for a call. *)
Ltac keeps_step refl trans line oncall :=
  match goal with
  | |- keeps _ (bind _ _) => apply (keeps_bind _ trans); [|intros ?]
  | |- keeps _ (try_except _ _) => apply (keeps_try _ trans); [|intros ?]
  | |- keeps _ (call _) => oncall
  | |- keeps _ (print _) => apply (keeps_print _ line)
  | |- keeps _ (ret _) => apply (keeps_ret _ refl)
  | |- keeps _ (raise _) => apply (keeps_raise _ refl)
  | |- keeps _ (answer _) => apply (keeps_answer _ refl)
  | |- keeps _ (match ?x with _ => _ end) => destruct x
  | |- keeps _ (if ?x then _ else _) => destruct x
  | |- keeps _ _ => solve [eauto]
  end.

Ltac keeps_envelopes :=
  repeat keeps_step same_envelopes_refl same_envelopes_trans
    same_envelopes_line ltac:(apply same_envelopes_call).

Ltac keeps_calls excluded :=
  repeat keeps_step (only_called_refl excluded) (only_called_trans excluded)
    (only_called_line excluded)
    ltac:(apply (only_called_call excluded); reflexivity).

Section AnalysisKeeps.

Variable env : Env.

Lemma geocode_keeps_envelopes loc :
  keeps same_envelopes (geocode_restaurant env loc).
Proof. unfold geocode_restaurant, urlopen, read_place. keeps_envelopes. Qed.

Lemma geocode_all_keeps_envelopes rs :
  keeps same_envelopes (geocode_all env rs).
Proof.
  induction rs as [|r rest IH]; simpl; keeps_envelopes.
  apply geocode_keeps_envelopes.
Qed.

Lemma geocode_only_nominatim excluded loc :
  (forall q, excluded (CallNominatim q) = false) ->
  keeps (only_called excluded) (geocode_restaurant env loc).
Proof.
  intros Hq. unfold geocode_restaurant, urlopen, read_place.
  repeat keeps_step (only_called_refl excluded) (only_called_trans excluded)
    (only_called_line excluded)
    ltac:(apply (only_called_call excluded); apply Hq).
Qed.

Lemma geocode_all_only_nominatim excluded rs :
  (forall q, excluded (CallNominatim q) = false) ->
  keeps (only_called excluded) (geocode_all env rs).
Proof.
  intros Hq. induction rs as [|r rest IH]; simpl.
  - apply (keeps_ret _ (only_called_refl excluded)).
  - repeat keeps_step (only_called_refl excluded) (only_called_trans excluded)
      (only_called_line excluded)
      ltac:(apply (only_called_call excluded); apply Hq).
    now apply geocode_only_nominatim.
Qed.

End AnalysisKeeps.

(** ** Geocoding the records of a video *)

Lemma geocode_all_returns env rs w :
  exists rs' w',
    geocode_all env rs w = (Returned rs', w') /\
    Forall2 geocoded rs rs' /\
    gcs_analysis w' = gcs_analysis w /\
    exists cs, calls w' = cs ++ calls w /\
               (length cs <= 2 * length rs)%nat /\
               Forall (fun c => exists q, c = CallNominatim q) cs.
Proof.
  revert w. induction rs as [|r rest IH]; intros w; simpl.
  - exists [], w. repeat split; [constructor|]. exists []. repeat split; auto.
  - pose proof (geocode_keeps_envelopes env (r_location r) w) as Hk.
    pose proof (geocode_only_nominatim env
                  (fun c => match c with CallNominatim _ => false | _ => true end)
                  (r_location r) (fun _ => eq_refl) w) as (cs0 & Hc0 & Hf0).
    destruct (geocode_returns env (r_location r) w) as (c & w1 & cs1 & H1 & H2 & H3).
    rewrite H1 in Hk, Hc0. simpl in Hk, Hc0.
    assert (cs0 = cs1) as -> by (rewrite Hc0 in H2; now apply app_inv_tail in H2).
    destruct (IH w1) as (rs' & w' & I1 & I2 & I3 & cs2 & I4 & I5 & I6).
    eexists _, w'. split.
    { rewrite (bind_returned _ _ _ _ _ H1), (bind_returned _ _ _ _ _ I1).
      reflexivity. }
    split; [constructor; [|exact I2]; repeat split; simpl; eauto|].
    split; [unfold same_envelopes in Hk; congruence|].
    exists (cs2 ++ cs1). split; [rewrite I4, H2; now rewrite app_assoc|].
    split; [rewrite length_app; simpl; lia|].
    apply Forall_app. split; [exact I6|].
    eapply Forall_impl; [exact Hf0|]. intros [] Hx; try discriminate. eauto.
Qed.


(** ** What [analyze_video] stores *)

Lemma bind_inv {A B} (m : M A) (k : A -> M B) w b w' :
  bind m k w = (Returned b, w') ->
  exists a w1, m w = (Returned a, w1) /\ k a w1 = (Returned b, w').
Proof.
  unfold bind. destruct (m w) as [[a|e] w1]; [|discriminate].
  intros H. now exists a, w1.
Qed.

Tactic Notation "bind_step" hyp(H) "as" ident(x) ident(w1) ident(Hs) :=
  apply bind_inv in H as (x & w1 & Hs & H).

Lemma extract_food_frames_spec env rs w :
  exists rs',
    extract_food_frames env rs w = (Returned rs', log_call CallExtractFrames w) /\
    length rs' = length rs /\
    Forall2 (fun r r' => r_name r' = r_name r /\ r_location r' = r_location r /\
                         r_food_images r' = frame_images env r) rs rs'.
Proof.
  eexists. split; [reflexivity|]. split; [apply length_map|].
  induction rs as [|r rest IH]; simpl; constructor; auto.
Qed.

(** The analysis up to the records: everything [analyze_video] does
    before it wraps and stores its result. *)
Lemma analyze_video_records env path url md w a w' :
  analyze_video env path url md w = (Returned a, w') ->
  video_on_disk env path = true /\ gemini_settled env = ACTIVE /\
  (exists text, gemini_generate env = Returned text /\
                length a = reply_records (json_loads env text)) /\
  Forall (fun r => is_Some (r_coords r)) a /\
  exists w0,
    gcs_analysis w0 = gcs_analysis w /\
    ((a = [] /\ w' = log_line "[Gemini] No restaurants found, skipping JSON save" w0) \/
     (a <> [] /\ gcs_up env = true /\
      gcs_analysis w' =
        <[envelope_path path := envelope_of path url md a]> (gcs_analysis w0))).
Proof.
  intros Hrun. unfold analyze_video in Hrun.
  destruct (video_on_disk env path) eqn:Hv; cbn [negb] in Hrun; [|discriminate].
  bind_step Hrun as u wa Hs. unfold answer in Hs. inversion Hs; subst; clear Hs.
  bind_step Hrun as u1 wb Hs. unfold print in Hs. inversion Hs; subst; clear Hs.
  bind_step Hrun as u2 wc Hs. unfold call in Hs. inversion Hs; subst; clear Hs.
  bind_step Hrun as u3 wd Hs. unfold answer in Hs. inversion Hs; subst; clear Hs.
  bind_step Hrun as st we Hs. rewrite wait_while_processing_waited in Hs.
  inversion Hs; subst; clear Hs.
  destruct (gemini_settled env) eqn:Hst; [|discriminate].
  bind_step Hrun as u4 wf Hs. unfold print in Hs. inversion Hs; subst; clear Hs.
  bind_step Hrun as u5 wg Hs. unfold call in Hs. inversion Hs; subst; clear Hs.
  bind_step Hrun as text wh Hs. unfold answer in Hs. inversion Hs; subst; clear Hs.
  match type of Hrun with
  | _ ?wg = _ =>
      assert (Hg : gcs_analysis wg = gcs_analysis wa);
      [cbn [gcs_analysis log_call log_line];
       match goal with
       | |- context [waited ?n ?x] =>
           destruct (waited_stores n x) as (_ & _ & -> & _)
       end; reflexivity
      | remember wg as wstart eqn:Ew; clear Ew]
  end.
  split; [reflexivity|]. split; [reflexivity|].
  bind_step Hrun as x1 w1 Hs.
  assert (Hparsed : gcs_analysis w1 = gcs_analysis wstart /\
            length (match x1 with
                    | JList items => items
                    | JRecord item => [item]
                    | JFalsy => []
                    end) = reply_records (json_loads env text)).
  { destruct (json_loads env text) as [j|]; unfold bind, print, ret in Hs;
      inversion Hs; subst; split; try reflexivity. now destruct x1. }
  clear Hs. destruct Hparsed as [Hg1 Hlen].
  remember (match x1 with
            | JList items => items
            | JRecord item => [item]
            | JFalsy => []
            end) as res0 eqn:Eres. clear Eres x1.
  bind_step Hrun as x2 w2 Hs.
  assert (Hframes : gcs_analysis w2 = gcs_analysis w1 /\ length x2 = length res0).
  { destruct (list_truthy res0).
    - destruct (extract_food_frames_spec env res0 w1) as (rs' & E & L & _).
      rewrite E in Hs. inversion Hs; subst. now split.
    - unfold ret in Hs. inversion Hs; subst. now split. }
  clear Hs. destruct Hframes as [Hg2 Hlen2].
  bind_step Hrun as x3 w3 Hs.
  assert (Hgeo : gcs_analysis w3 = gcs_analysis w2 /\ length x3 = length x2 /\
                 Forall (fun r => is_Some (r_coords r)) x3).
  { destruct x2 as [|r rest]; cbn [list_truthy] in Hs.
    - unfold ret in Hs. inversion Hs; subst. repeat split. constructor.
    - destruct (geocode_all_returns env (r :: rest) w2)
        as (rs' & w5 & E & F & G & _).
      unfold try_except in Hs. rewrite E in Hs. inversion Hs; subst.
      split; [exact G|]. split; [symmetry; eapply Forall2_length; eassumption|].
      clear -F. induction F as [|? ? ? ? (_ & _ & _ & _ & Hc) _ IH];
        constructor; assumption. }
  clear Hs. destruct Hgeo as (Hg3 & Hlen3 & Hcoords).
  bind_step Hrun as u6 w4 Hs. unfold ret in Hrun. inversion Hrun; subst; clear Hrun.
  split; [exists text; split; [assumption | congruence]|].
  split; [exact Hcoords|].
  exists w3. split; [congruence|].
  destruct a as [|r rest]; simpl in Hs.
  - left. split; [reflexivity|]. unfold print in Hs. now inversion Hs.
  - right. split; [discriminate|].
    unfold upload_envelope_json, bind, call, print, raise in Hs.
    destruct (gcs_up env); [|discriminate]. split; [reflexivity|].
    inversion Hs; subst. reflexivity.
Qed.



(** ** Failures of the analysis *)

Section AnalysisFailures.

Variable env : Env.

Lemma waited_calls n w :
  calls (waited n w) = List.repeat CallGeminiGet n ++ calls w.
Proof.
  revert w. induction n as [|n IH]; intros w; simpl; [reflexivity|].
  rewrite IH. simpl.
  change (CallGeminiGet :: calls w) with ([CallGeminiGet] ++ calls w).
  rewrite app_assoc. f_equal.
  clear. induction n as [|n IH]; simpl; [reflexivity | now rewrite IH].
Qed.

Lemma analyze_video_missing path url md w :
  video_on_disk env path = false ->
  analyze_video env path url md w = (Raised ("Video not found: " +:+ path), w).
Proof. intros H. unfold analyze_video. now rewrite H. Qed.

Lemma analyze_video_not_active path url md w name :
  video_on_disk env path = true ->
  gemini_client env = Returned tt -> gemini_upload env = Returned tt ->
  gemini_settled env = OtherState name ->
  analyze_video env path url md w =
    (Raised ("File upload failed with state: " +:+ name),
     waited (gemini_processing env)
       (log_call (CallGeminiUpload path)
          (log_line ("[Gemini] Uploading " +:+ basename path +:+ "...") w))).
Proof.
  intros Hv Hc Hu Hs. unfold analyze_video.
  rewrite Hv. unfold bind, answer, print, call, ret, raise. simpl.
  now rewrite Hc, Hu, wait_while_processing_waited, Hs.
Qed.

End AnalysisFailures.

(** When the downloaded video is not on disk, or the file uploaded to
    Gemini settles in a state other than ACTIVE, the analysis stops there:
    the model is never asked, the error has a text, the video is cleaned
    up and the URL is recorded with category [analysis_failed] and no
    restaurants. *)
Theorem analysis_stops_early (env : Env) (url sender chat_name : string)
    (w : World) (t : Tracker) (w1 : World) (meta : YtMeta) (dl : DlResult)
    (Hload : load_tracker env w = (Returned t, w1))
    (Hfresh : is_duplicate url t = false)
    (Hmeta : yt_extract env url = Returned meta)
    (Hpass : is_likely_restaurant (metadata_of_yt meta) <> unlikely)
    (Hdl : yt_download env url = Returned dl)
    (Hstop : video_on_disk env (video_path_of dl) = false \/
             (video_on_disk env (video_path_of dl) = true /\
              gemini_client env = Returned tt /\
              gemini_upload env = Returned tt /\
              exists name, gemini_settled env = OtherState name)) :
  exists e w' cs,
    e <> "" /\
    process_url env url sender chat_name w =
      (Returned (success_response analysis_failed
                   (is_likely_restaurant (metadata_of_yt meta)) []), w') /\
    tracker_file w' =
      Some (<[url := analysed_entry env dl sender chat_name analysis_failed
                       (is_likely_restaurant (metadata_of_yt meta)) []
                       (Some e)]> t) /\
    gcs_analysis w' = gcs_analysis w /\
    calls w' = cs ++ calls w1 /\
    In (CallCleanup (video_path_of dl)) cs /\
    Forall (fun c => is_generate c = false) cs.
Proof.
  assert (Hraise : exists e w3 csa,
    e <> "" /\ error_truthy (Some e) = true /\
    analyze_video env (video_path_of dl) url
      (Some (load_rich_metadata env (dl_id dl) (metadata_of_yt meta)))
      (analysis_start url meta w1) = (Raised e, w3) /\
    gcs_analysis w3 = gcs_analysis w1 /\
    calls w3 = csa ++ calls (analysis_start url meta w1) /\
    Forall (fun c => is_generate c = false) csa).
  { destruct Hstop as [Hv|(Hv & Hc & Hu & name & Hs)].
    - do 2 eexists. exists []. split; [|split; [|split;
        [now apply analyze_video_missing|]]]; [discriminate | reflexivity |].
      repeat split. constructor.
    - do 2 eexists. exists (List.repeat CallGeminiGet (gemini_processing env)
                              ++ [CallGeminiUpload (video_path_of dl)]).
      split; [|split; [|split;
        [now apply (analyze_video_not_active env _ _ _ _ name)|]]];
        [discriminate | reflexivity |].
      match goal with
      | |- context [waited ?n ?x] =>
          destruct (waited_stores n x) as (_ & _ & -> & _);
          rewrite (waited_calls n x)
      end.
      split; [reflexivity|]. split; [now rewrite <- app_assoc|].
      apply Forall_app. split; [|now repeat constructor].
      clear. induction (gemini_processing env); simpl; constructor; auto. }
  destruct Hraise as (e & w3 & csa & Hne & Htruthy & Han & Hg & Hc & Hf).
  assert (Hrun :
    run_analysis env (video_path_of dl) url
      (load_rich_metadata env (dl_id dl) (metadata_of_yt meta))
      (log_call (CallDownloadVideo url) (filtered_world url meta w1))
    = (Returned ([], Some e),
       log_line ("[ERROR] Gemini analysis failed for " +:+ url +:+ ": " +:+ e)
         w3)).
  { unfold run_analysis, try_except, bind. unfold analysis_start in Han.
    now rewrite Han. }
  pose proof (download_succeeded env url sender chat_name t meta
                (is_likely_restaurant (metadata_of_yt meta))
                (filtered_world url meta w1) dl [] (Some e) _ Hdl Hrun) as Hp.
  rewrite <- (process_url_passed env url sender chat_name w t w1 meta
                Hload Hfresh Hmeta Hpass) in Hp.
  assert (Hcat : determine_category (Some e) [] = analysis_failed).
  { unfold determine_category. now rewrite Htruthy. }
  rewrite Hcat in Hp.
  exists e. eexists.
  exists ([CallGcsUploadJson TRACKER_BLOB; WriteTrackerFile;
           CallCleanup (video_path_of dl)] ++ csa ++
          [CallDownloadVideo url; CallExtractMetadata url]).
  split; [exact Hne|]. split; [exact Hp|].
  match goal with
  | |- context [finished ?e0 ?u ?d ?c ?a ?tr ?wx] =>
      destruct (finished_stores e0 u d c a tr wx) as (F1 & _ & F3 & _);
      destruct (cleaned_up_stores e0 (video_path_of d) (dl_filename d) wx)
        as (_ & _ & _ & C4);
      destruct (saved_stores e0 tr
                  (cleaned_up e0 (video_path_of d) (dl_filename d) wx))
        as (_ & _ & _ & S4)
  end.
  split; [exact F1|]. split.
  { rewrite F3. simpl. rewrite Hg.
    pose proof (load_tracker_gcs_analysis env w) as Hl. now rewrite Hload in Hl. }
  split.
  { unfold finished, rebuilt. cbn [calls log_line]. rewrite S4, C4.
    cbn [calls log_line]. rewrite Hc. unfold analysis_start, filtered_world.
    cbn [calls log_line log_call]. now rewrite <- !app_assoc. }
  split; [simpl; auto|].
  repeat (constructor; [reflexivity|]).
  apply Forall_app. split; [exact Hf | now repeat constructor].
Qed.

Lemma analysis_stops_early_witness :
  (process_url (never_active "FAILED") "https://vm.tiktok.com/ZM123" "me" ""
     cold_world).1
  = Returned (success_response analysis_failed likely []).
Proof.
  assert (Hpass : is_likely_restaurant (metadata_of_yt ramen_meta) <> unlikely)
    by (vm_compute; discriminate).
  destruct (analysis_stops_early (never_active "FAILED")
              "https://vm.tiktok.com/ZM123" "me" "" cold_world ∅
              (log_call (CallGcsDownloadJson TRACKER_BLOB) cold_world)
              ramen_meta ramen_download eq_refl eq_refl eq_refl Hpass eq_refl)
    as (e & w' & cs & _ & Hp & _).
  - right. repeat split. now exists "FAILED".
  - rewrite Hp. reflexivity.
Defined.

Section BucketDown.

Variable env : Env.
Hypothesis Hdown : gcs_up env = false.

Lemma upload_envelope_down e path :
  keeps same_envelopes (upload_envelope_json env e path).
Proof. unfold upload_envelope_json. rewrite Hdown. keeps_envelopes. Qed.

Lemma wait_keeps_envelopes n :
  keeps same_envelopes (wait_while_processing env n).
Proof. induction n as [|n IH]; simpl; keeps_envelopes. Qed.

Lemma extract_food_frames_keeps_envelopes rs :
  keeps same_envelopes (extract_food_frames env rs).
Proof. unfold extract_food_frames. keeps_envelopes. Qed.

Lemma analyze_video_down path url md :
  keeps same_envelopes (analyze_video env path url md).
Proof.
  pose proof upload_envelope_down. pose proof wait_keeps_envelopes.
  pose proof extract_food_frames_keeps_envelopes.
  pose proof (geocode_all_keeps_envelopes env).
  unfold analyze_video. keeps_envelopes.
Qed.

Lemma load_tracker_keeps_envelopes : keeps same_envelopes (load_tracker env).
Proof. intros w. apply load_tracker_gcs_analysis. Qed.

Lemma save_tracker_keeps_envelopes t : keeps same_envelopes (save_tracker env t).
Proof.
  intros w. rewrite save_tracker_saved. simpl.
  now destruct (saved_stores env t w) as (_ & _ & H & _).
Qed.

Lemma process_url_down url sender chat_name :
  keeps same_envelopes (process_url env url sender chat_name).
Proof.
  pose proof analyze_video_down. pose proof load_tracker_keeps_envelopes.
  pose proof save_tracker_keeps_envelopes.
  unfold process_url, download_and_analyse, run_analysis, clean_up,
    extract_metadata, download_video.
  keeps_envelopes.
Qed.

End BucketDown.

(** While the bucket cannot be reached, no request is answered with
    category [restaurant] or with any restaurant in its body, whatever
    the model found, and no envelope is stored: the envelope cannot be
    uploaded, so the analysis raises. *)
Theorem unreachable_bucket_hides_restaurants (env : Env)
    (data : option Request) (w : World) (Hdown : gcs_up env = false) :
  exists resp w',
    handle_process env data w = (Returned resp, w') /\
    rs_category resp <> Some restaurant /\
    rs_analysis resp = [] /\
    (rs_restaurants_found resp = None \/ rs_restaurants_found resp = Some 0%nat) /\
    gcs_analysis w' = gcs_analysis w.
Proof.
  destruct data as [[[url|] chat sender]|]; simpl;
    try (do 2 eexists; split; [reflexivity|];
         repeat split; auto; discriminate).
  unfold handle_process. simpl.
  destruct (load_tracker_cases env w) as (t & w1 & Hl & _).
  pose proof (process_url_down env Hdown url (or_empty sender) (or_empty chat) w)
    as Hkeep.
  destruct (process_url_outcome env url (or_empty sender) (or_empty chat) w t w1 Hl)
    as (resp & w' & cs & Hp & _ & Hcases).
  rewrite Hp in Hkeep. simpl in Hkeep.
  exists resp, w'. split; [exact Hp|].
  assert (Hresp : rs_category resp <> Some restaurant /\ rs_analysis resp = [] /\
    (rs_restaurants_found resp = None \/ rs_restaurants_found resp = Some 0%nat)).
  { destruct Hcases as [(_ & -> & _)|[(_ & (e & _ & ->) & _)
      |[(_ & (m & _ & _ & -> & _) & _)|[(_ & (m & e & _ & _ & _ & ->) & _)
      |(_ & (m & dl & a & err & _ & _ & _ & Han & -> & _) & _)]]]];
      try (simpl; repeat split; auto; discriminate).
    assert (Ha : a = []).
    { destruct Han as [(w3 & Han & _)|(e & w3 & _ & -> & _)]; [|reflexivity].
      destruct (analyze_video_records env _ _ _ _ _ _ Han)
        as (_ & _ & _ & _ & w0 & _ & [(-> & _)|(_ & Hup & _)]);
        [reflexivity | congruence]. }
    subst a. simpl. split; [|split; [reflexivity | now right]].
    unfold determine_category. destruct (error_truthy err); discriminate. }
  destruct Hresp as (R1 & R2 & R3). repeat split; assumption.
Qed.

Lemma unreachable_bucket_hides_restaurants_witness :
  exists resp w',
    handle_process bucket_down
      (Some {| rq_url := Some "https://vm.tiktok.com/ZM123";
               rq_chat_name := None; rq_sender := None |}) cold_world
      = (Returned resp, w') /\
    rs_analysis resp = [].
Proof.
  destruct (unreachable_bucket_hides_restaurants bucket_down
              (Some {| rq_url := Some "https://vm.tiktok.com/ZM123";
                       rq_chat_name := None; rq_sender := None |})
              cold_world eq_refl) as (resp & w' & H1 & _ & H2 & _).
  exists resp, w'. split; [exact H1 | exact H2].
Defined.

(** ** [is_restaurant_video] *)

(** The quick check is an analysis without URL and metadata: when it
    answers [True] it has stored an envelope for the video whose URL and
    title are empty; when it answers [False] it has stored nothing. *)
Theorem is_restaurant_video_stores (env : Env) (path : string) (w : World)
    (b : bool) (w' : World)
    (Hrun : is_restaurant_video env path w = (Returned b, w')) :
  (b = false -> gcs_analysis w' = gcs_analysis w) /\
  (b = true ->
   exists a,
     a <> [] /\
     gcs_analysis w' =
       <[envelope_path path := envelope_of path "" None a]> (gcs_analysis w) /\
     ev_tiktok_url (envelope_of path "" None a) = "" /\
     ev_title (envelope_of path "" None a) = "").
Proof.
  unfold is_restaurant_video in Hrun.
  apply bind_inv in Hrun as (a & w1 & Han & Hret).
  unfold ret in Hret. inversion Hret; subst. clear Hret.
  destruct (analyze_video_records env _ _ _ _ _ _ Han)
    as (_ & _ & _ & _ & w0 & H5 & H6).
  split.
  - intros Hb. destruct a as [|r rest]; [|discriminate Hb].
    destruct H6 as [(_ & ->)|(Hn & _)]; [exact H5 | congruence].
  - intros Hb. destruct a as [|r rest]; [discriminate Hb|].
    exists (r :: rest). split; [discriminate|].
    destruct H6 as [(Hn & _)|(_ & _ & Hst)]; [discriminate|].
    split; [now rewrite Hst, H5|]. now split.
Qed.

Lemma is_restaurant_video_stores_witness :
  gcs_analysis
    (is_restaurant_video (sample_env (Returned "I am not JSON") no_results)
       "/tmp/tiktok_videos/123.mp4" cold_world).2 = ∅.
Proof.
  destruct (is_restaurant_video (sample_env (Returned "I am not JSON") no_results)
              "/tmp/tiktok_videos/123.mp4" cold_world) as [[b|e] w'] eqn:E;
    [|vm_compute in E; discriminate E].
  destruct (is_restaurant_video_stores _ _ _ _ _ E) as (H & _).
  simpl. apply H. vm_compute in E. now inversion E.
Defined.

(** ** The aggregate rebuild is for restaurants only *)

Section RebuildCalls.

Variable env : Env.

Lemma rebuilt_calls c w :
  calls (rebuilt env c w) = rebuild_calls c ++ calls w.
Proof.
  unfold rebuilt, rebuild_calls. destruct c; try reflexivity.
  destruct (rebuild_web_data env); reflexivity.
Qed.

Lemma upload_envelope_no_rebuild e path :
  keeps (only_called is_rebuild) (upload_envelope_json env e path).
Proof.
  intros w. unfold upload_envelope_json, bind, call, raise.
  destruct (gcs_up env); simpl;
    (exists [CallGcsUploadJson path]; split;
     [reflexivity | now repeat constructor]).
Qed.

Lemma wait_no_rebuild n :
  keeps (only_called is_rebuild) (wait_while_processing env n).
Proof. induction n as [|n IH]; simpl; keeps_calls is_rebuild. Qed.

Lemma run_analysis_no_rebuild path url md :
  keeps (only_called is_rebuild) (run_analysis env path url md).
Proof.
  pose proof upload_envelope_no_rebuild. pose proof wait_no_rebuild.
  pose proof (fun rs => geocode_all_only_nominatim env is_rebuild rs
                          (fun _ => eq_refl)).
  unfold run_analysis, analyze_video, extract_food_frames.
  keeps_calls is_rebuild.
Qed.

End RebuildCalls.

(** The aggregate rebuild is triggered exactly by the requests answered
    with category [restaurant], once, and that category is given exactly
    when the body reports at least one restaurant. *)
Theorem rebuild_only_for_restaurants (env : Env) (url sender chat_name : string)
    (w : World) (t : Tracker) (w1 : World)
    (Hload : load_tracker env w = (Returned t, w1)) :
  exists resp w' cs,
    process_url env url sender chat_name w = (Returned resp, w') /\
    calls w' = cs ++ calls w1 /\
    (In CallRebuildWebData cs <-> rs_category resp = Some restaurant) /\
    (length (List.filter is_rebuild cs) <= 1)%nat /\
    (rs_category resp = Some restaurant <->
     exists n, rs_restaurants_found resp = Some (S n)).
Proof.
  assert (Hplain : forall code st msg (w' : World) cs,
    calls w' = cs ++ calls w1 -> Forall (fun c => is_rebuild c = false) cs ->
    process_url env url sender chat_name w
      = (Returned (plain_response code st msg), w') ->
    exists resp w' cs,
      process_url env url sender chat_name w = (Returned resp, w') /\
      calls w' = cs ++ calls w1 /\
      (In CallRebuildWebData cs <-> rs_category resp = Some restaurant) /\
      (length (List.filter is_rebuild cs) <= 1)%nat /\
      (rs_category resp = Some restaurant <->
       exists n, rs_restaurants_found resp = Some (S n))).
  { intros code st msg w' cs Hc Hf Hp. exists (plain_response code st msg), w', cs.
    split; [exact Hp|]. split; [exact Hc|]. simpl.
    assert (Hnot : ~ In CallRebuildWebData cs).
    { intros Hin. rewrite Forall_forall in Hf.
      apply list_elem_of_In in Hin. specialize (Hf _ Hin). discriminate Hf. }
    split; [split; [contradiction | discriminate]|].
    split.
    - clear -Hf. induction Hf as [|c cs Hc _ IH]; simpl; [lia|].
      rewrite Hc. exact IH.
    - split; [discriminate | intros [n Hn]; discriminate]. }
  destruct (is_duplicate url t) eqn:Hd.
  { apply (Hplain 200 st_skipped "Already processed" w1 []);
      [reflexivity | constructor |].
    exact (process_url_duplicate env url sender chat_name w t w1 Hload Hd). }
  destruct (yt_extract env url) as [meta|e] eqn:He.
  2:{ apply (Hplain 500 st_error ("Metadata failed: " +:+ e)
               (log_line ("[ERROR] Metadata extraction failed for " +:+ url
                          +:+ ": " +:+ e)
                  (log_call (CallExtractMetadata url) w1))
               [CallExtractMetadata url]);
        [reflexivity | now repeat constructor |].
      exact (process_url_metadata_failed env url sender chat_name w t w1 e
               Hload Hd He). }
  assert (Hv : is_likely_restaurant (metadata_of_yt meta) = unlikely \/
               is_likely_restaurant (metadata_of_yt meta) <> unlikely)
    by (destruct (is_likely_restaurant (metadata_of_yt meta));
        [right | right | left]; congruence).
  destruct Hv as [Hv|Hv].
  { pose proof (process_url_filtered env url sender chat_name w t w1 meta
                  Hload Hd He Hv) as Hp.
    destruct (saved_stores env
                (<[url := filtered_entry env meta sender chat_name unlikely]> t)
                (filtered_world url meta w1)) as (_ & _ & _ & S4).
    do 2 eexists.
    exists [CallGcsUploadJson TRACKER_BLOB; WriteTrackerFile;
            CallExtractMetadata url].
    split; [exact Hp|]. split; [rewrite S4; reflexivity|]. simpl.
    split; [split; [intros [H|[H|[H|[]]]]; discriminate | discriminate]|].
    split; [lia|]. split; [discriminate | intros [n Hn]; discriminate]. }
  destruct (yt_download env url) as [dl|e] eqn:Hdl.
  2:{ apply (Hplain 500 st_error ("Download failed: " +:+ e)
               (log_line ("[ERROR] Download failed for " +:+ url +:+ ": " +:+ e)
                  (log_call (CallDownloadVideo url) (filtered_world url meta w1)))
               [CallDownloadVideo url; CallExtractMetadata url]);
        [reflexivity | now repeat constructor |].
      rewrite (process_url_passed env url sender chat_name w t w1 meta
                 Hload Hd He Hv).
      exact (download_failed env url sender chat_name t meta _ _ e Hdl). }
  clear Hplain.
  rewrite (process_url_passed env url sender chat_name w t w1 meta Hload Hd He Hv).
  pose proof (run_analysis_no_rebuild env (video_path_of dl) url
                (load_rich_metadata env (dl_id dl) (metadata_of_yt meta))
                (analysis_start url meta w1)) as (csa & Hca & Hfa).
  destruct (run_analysis_cases env url (video_path_of dl)
              (load_rich_metadata env (dl_id dl) (metadata_of_yt meta))
              (analysis_start url meta w1))
    as [(a & w3 & _ & Hr)|(e & w3 & _ & Hr)];
    rewrite Hr in Hca; cbn [snd calls log_line] in Hca;
    unfold analysis_start in Hr;
    rewrite (download_succeeded env url sender chat_name t meta _ _ dl _ _ _ Hdl Hr);
    (do 2 eexists;
     eexists (rebuild_calls _ ++
              [CallGcsUploadJson TRACKER_BLOB; WriteTrackerFile;
               CallCleanup (video_path_of dl)] ++ csa ++
              [CallDownloadVideo url; CallExtractMetadata url]);
     split; [reflexivity|]; split;
     [unfold finished; cbn [calls log_line]; rewrite rebuilt_calls;
      match goal with
      | |- context [saved ?e0 ?tr ?wx] =>
          destruct (saved_stores e0 tr wx) as (_ & _ & _ & ->)
      end;
      match goal with
      | |- context [cleaned_up ?e0 ?p ?f ?wx] =>
          destruct (cleaned_up_stores e0 p f wx) as (_ & _ & _ & ->)
      end;
      try (cbn [calls log_line]); rewrite Hca;
      unfold analysis_start, filtered_world; cbn [calls log_line log_call];
      rewrite <- !app_assoc; reflexivity|]).
  - assert (Hnot : ~ In CallRebuildWebData csa).
    { intros Hin. rewrite Forall_forall in Hfa.
      apply list_elem_of_In in Hin. specialize (Hfa _ Hin). discriminate Hfa. }
    assert (Hcount : length (List.filter is_rebuild csa) = 0%nat).
    { clear -Hfa. induction Hfa as [|c cs Hc _ IH]; simpl; [reflexivity|].
      now rewrite Hc. }
    cbn [rs_category rs_restaurants_found success_response].
    unfold determine_category. cbn [error_truthy].
    destruct a as [|r rest]; cbn [length Nat.ltb Nat.leb rebuild_calls].
    + split; [split; [|discriminate]|].
      { rewrite !in_app_iff. simpl.
        intros [[]|[[H|[H|[H|[]]]]|[H|[H|[H|[]]]]]]; try discriminate.
        contradiction. }
      split; [rewrite !List.filter_app, !length_app, Hcount; simpl; lia|].
      split; [discriminate | intros [n Hn]; discriminate].
    + split; [split; [reflexivity | intros _; now left]|].
      split; [rewrite !List.filter_app, !length_app, Hcount; simpl; lia|].
      split; [intros _; now eexists | reflexivity].
  - assert (Hnot : ~ In CallRebuildWebData csa).
    { intros Hin. rewrite Forall_forall in Hfa.
      apply list_elem_of_In in Hin. specialize (Hfa _ Hin). discriminate Hfa. }
    assert (Hcount : length (List.filter is_rebuild csa) = 0%nat).
    { clear -Hfa. induction Hfa as [|c cs Hc _ IH]; simpl; [reflexivity|].
      now rewrite Hc. }
    cbn [rs_category rs_restaurants_found success_response].
    assert (Hcat : determine_category (Some e) [] <> restaurant).
    { unfold determine_category. destruct (error_truthy (Some e)); discriminate. }
    assert (Hrc : rebuild_calls (determine_category (Some e) []) = []).
    { unfold determine_category. destruct (error_truthy (Some e)); reflexivity. }
    rewrite Hrc.
    split; [split; [|congruence]|].
    { rewrite !in_app_iff. simpl.
      intros [[]|[[H|[H|[H|[]]]]|[H|[H|[H|[]]]]]]; try discriminate.
      contradiction. }
    split; [rewrite !List.filter_app, !length_app, Hcount; simpl; lia|].
    split; [congruence | intros [n Hn]; discriminate].
Qed.

Lemma rebuild_only_for_restaurants_witness :
  exists resp w' cs,
    process_url (sample_env (Returned "I am not JSON") no_results)
      "https://vm.tiktok.com/ZM123" "me" "" cold_world = (Returned resp, w') /\
    calls w' = cs ++ [CallGcsDownloadJson TRACKER_BLOB] /\
    (In CallRebuildWebData cs <-> rs_category resp = Some restaurant).
Proof.
  destruct (rebuild_only_for_restaurants
              (sample_env (Returned "I am not JSON") no_results)
              "https://vm.tiktok.com/ZM123" "me" "" cold_world ∅
              (log_call (CallGcsDownloadJson TRACKER_BLOB) cold_world) eq_refl)
    as (resp & w' & cs & H1 & H2 & H3 & _).
  exists resp, w', cs. split; [exact H1|]. split; [exact H2 | exact H3].
Defined.

(** ** The name of the stored envelope *)

Section FilePaths.

Lemma basename_free name :
  Str.has_char "/" name = false -> basename name = name.
Proof. destruct name as [|c r]; [reflexivity|]. simpl. now intros ->. Qed.

Lemma basename_app dir name :
  Str.has_char "/" name = false -> basename (dir +:+ "/" +:+ name) = name.
Proof.
  intros Hn. induction dir as [|c d IH].
  - change ("" +:+ "/" +:+ name) with (String "/" name).
    simpl. now apply basename_free.
  - rewrite string_app_cons.
    change (basename (String c (d +:+ "/" +:+ name)))
      with (if Str.has_char "/" (String c (d +:+ "/" +:+ name))
            then basename (d +:+ "/" +:+ name)
            else String c (d +:+ "/" +:+ name)).
    assert (H : Str.has_char "/" (String c (d +:+ "/" +:+ name)) = true).
    { simpl. rewrite has_char_app.
      change ("/" +:+ name) with (String "/" name). simpl.
      now rewrite !orb_true_r. }
    now rewrite H.
Qed.

Lemma cut_last_dot_app base ext :
  ext <> "" -> Str.has_char "." ext = false ->
  cut_last_dot (base +:+ "." +:+ ext) = base.
Proof.
  intros He Hd. induction base as [|c b IH].
  - change ("" +:+ "." +:+ ext) with (String "." ext).
    simpl. rewrite Hd. destruct ext; [congruence | reflexivity].
  - rewrite string_app_cons.
    change (cut_last_dot (String c (b +:+ "." +:+ ext)))
      with (if Str.has_char "." (b +:+ "." +:+ ext)
            then String c (cut_last_dot (b +:+ "." +:+ ext))
            else if Ascii.eqb c "." && Str.truthy (b +:+ "." +:+ ext)
                 then EmptyString else String c (b +:+ "." +:+ ext)).
    assert (H : Str.has_char "." (b +:+ "." +:+ ext) = true).
    { rewrite has_char_app. change ("." +:+ ext) with (String "." ext).
      simpl. now rewrite orb_true_r. }
    now rewrite H, IH.
Qed.

Lemma stem_of_file dir base ext :
  base <> "" -> Str.has_char "/" base = false ->
  ext <> "" -> Str.has_char "/" ext = false -> Str.has_char "." ext = false ->
  stem (dir +:+ "/" +:+ base +:+ "." +:+ ext) = base /\
  basename (dir +:+ "/" +:+ base +:+ "." +:+ ext) = base +:+ "." +:+ ext.
Proof.
  intros Hb Hbs He Hes Hed.
  assert (Hname : Str.has_char "/" (base +:+ "." +:+ ext) = false).
  { rewrite has_char_app, Hbs. change ("." +:+ ext) with (String "." ext).
    simpl. exact Hes. }
  pose proof (basename_app dir _ Hname) as Hbn.
  split; [|exact Hbn]. unfold stem. rewrite Hbn.
  destruct base as [|c b]; [congruence|].
  rewrite string_app_cons. now rewrite cut_last_dot_app.
Qed.

End FilePaths.

(** With the file name yt-dlp is told to use, [<id>.<ext>], the envelope
    of a video is stored under [analysis_results/<id>_analysis.json]:
    the object the tracker entry names in [analysis_file] when
    restaurants were found. *)
Theorem envelope_named_after_id (env : Env) (dl : DlResult) (ext : string)
    (sender chat_name : string) (category : Category) (v : Verdict)
    (analysis : list Restaurant) (err : option string)
    (Hname : dl_filename dl = dl_id dl +:+ "." +:+ ext)
    (Hid : dl_id dl <> "") (Hid_slash : Str.has_char "/" (dl_id dl) = false)
    (Hext : ext <> "") (Hext_slash : Str.has_char "/" ext = false)
    (Hext_dot : Str.has_char "." ext = false) :
  stem (video_path_of dl) = dl_id dl /\
  basename (video_path_of dl) = dl_filename dl /\
  envelope_path (video_path_of dl)
    = "analysis_results/" +:+ dl_id dl +:+ "_analysis.json" /\
  (analysis <> [] ->
   exists file,
     te_analysis_file (analysed_entry env dl sender chat_name category v
                         analysis err) = Some file /\
     envelope_path (video_path_of dl) = "analysis_results/" +:+ file) /\
  (analysis = [] ->
   te_analysis_file (analysed_entry env dl sender chat_name category v
                       analysis err) = None).
Proof.
  unfold video_path_of, envelope_path. rewrite Hname.
  destruct (stem_of_file DOWNLOADS_DIR (dl_id dl) ext Hid Hid_slash Hext
              Hext_slash Hext_dot) as [Hs Hb].
  rewrite Hs, Hb. split; [reflexivity|]. split; [reflexivity|].
  split; [reflexivity|]. split.
  - intros Hne. destruct analysis as [|r rest]; [congruence|].
    eexists. split; reflexivity.
  - intros ->. reflexivity.
Qed.

Lemma envelope_named_after_id_witness :
  envelope_path (video_path_of ramen_download)
    = "analysis_results/123_analysis.json".
Proof.
  assert (Hid : dl_id ramen_download <> "") by discriminate.
  assert (Hext : "mp4" <> "") by discriminate.
  destruct (envelope_named_after_id (sample_env (Returned "[]") no_results)
              ramen_download "mp4" "me" "" not_restaurant likely [] None
              eq_refl Hid eq_refl Hext eq_refl eq_refl) as (_ & _ & H & _).
  exact H.
Defined.

(** ** The aggregate dataset *)

Section Build.

Lemma envelope_rows_spec e rs row :
  In row (envelope_rows e rs) <->
  exists r c, In r rs /\ r_coords r = Some (Some c) /\ row = web_row e r c.
Proof.
  induction rs as [|r rest IH]; simpl.
  - split; [tauto | intros (r & c & [] & _)].
  - destruct (r_coords r) as [[c|]|] eqn:E; simpl; rewrite IH; split.
    + intros [<-|(r' & c' & H1 & H2 & H3)]; [now exists r, c; auto|].
      exists r', c'. auto.
    + intros (r' & c' & [<-|H1] & H2 & H3).
      * left. congruence.
      * right. now exists r', c'.
    + intros (r' & c' & H1 & H2 & H3). exists r', c'. auto.
    + intros (r' & c' & [<-|H1] & H2 & H3); [congruence|]. now exists r', c'.
    + intros (r' & c' & H1 & H2 & H3). exists r', c'. auto.
    + intros (r' & c' & [<-|H1] & H2 & H3); [congruence|]. now exists r', c'.
Qed.

Lemma build_loop_spec readable (store : gmap string Envelope) names acc row :
  In row (build_loop readable store names acc) <->
  In row acc \/
  exists name e,
    In name names /\ readable name = true /\ store !! name = Some e /\
    In row (envelope_rows e (ev_restaurants e)).
Proof.
  revert acc. induction names as [|n rest IH]; intros acc; simpl.
  - split; [tauto | intros [H|(n & e & [] & _)]; exact H].
  - destruct (readable n) eqn:Er; [destruct (store !! n) as [e|] eqn:Es|];
      rewrite IH; try rewrite in_app_iff; split.
    + intros [[H|H]|(n' & e' & H1 & H2)]; [now left| |].
      * right. exists n, e. auto.
      * right. exists n', e'. destruct H2 as (H2 & H3 & H4). auto.
    + intros [H|(n' & e' & [<-|H1] & H2 & H3 & H4)]; [tauto| |].
      * left. right. congruence.
      * right. now exists n', e'.
    + intros [H|(n' & e' & H1 & H2)]; [now left|].
      right. exists n', e'. destruct H2 as (H2 & H3 & H4). auto.
    + intros [H|(n' & e' & [<-|H1] & H2 & H3 & H4)]; [tauto|congruence|].
      right. now exists n', e'.
    + intros [H|(n' & e' & H1 & H2)]; [now left|].
      right. exists n', e'. destruct H2 as (H2 & H3 & H4). auto.
    + intros [H|(n' & e' & [<-|H1] & H2 & H3 & H4)]; [tauto|congruence|].
      right. now exists n', e'.
Qed.

Lemma analysis_blobs_spec (store : gmap string Envelope) name :
  In name (analysis_blobs store) <->
  is_analysis_blob name = true /\ is_Some (store !! name).
Proof.
  unfold analysis_blobs.
  rewrite <- list_elem_of_In, merge_sort_Permutation, list_elem_of_In.
  rewrite List.filter_In, <- list_elem_of_In.
  rewrite list_elem_of_fmap. split.
  - intros [([k e] & -> & H) Hb]. split; [exact Hb|].
    apply elem_of_map_to_list in H. now exists e.
  - intros [Hb [e H]]. split; [|exact Hb].
    exists (name, e). split; [reflexivity|]. now apply elem_of_map_to_list.
Qed.

Lemma analysis_blobs_NoDup (store : gmap string Envelope) :
  NoDup (analysis_blobs store).
Proof.
  unfold analysis_blobs. rewrite merge_sort_Permutation.
  apply NoDup_ListNoDup, List.NoDup_filter, NoDup_ListNoDup.
  apply NoDup_fst_map_to_list.
Qed.

Lemma starts_with_self p s : Str.starts_with p (p +:+ s) = true.
Proof.
  induction p as [|c p IH]; [reflexivity|].
  rewrite string_app_cons. simpl. now rewrite Ascii.eqb_refl, IH.
Qed.

Lemma ends_with_str_self suffix s : ends_with_str suffix (s +:+ suffix) = true.
Proof.
  induction s as [|c s IH].
  - change ("" +:+ suffix) with suffix.
    destruct suffix; simpl; [reflexivity|].
    now rewrite Ascii.eqb_refl, String.eqb_refl.
  - rewrite string_app_cons. simpl. rewrite IH. apply orb_true_r.
Qed.

Lemma envelope_path_is_blob path : is_analysis_blob (envelope_path path) = true.
Proof.
  unfold is_analysis_blob, envelope_path.
  rewrite starts_with_self. simpl.
  rewrite <- string_app_assoc. apply ends_with_str_self.
Qed.

End Build.

(** [restaurants.json] holds exactly the records with coordinates of the
    envelopes stored under [analysis_results/..._analysis.json] that can
    be read, each with the URL, title and uploader of its envelope.  The
    envelopes are visited once each, in the order of their names. *)
Theorem build_rows (readable : string -> bool) (store : gmap string Envelope) :
  (forall row,
     In row (build readable store) <->
     exists name e r c,
       store !! name = Some e /\ is_analysis_blob name = true /\
       readable name = true /\
       In r (ev_restaurants e) /\ r_coords r = Some (Some c) /\
       row = web_row e r c) /\
  Sorted String.le (analysis_blobs store) /\
  NoDup (analysis_blobs store) /\
  (forall name, In name (analysis_blobs store) <->
                is_analysis_blob name = true /\ is_Some (store !! name)).
Proof.
  split; [|split; [apply Sorted_merge_sort; apply _|split;
    [apply analysis_blobs_NoDup | apply analysis_blobs_spec]]].
  intros row. unfold build. rewrite build_loop_spec. split.
  - intros [[]|(name & e & H1 & H2 & H3 & H4)].
    apply envelope_rows_spec in H4 as (r & c & H4 & H5 & H6).
    apply analysis_blobs_spec in H1 as [H1 _].
    exists name, e, r, c. auto 10.
  - intros (name & e & r & c & H1 & H2 & H3 & H4 & H5 & H6).
    right. exists name, e. split; [|split; [exact H3|split; [exact H1|]]].
    + apply analysis_blobs_spec. split; [exact H2 | now exists e].
    + apply envelope_rows_spec. now exists r, c.
Qed.

(** What an analysis stores is what the rebuild publishes: once
    [analyze_video] has returned records, each of them that got a
    position is in [restaurants.json] with the URL it was analysed for,
    provided its envelope can be read. *)
Theorem analysed_then_published (env : Env) (path url : string)
    (md : option Metadata) (w : World) (a : list Restaurant) (w' : World)
    (readable : string -> bool)
    (Hrun : analyze_video env path url md w = (Returned a, w'))
    (Hread : readable (envelope_path path) = true) :
  forall r c,
    In r a -> r_coords r = Some (Some c) ->
    In (web_row (envelope_of path url md a) r c)
       (build readable (gcs_analysis w')) /\
    wr_tiktok_url (web_row (envelope_of path url md a) r c) = url /\
    wr_lat (web_row (envelope_of path url md a) r c) = lat c /\
    wr_lng (web_row (envelope_of path url md a) r c) = lng c.
Proof.
  intros r c Hin Hc. split; [|now repeat split].
  destruct (analyze_video_records env path url md w a w' Hrun)
    as (_ & _ & _ & _ & w0 & _ & [(-> & _)|(_ & _ & Hst)]); [destruct Hin|].
  unfold build. apply build_loop_spec. right.
  exists (envelope_path path), (envelope_of path url md a).
  split; [|split; [exact Hread|split]].
  - apply analysis_blobs_spec. split; [apply envelope_path_is_blob|].
    rewrite Hst, lookup_insert_eq. now eexists.
  - now rewrite Hst, lookup_insert_eq.
  - apply envelope_rows_spec. exists r, c. now repeat split.
Qed.

Lemma analysed_then_published_witness :
  exists row,
    In row (build all_readable
              (gcs_analysis
                 (analyze_video austin_found "/tmp/tiktok_videos/123.mp4"
                    "https://vm.tiktok.com/ZM123" None cold_world).2)) /\
    wr_tiktok_url row = "https://vm.tiktok.com/ZM123" /\
    wr_lat row = "30.27".
Proof.
  destruct (analyze_video austin_found "/tmp/tiktok_videos/123.mp4"
              "https://vm.tiktok.com/ZM123" None cold_world)
    as [[a|e] w'] eqn:E; [|vm_compute in E; discriminate E].
  pose proof (analysed_then_published austin_found _ _ _ _ _ _ all_readable
                E eq_refl) as H.
  assert (Ha : a = [{| r_name := "Ramen Tatsu-ya"; r_location := Some austin_usa;
                       r_food_shot_timestamps := ["00:05"];
                       r_food_images := ["123_1_1.jpg"];
                       r_coords := Some (Some {| lat := "30.27";
                                                 lng := "-97.74" |}) |}]).
  { vm_compute in E. now inversion E. }
  destruct (H _ {| lat := "30.27"; lng := "-97.74" |}
              ltac:(rewrite Ha; left; reflexivity) eq_refl) as (H1 & H2 & H3 & _).
  eexists. split; [exact H1|]. split; [exact H2 | exact H3].
Defined.
